(** * execute_test: the velocity test node

    A shallow embedding of [execute_test/main.py] (class [VelocityTestNode]
    and [main]) and the properties of its publish loop, its stop sequence
    and its console parameter collection.

    Python [float] values are IEEE binary64 numbers: they are modelled by
    [spec_float] of the Standard Library with [prec = 53], [emax = 1024].
    The ROS command channel, the wall clock and the console are the
    environment: every effect is explicit in a [World] that is threaded
    through the code by a small state-and-exception monad.

    Each function is modelled as the thread that runs it sees it.  A
    worker thread that is started and joined at once is a call whose
    exceptions stay in the worker.  The interface thread and the main
    thread of [main] are run one after the other; how their steps would
    interleave is not modelled. *)

From Stdlib Require Import ZArith NArith List String Ascii Bool Lia.
From Stdlib Require Import SpecFloat.
Import ListNotations.

Local Open Scope Z_scope.

(** ** Python floats *)

Module PyFloat.

Definition prec : Z := 53.
Definition emax : Z := 1024.

Definition float : Type := spec_float.

(** The literal [0.0]. *)
Definition zero : float := S754_zero false.

Definition sub (x y : float) : float := SFsub prec emax x y.
Definition mul (x y : float) : float := SFmul prec emax x y.
Definition div (x y : float) : float := SFdiv prec emax x y.

(** Python's [<], [<=], [==] and [!=] on floats (all false on NaN but [!=]). *)
Definition ltb (x y : float) : bool := SFltb x y.
Definition leb (x y : float) : bool := SFleb x y.
Definition eqb (x y : float) : bool := SFeqb x y.
Definition neqb (x y : float) : bool := negb (SFeqb x y).

(** Exact conversion of an integer, rounded to nearest even when it has
    more than 53 significant bits. *)
Definition of_Z (z : Z) : float := binary_normalize prec emax z 0 false.

(** The binary64 number nearest to [(-1)^neg * m * 10^e]: what a decimal
    literal denotes.  CPython's [float] is correctly rounded. *)
Definition of_decimal (neg : bool) (m : N) (e : Z) : float :=
  match m with
  | N0 => S754_zero neg
  | Npos p =>
      if 0 <=? e
      then binary_normalize prec emax
             ((if neg then Zneg p else Zpos p) * Z.pow 10 e) 0 neg
      else
        let '(q, e', l) :=
          SFdiv_core_binary prec emax (Zpos p) 0 (Z.pow 10 (- e)) 0 in
        binary_round_aux prec emax neg q e' l
  end.

(** [math.floor] on a float; [None] where Python raises (infinities, NaN). *)
Definition floor (x : float) : option Z :=
  match x with
  | S754_zero _ => Some 0
  | S754_finite s m e =>
      let v := if s then Zneg m else Zpos m in
      Some (if 0 <=? e then Z.shiftl v e else Z.shiftr v (- e))
  | _ => None
  end.

End PyFloat.

(** ** The builtin [float(str)]

    [float] strips ASCII white space, accepts single underscores between
    digits, an optional sign, and then either [inf], [infinity] or [nan]
    (in any case) or a decimal number with an optional exponent.  Anything
    else raises [ValueError], which is [None] here.  Console lines are
    taken to be ASCII text. *)

Module PyStr.

Local Open Scope char_scope.

(** The white space that [float] skips at both ends: space, and tab to
    carriage return. *)
Definition is_space (c : ascii) : bool :=
  let n := nat_of_ascii c in
  (Nat.eqb n 32 || (Nat.leb 9 n && Nat.leb n 13))%bool.

(** The white space of [str.strip]: in ASCII, the same and the four
    separators 28 to 31. *)
Definition is_str_space (c : ascii) : bool :=
  let n := nat_of_ascii c in
  (is_space c || (Nat.leb 28 n && Nat.leb n 31))%bool.

Definition is_digit (c : ascii) : bool :=
  let n := nat_of_ascii c in (Nat.leb 48 n && Nat.leb n 57)%bool.

Definition digit_val (c : ascii) : N := N.of_nat (nat_of_ascii c - 48).

(** ASCII lower case of one character, as [str.lower] does. *)
Definition lower_char (c : ascii) : ascii :=
  let n := nat_of_ascii c in
  if (Nat.leb 65 n && Nat.leb n 90)%bool then ascii_of_nat (n + 32) else c.

Fixpoint lstrip (space : ascii -> bool) (s : list ascii) : list ascii :=
  match s with
  | c :: r => if space c then lstrip space r else s
  | [] => []
  end.

(** White space dropped at both ends. *)
Definition strip_with (space : ascii -> bool) (s : list ascii) : list ascii :=
  rev (lstrip space (rev (lstrip space s))).

(** [str.strip()] with no argument. *)
Definition strip (s : list ascii) : list ascii := strip_with is_str_space s.

Definition lower (s : list ascii) : list ascii := map lower_char s.

(** Longest prefix of decimal digits, and what follows it. *)
Fixpoint span_digits (s : list ascii) : list ascii * list ascii :=
  match s with
  | c :: r =>
      if is_digit c
      then let '(ds, rest) := span_digits r in (c :: ds, rest)
      else ([], s)
  | [] => ([], [])
  end.

Definition digits_value (ds : list ascii) : N :=
  fold_left (fun acc c => (10 * acc + digit_val c)%N) ds 0%N.

(** An underscore is legal only between two digits; legal ones are
    dropped before the number is read. *)
Fixpoint drop_underscores (prev : ascii) (s : list ascii)
  : option (list ascii) :=
  match s with
  | [] => if Ascii.eqb prev "_" then None else Some []
  | c :: r =>
      if Ascii.eqb c "_"
      then if is_digit prev then drop_underscores c r else None
      else if (Ascii.eqb prev "_" && negb (is_digit c))%bool then None
      else option_map (cons c) (drop_underscores c r)
  end.

Definition split_sign (s : list ascii) : bool * list ascii :=
  match s with
  | "-" :: r => (true, r)
  | "+" :: r => (false, r)
  | _ => (false, s)
  end.

(** The exponent part [e[+-]ddd] of a number; [None] when [s] is not
    exactly one. *)
Definition parse_exponent (s : list ascii) : option Z :=
  match s with
  | c :: r =>
      if Ascii.eqb (lower_char c) "e" then
        let '(neg, r') := split_sign r in
        match span_digits r' with
        | ((_ :: _) as ds, []) =>
            let v := Z.of_N (digits_value ds) in
            Some (if neg then (- v)%Z else v)
        | _ => None
        end
      else None
  | [] => None
  end.

Definition parse_number (neg : bool) (s : list ascii)
  : option PyFloat.float :=
  let '(ip, r1) := span_digits s in
  let '(fp, r2) :=
    match r1 with
    | "." :: r => span_digits r
    | _ => ([], r1)
    end in
  match ip ++ fp with
  | [] => None
  | ds =>
      let frac := Z.of_nat (List.length fp) in
      match r2 with
      | [] => Some (PyFloat.of_decimal neg (digits_value ds) (- frac))
      | _ =>
          match parse_exponent r2 with
          | Some e => Some (PyFloat.of_decimal neg (digits_value ds) (e - frac))
          | None => None
          end
      end
  end.

Definition float_of_chars (s : list ascii) : option PyFloat.float :=
  match drop_underscores zero (strip_with is_space s) with
  | None => None
  | Some t =>
      let '(neg, body) := split_sign t in
      let word := string_of_list_ascii (lower body) in
      if (String.eqb word "inf" || String.eqb word "infinity")%bool
      then Some (S754_infinity neg)
      else if String.eqb word "nan" then Some S754_nan
      else parse_number neg body
  end.

(** [float(s)]: [None] stands for [ValueError]. *)
Definition float (s : string) : option PyFloat.float :=
  float_of_chars (list_ascii_of_string s).

(** [s.strip()] and [s.strip().lower()] on strings. *)
Definition strip_string (s : string) : string :=
  string_of_list_ascii (strip (list_ascii_of_string s)).

Definition strip_lower (s : string) : string :=
  string_of_list_ascii (lower (strip (list_ascii_of_string s))).

End PyStr.

(** ** Messages of [geometry_msgs] *)

Module Vector3.
Record t : Type := Build { x : PyFloat.float; y : PyFloat.float; z : PyFloat.float }.
End Vector3.

Module Twist.
Record t : Type := Build { linear : Vector3.t; angular : Vector3.t }.

(** [Twist()]: every field is [0.0]. *)
Definition new : t :=
  Build (Vector3.Build PyFloat.zero PyFloat.zero PyFloat.zero)
        (Vector3.Build PyFloat.zero PyFloat.zero PyFloat.zero).

Definition set_linear_x (v : PyFloat.float) (m : t) : t :=
  Build (Vector3.Build v (Vector3.y (linear m)) (Vector3.z (linear m))) (angular m).
Definition set_linear_y (v : PyFloat.float) (m : t) : t :=
  Build (Vector3.Build (Vector3.x (linear m)) v (Vector3.z (linear m))) (angular m).
Definition set_linear_z (v : PyFloat.float) (m : t) : t :=
  Build (Vector3.Build (Vector3.x (linear m)) (Vector3.y (linear m)) v) (angular m).
Definition set_angular_x (v : PyFloat.float) (m : t) : t :=
  Build (linear m) (Vector3.Build v (Vector3.y (angular m)) (Vector3.z (angular m))).
Definition set_angular_y (v : PyFloat.float) (m : t) : t :=
  Build (linear m) (Vector3.Build (Vector3.x (angular m)) v (Vector3.z (angular m))).
Definition set_angular_z (v : PyFloat.float) (m : t) : t :=
  Build (linear m) (Vector3.Build (Vector3.x (angular m)) (Vector3.y (angular m)) v).
End Twist.

(** ** The world the node runs in *)

(** What the operator does at a prompt: types a line, presses Ctrl-C, or
    closes the console. *)
Inductive console_event : Type :=
| Line (s : string)
| CtrlC
| EndOfFile.

(** What the node writes on the console.  Formatted lines keep the values
    they are formatted from. *)
Inductive printed : Type :=
| Text (s : string)
| StartingTest (linear_vel angular_vel duration : PyFloat.float)
| TestCompleted (elapsed : PyFloat.float).

Inductive TestMode : Type := linear | angular | exit.

Inductive exn : Type :=
| ValueError
| KeyboardInterrupt
| EOFError
| PublishError      (* raised by [cmd_vel_publisher.publish] *)
| InitError.        (* raised while [VelocityTestNode()] is built *)

(** The environment of one run.
    - [clock r s] is what [time.time()] returns when it has been called [r]
      times before and [s] calls of [time.sleep] have completed;
    - [publish_raises n] tells whether the [n]-th call of [publish] raises;
    - [cleared n] tells whether another thread has assigned [False] to
      [is_publishing] by the time the publish loop reads the flag for the
      [n]-th time (the node itself has no such writer);
    - [node_raises] tells whether building the node raises;
    - [sigint] tells whether the process receives SIGINT, which Python
      delivers to the main thread, while [main] is spinning. *)
Record Env : Type := {
  clock : nat -> nat -> PyFloat.float;
  publish_raises : nat -> bool;
  cleared : nat -> bool;
  node_raises : bool;
  sigint : bool
}.

Record World : Type := {
  twist_msg : Twist.t;             (* self.twist_msg *)
  is_publishing : bool;            (* self.is_publishing *)
  test_mode : option TestMode;     (* self.test_mode *)
  rclpy_ok : bool;                 (* rclpy.ok() *)
  node_bound : bool;               (* 'node' in locals() of main *)
  cmd_vel : list Twist.t;          (* messages published so far, oldest first *)
  stdout : list printed;           (* console output so far, oldest first *)
  stdin : list console_event;      (* what the operator will do next *)
  time_calls : nat;
  sleep_calls : nat;
  publish_calls : nat;
  flag_reads : nat
}.

Definition with_twist_msg (v : Twist.t) (w : World) : World :=
  {| twist_msg := v; is_publishing := is_publishing w; test_mode := test_mode w;
     rclpy_ok := rclpy_ok w; node_bound := node_bound w; cmd_vel := cmd_vel w;
     stdout := stdout w; stdin := stdin w; time_calls := time_calls w;
     sleep_calls := sleep_calls w; publish_calls := publish_calls w;
     flag_reads := flag_reads w |}.

Definition with_is_publishing (v : bool) (w : World) : World :=
  {| twist_msg := twist_msg w; is_publishing := v; test_mode := test_mode w;
     rclpy_ok := rclpy_ok w; node_bound := node_bound w; cmd_vel := cmd_vel w;
     stdout := stdout w; stdin := stdin w; time_calls := time_calls w;
     sleep_calls := sleep_calls w; publish_calls := publish_calls w;
     flag_reads := flag_reads w |}.

Definition with_test_mode (v : option TestMode) (w : World) : World :=
  {| twist_msg := twist_msg w; is_publishing := is_publishing w; test_mode := v;
     rclpy_ok := rclpy_ok w; node_bound := node_bound w; cmd_vel := cmd_vel w;
     stdout := stdout w; stdin := stdin w; time_calls := time_calls w;
     sleep_calls := sleep_calls w; publish_calls := publish_calls w;
     flag_reads := flag_reads w |}.

Definition with_rclpy_ok (v : bool) (w : World) : World :=
  {| twist_msg := twist_msg w; is_publishing := is_publishing w;
     test_mode := test_mode w; rclpy_ok := v; node_bound := node_bound w;
     cmd_vel := cmd_vel w; stdout := stdout w; stdin := stdin w;
     time_calls := time_calls w; sleep_calls := sleep_calls w;
     publish_calls := publish_calls w; flag_reads := flag_reads w |}.

Definition with_node_bound (v : bool) (w : World) : World :=
  {| twist_msg := twist_msg w; is_publishing := is_publishing w;
     test_mode := test_mode w; rclpy_ok := rclpy_ok w; node_bound := v;
     cmd_vel := cmd_vel w; stdout := stdout w; stdin := stdin w;
     time_calls := time_calls w; sleep_calls := sleep_calls w;
     publish_calls := publish_calls w; flag_reads := flag_reads w |}.

Definition with_cmd_vel (v : list Twist.t) (w : World) : World :=
  {| twist_msg := twist_msg w; is_publishing := is_publishing w;
     test_mode := test_mode w; rclpy_ok := rclpy_ok w; node_bound := node_bound w;
     cmd_vel := v; stdout := stdout w; stdin := stdin w;
     time_calls := time_calls w; sleep_calls := sleep_calls w;
     publish_calls := publish_calls w; flag_reads := flag_reads w |}.

Definition with_stdout (v : list printed) (w : World) : World :=
  {| twist_msg := twist_msg w; is_publishing := is_publishing w;
     test_mode := test_mode w; rclpy_ok := rclpy_ok w; node_bound := node_bound w;
     cmd_vel := cmd_vel w; stdout := v; stdin := stdin w;
     time_calls := time_calls w; sleep_calls := sleep_calls w;
     publish_calls := publish_calls w; flag_reads := flag_reads w |}.

Definition with_stdin (v : list console_event) (w : World) : World :=
  {| twist_msg := twist_msg w; is_publishing := is_publishing w;
     test_mode := test_mode w; rclpy_ok := rclpy_ok w; node_bound := node_bound w;
     cmd_vel := cmd_vel w; stdout := stdout w; stdin := v;
     time_calls := time_calls w; sleep_calls := sleep_calls w;
     publish_calls := publish_calls w; flag_reads := flag_reads w |}.

Definition with_time_calls (v : nat) (w : World) : World :=
  {| twist_msg := twist_msg w; is_publishing := is_publishing w;
     test_mode := test_mode w; rclpy_ok := rclpy_ok w; node_bound := node_bound w;
     cmd_vel := cmd_vel w; stdout := stdout w; stdin := stdin w;
     time_calls := v; sleep_calls := sleep_calls w;
     publish_calls := publish_calls w; flag_reads := flag_reads w |}.

Definition with_sleep_calls (v : nat) (w : World) : World :=
  {| twist_msg := twist_msg w; is_publishing := is_publishing w;
     test_mode := test_mode w; rclpy_ok := rclpy_ok w; node_bound := node_bound w;
     cmd_vel := cmd_vel w; stdout := stdout w; stdin := stdin w;
     time_calls := time_calls w; sleep_calls := v;
     publish_calls := publish_calls w; flag_reads := flag_reads w |}.

Definition with_publish_calls (v : nat) (w : World) : World :=
  {| twist_msg := twist_msg w; is_publishing := is_publishing w;
     test_mode := test_mode w; rclpy_ok := rclpy_ok w; node_bound := node_bound w;
     cmd_vel := cmd_vel w; stdout := stdout w; stdin := stdin w;
     time_calls := time_calls w; sleep_calls := sleep_calls w;
     publish_calls := v; flag_reads := flag_reads w |}.

Definition with_flag_reads (v : nat) (w : World) : World :=
  {| twist_msg := twist_msg w; is_publishing := is_publishing w;
     test_mode := test_mode w; rclpy_ok := rclpy_ok w; node_bound := node_bound w;
     cmd_vel := cmd_vel w; stdout := stdout w; stdin := stdin w;
     time_calls := time_calls w; sleep_calls := sleep_calls w;
     publish_calls := publish_calls w; flag_reads := v |}.

(** The state in which [VelocityTestNode.__init__] leaves a fresh node, with
    [evs] waiting on the console. *)
Definition initial_world (evs : list console_event) : World :=
  {| twist_msg := Twist.new; is_publishing := false; test_mode := None;
     rclpy_ok := true; node_bound := false; cmd_vel := []; stdout := [];
     stdin := evs; time_calls := 0; sleep_calls := 0; publish_calls := 0;
     flag_reads := 0 |}.

(** ** Computations: state, exceptions, and the ways of not returning *)

Inductive outcome (A : Type) : Type :=
| Return (a : A)
| Raise (e : exn)
| Blocked        (* waits for ever: for a line nobody types, or in [main] *)
| OutOfFuel.     (* the bound put on the publish loop was reached *)

Arguments Return {A} a.
Arguments Raise {A} e.
Arguments Blocked {A}.
Arguments OutOfFuel {A}.

Definition M (A : Type) : Type := World -> outcome A * World.

Definition ret {A : Type} (a : A) : M A := fun w => (Return a, w).

Definition raise {A : Type} (e : exn) : M A := fun w => (Raise e, w).

Definition bind {A B : Type} (m : M A) (k : A -> M B) : M B :=
  fun w =>
    match m w with
    | (Return a, w') => k a w'
    | (Raise e, w') => (Raise e, w')
    | (Blocked, w') => (Blocked, w')
    | (OutOfFuel, w') => (OutOfFuel, w')
    end.

Declare Scope py_scope.
Delimit Scope py_scope with py.
Notation "x <- m ;; k" := (bind m (fun x => k))
  (at level 61, m at next level, right associativity) : py_scope.
Notation "m ;; k" := (bind m (fun _ => k))
  (at level 61, right associativity) : py_scope.

(** [try: body  except e: handler e], for the exceptions [catches] accepts. *)
Definition try_except {A : Type} (body : M A) (catches : exn -> bool)
  (handler : exn -> M A) : M A :=
  fun w =>
    match body w with
    | (Raise e, w') => if catches e then handler e w' else (Raise e, w')
    | r => r
    end.

(** [try: body  finally: final].  The [finally] block runs however [body]
    ends, unless [body] never ends; an exception of [final] replaces the
    one of [body]. *)
Definition try_finally {A : Type} (body : M A) (final : M unit) : M A :=
  fun w =>
    match body w with
    | (Return a, w') => bind final (fun _ => ret a) w'
    | (Raise e, w') => bind final (fun _ => raise e) w'
    | r => r
    end.

Definition modify (f : World -> World) : M unit := fun w => (Return tt, f w).

Definition get {A : Type} (f : World -> A) : M A := fun w => (Return (f w), w).

Local Open Scope py_scope.
Local Open Scope string_scope.

(** What [publish_velocity] hands back to its caller: it has no [return]
    statement, so [None]; [PyFloatVal] is there for a float it might have
    returned. *)
Inductive value : Type :=
| PyNone
| PyFloatVal (v : PyFloat.float).

(** The literals [0.1], [1.0] and [10.0]. *)
Definition one_tenth : PyFloat.float := PyFloat.of_decimal false 1 (-1).
Definition one : PyFloat.float := PyFloat.of_decimal false 10 (-1).
Definition ten : PyFloat.float := PyFloat.of_decimal false 100 (-1).

(** ** Library calls

    The lock [self.ui_lock] is left out: the interface thread waits for
    each worker it starts, so the two never want the lock at once, and
    taking it changes nothing that is modelled. *)

Section Node.

Variable env : Env.

(** [time.time()] *)
Definition time_time : M PyFloat.float :=
  fun w => (Return (clock env (time_calls w) (sleep_calls w)),
            with_time_calls (S (time_calls w)) w).

(** [time.sleep(secs)]: time passes, which later readings of the clock show. *)
Definition time_sleep (secs : PyFloat.float) : M unit :=
  modify (fun w => with_sleep_calls (S (sleep_calls w)) w).

(** [self.cmd_vel_publisher.publish(msg)]: the message as it is now goes
    on the channel, or the call raises. *)
Definition publish (msg : Twist.t) : M unit :=
  fun w =>
    let w' := with_publish_calls (S (publish_calls w)) w in
    if publish_raises env (publish_calls w)
    then (Raise PublishError, w')
    else (Return tt, with_cmd_vel (cmd_vel w ++ [msg]) w').

(** [print(...)] *)
Definition print (p : printed) : M unit :=
  modify (fun w => with_stdout (stdout w ++ [p]) w).

(** [input(prompt)] *)
Definition input (prompt : string) : M string :=
  print (Text prompt) ;;
  fun w =>
    match stdin w with
    | [] => (Blocked, w)
    | Line s :: rest => (Return s, with_stdin rest w)
    | CtrlC :: rest => (Raise KeyboardInterrupt, with_stdin rest w)
    | EndOfFile :: rest => (Raise EOFError, with_stdin rest w)
    end.

(** [float(s)] as a computation. *)
Definition float (s : string) : M PyFloat.float :=
  match PyStr.float s with
  | Some v => ret v
  | None => raise ValueError
  end.

(** [rclpy.shutdown()] *)
Definition rclpy_shutdown : M unit := modify (with_rclpy_ok false).

(** The loop condition reads [self.is_publishing]; a writer in another
    thread may have cleared it by then. *)
Definition read_is_publishing : M bool :=
  fun w =>
    let w1 := with_flag_reads (S (flag_reads w)) w in
    let w2 := if cleared env (flag_reads w) then with_is_publishing false w1
              else w1 in
    (Return (is_publishing w2), w2).

(** [for _ in range(n): body] *)
Fixpoint for_range (n : nat) (body : M unit) : M unit :=
  match n with
  | O => ret tt
  | S n' => body ;; for_range n' body
  end.

(** ** [VelocityTestNode] *)

Definition stop_robot : M unit :=
  let stop_msg := Twist.new in
  let stop_msg := Twist.set_linear_x PyFloat.zero stop_msg in
  let stop_msg := Twist.set_linear_y PyFloat.zero stop_msg in
  let stop_msg := Twist.set_linear_z PyFloat.zero stop_msg in
  let stop_msg := Twist.set_angular_x PyFloat.zero stop_msg in
  let stop_msg := Twist.set_angular_y PyFloat.zero stop_msg in
  let stop_msg := Twist.set_angular_z PyFloat.zero stop_msg in
  for_range 5 (publish stop_msg ;; time_sleep one_tenth).

(** The [while] loop of [publish_velocity]; [fuel] bounds the number of
    times its condition is evaluated. *)
Fixpoint publish_loop (fuel : nat) (start_time duration sleep_time : PyFloat.float)
  : M unit :=
  match fuel with
  | O => fun w => (OutOfFuel, w)
  | S fuel' =>
      now <- time_time ;;
      if PyFloat.ltb (PyFloat.sub now start_time) duration then
        flag <- read_is_publishing ;;
        if flag : bool then
          msg <- get twist_msg ;;
          publish msg ;;
          time_sleep sleep_time ;;
          publish_loop fuel' start_time duration sleep_time
        else ret tt
      else ret tt
  end.

Definition publish_velocity (fuel : nat)
  (linear_vel angular_vel duration : PyFloat.float) : M value :=
  modify (with_is_publishing true) ;;
  modify (fun w => with_twist_msg (Twist.set_linear_x linear_vel (twist_msg w)) w) ;;
  modify (fun w => with_twist_msg (Twist.set_linear_y PyFloat.zero (twist_msg w)) w) ;;
  modify (fun w => with_twist_msg (Twist.set_linear_z PyFloat.zero (twist_msg w)) w) ;;
  modify (fun w => with_twist_msg (Twist.set_angular_x PyFloat.zero (twist_msg w)) w) ;;
  modify (fun w => with_twist_msg (Twist.set_angular_y PyFloat.zero (twist_msg w)) w) ;;
  modify (fun w => with_twist_msg (Twist.set_angular_z angular_vel (twist_msg w)) w) ;;
  print (StartingTest linear_vel angular_vel duration) ;;
  print (Text "Test in progress...") ;;
  start_time <- time_time ;;
  let rate := ten in
  let sleep_time := PyFloat.div one rate in
  publish_loop fuel start_time duration sleep_time ;;
  stop_robot ;;
  now <- time_time ;;
  print (TestCompleted (PyFloat.sub now start_time)) ;;
  modify (with_is_publishing false) ;;
  ret PyNone.


(** [while True: body], where [body] yields [Some a] for [return a] and
    [None] to go round again.  The loops of the console read at least one
    event each time round, so a bound of one more than the events waiting
    is never reached ([get_test_mode_total], [get_test_parameters_total]). *)
Fixpoint while_true {A : Type} (fuel : nat) (body : M (option A)) : M A :=
  match fuel with
  | O => fun w => (OutOfFuel, w)
  | S fuel' =>
      r <- body ;;
      match r with
      | Some a => ret a
      | None => while_true fuel' body
      end
  end.

Definition console_loop {A : Type} (body : M (option A)) : M A :=
  fun w => while_true (S (List.length (stdin w))) body w.

Definition is_ValueError (e : exn) : bool :=
  match e with ValueError => true | _ => false end.

Definition is_KeyboardInterrupt (e : exn) : bool :=
  match e with KeyboardInterrupt => true | _ => false end.

Definition get_test_mode : M TestMode :=
  console_loop
    (print (Text "==================================================") ;;
     print (Text "ROS2 Velocity Test Node") ;;
     print (Text "==================================================") ;;
     print (Text "Choose test mode:") ;;
     print (Text "1. Linear velocity test") ;;
     print (Text "2. Angular velocity test") ;;
     print (Text "3. Exit") ;;
     try_except
       (line <- input "Enter your choice (1/2/3): " ;;
        let choice := PyStr.strip_string line in
        if String.eqb choice "1" then ret (Some linear)
        else if String.eqb choice "2" then ret (Some angular)
        else if String.eqb choice "3" then ret (Some exit)
        else print (Text "Invalid choice. Please enter 1, 2, or 3.") ;;
             ret None)
       is_KeyboardInterrupt
       (fun _ => ret (Some exit))).

(** One turn of the [while True] loop that [get_linear_test_parameters]
    and [get_angular_test_parameters] share, word for word but for the
    title and the first prompt.  [None] sends the loop round again;
    [Some None] returns the pair [(None, None)]. *)
Definition test_parameters_attempt (title prompt : string)
  : M (option (option (PyFloat.float * PyFloat.float))) :=
  try_except
    (print (Text title) ;;
     s1 <- input prompt ;;
     velocity <- float s1 ;;
     s2 <- input "Enter duration (seconds): " ;;
     duration <- float s2 ;;
     if PyFloat.leb duration PyFloat.zero then
       print (Text "Duration must be positive!") ;;
       ret None
     else ret (Some (Some (velocity, duration))))
    (fun e => (is_ValueError e || is_KeyboardInterrupt e)%bool)
    (fun e =>
       if is_ValueError e then
         print (Text "Please enter valid numbers!") ;;
         ret None
       else ret (Some None)).

Definition get_test_parameters (title prompt : string)
  : M (option (PyFloat.float * PyFloat.float)) :=
  console_loop (test_parameters_attempt title prompt).

Definition get_linear_test_parameters
  : M (option (PyFloat.float * PyFloat.float)) :=
  get_test_parameters "--- Linear Velocity Test ---"
                      "Enter linear velocity (m/s): ".

Definition get_angular_test_parameters
  : M (option (PyFloat.float * PyFloat.float)) :=
  get_test_parameters "--- Angular Velocity Test ---"
                      "Enter angular velocity (rad/s): ".

(** [t = threading.Thread(target=...); t.start(); t.join()]: the caller
    waits for the worker.  An exception of the worker ends the worker
    only: [join] returns normally all the same. *)
Definition run_in_thread {A : Type} (target : M A) : M unit :=
  fun w =>
    match target w with
    | (Return _, w') => (Return tt, w')
    | (Raise _, w') => (Return tt, w')
    | (Blocked, w') => (Blocked, w')
    | (OutOfFuel, w') => (OutOfFuel, w')
    end.

(** [while rclpy.ok(): body], where [body] yields [true] to go round
    again and [false] for [break].  A turn of the interface that goes
    round again has read the console, so there too a bound of one more
    than the events waiting is not reached, unless the session of a turn
    reaches its own ([user_interface_out_of_fuel]). *)
Fixpoint while_rclpy_ok (fuel : nat) (body : M bool) : M unit :=
  match fuel with
  | O => fun w => (OutOfFuel, w)
  | S fuel' =>
      ok <- get rclpy_ok ;;
      if ok : bool then
        again <- body ;;
        if again : bool then while_rclpy_ok fuel' body else ret tt
      else ret tt
  end.

Definition in_y_yes (s : string) : bool :=
  (String.eqb s "y" || String.eqb s "yes")%bool.

(** One turn of the main testing loop of [user_interface]; [session]
    bounds the ticks of the test it runs. *)
Definition user_interface_turn (session : nat) : M bool :=
  try_except
    (mode <- get test_mode ;;
     proceed <-
       match mode with
       | Some linear =>
           params <- get_linear_test_parameters ;;
           match params with
           | Some (velocity, duration) =>
               run_in_thread
                 (publish_velocity session velocity PyFloat.zero duration) ;;
               ret true
           | None => ret false
           end
       | Some angular =>
           params <- get_angular_test_parameters ;;
           match params with
           | Some (velocity, duration) =>
               run_in_thread
                 (publish_velocity session PyFloat.zero velocity duration) ;;
               ret true
           | None => ret false
           end
       | _ => ret true
       end ;;
     if proceed : bool then
       print (Text "Test completed!") ;;
       line <- input "Continue testing? (y/n): " ;;
       let continue_choice := PyStr.strip_lower line in
       if in_y_yes continue_choice then ret true else ret false
     else ret false)
    is_KeyboardInterrupt
    (fun _ => ret false).

(** The whole interface thread.  [self.get_logger().info('Exiting...')]
    is below the level [WARN] that the constructor sets and shows
    nothing. *)
Definition user_interface (session : nat) : M unit :=
  mode <- get_test_mode ;;
  modify (with_test_mode (Some mode)) ;;
  match mode with
  | exit => rclpy_shutdown
  | _ =>
      (fun w => while_rclpy_ok (S (List.length (stdin w)))
                               (user_interface_turn session) w) ;;
      print (Text "Shutting down velocity test node...") ;;
      rclpy_shutdown
  end.

(** [VelocityTestNode()], up to the start of the interface thread. *)
Definition VelocityTestNode_init : M unit :=
  if node_raises env then raise InitError
  else
    modify (with_twist_msg Twist.new) ;;
    modify (with_is_publishing false) ;;
    modify (with_test_mode None) ;;
    print (Text "Velocity Test Node initialized").

(** The interface thread started by the constructor, and the main thread
    in [while rclpy.ok(): rclpy.spin_once(node, timeout_sec=0.1)].  The
    two run side by side; here the interface thread is run as far as it
    gets, after which the main loop is over if [rclpy.ok()] is false, is
    interrupted if the process receives SIGINT, and spins on otherwise.
    An interface whose test was cut short by the bound on the publish loop
    has not got to [rclpy.shutdown()] and is treated like one that has not
    finished: what is proved about [main] not ending leaves that case
    out. *)
Definition spin (session : nat) : M unit :=
  fun w =>
    let w' := snd (user_interface session w) in
    if rclpy_ok w' then
      if sigint env then (Raise KeyboardInterrupt, w') else (Blocked, w')
    else (Return tt, w').

(** [main]: [rclpy.init], then the [try] statement.  Of the [finally]
    block, [node.destroy_node()] touches nothing that is modelled. *)
Definition main (session : nat) : M unit :=
  modify (with_rclpy_ok true) ;;
  modify (with_node_bound false) ;;
  try_finally
    (try_except
       (VelocityTestNode_init ;;
        modify (with_node_bound true) ;;
        spin session)
       is_KeyboardInterrupt
       (fun _ => ret tt))
    (bound <- get node_bound ;;
     (if bound : bool then stop_robot else ret tt) ;;
     rclpy_shutdown).

End Node.

(** * Vocabulary of the properties *)

Local Open Scope list_scope.

(** ** Messages and worlds of a session *)

(** The zero command: what [stop_robot] builds and sends. *)
Definition stop_msg : Twist.t := Twist.new.

(** The message [publish_velocity] leaves in [self.twist_msg]. *)
Definition tick_msg (linear_vel angular_vel : PyFloat.float) : Twist.t :=
  Twist.Build (Vector3.Build linear_vel PyFloat.zero PyFloat.zero)
              (Vector3.Build PyFloat.zero PyFloat.zero angular_vel).

(** The fields that neither the publish loop nor the stop sequence touch. *)
Definition quiet (w w' : World) : Prop :=
  twist_msg w' = twist_msg w /\ test_mode w' = test_mode w /\
  rclpy_ok w' = rclpy_ok w /\ node_bound w' = node_bound w /\
  stdout w' = stdout w /\ stdin w' = stdin w.

(** The world after the loop condition has been evaluated: the clock was
    read and, when the time test held, the flag too. *)
Definition after_clock (w : World) : World :=
  with_time_calls (S (time_calls w)) w.

Definition after_flag (env : Env) (w : World) : World :=
  let w1 := with_flag_reads (S (flag_reads w)) (after_clock w) in
  if cleared env (flag_reads w) then with_is_publishing false w1 else w1.

Definition after_tick (env : Env) (w : World) : World :=
  with_sleep_calls (S (sleep_calls w))
    (with_cmd_vel (cmd_vel w ++ [twist_msg w])
       (with_publish_calls (S (publish_calls w)) (after_flag env w))).

(** The loop condition as the [i]-th evaluation finds it, counted from the
    world [w] in which the loop is entered with the flag set. *)
Definition loop_condition (env : Env) (start_time duration : PyFloat.float)
  (w : World) (i : nat) : bool :=
  (PyFloat.ltb
     (PyFloat.sub (clock env (time_calls w + i) (sleep_calls w + i)) start_time)
     duration
   && negb (cleared env (flag_reads w + i)))%bool.

(** The world in which [publish_velocity] enters its loop: flag set,
    message filled in, two lines printed, start time read. *)
Definition entering (linear_vel angular_vel duration : PyFloat.float)
  (w : World) : World :=
  with_time_calls (S (time_calls w))
    (with_stdout
       (stdout w ++ [StartingTest linear_vel angular_vel duration;
                     Text "Test in progress..."])
       (with_twist_msg (tick_msg linear_vel angular_vel)
          (with_is_publishing true w))).

(** The world in which it returns, from the one [stop_robot] leaves. *)
Definition leaving (env : Env) (start_time : PyFloat.float) (w : World) : World :=
  with_is_publishing false
    (with_stdout
       (stdout w ++ [TestCompleted
                       (PyFloat.sub (clock env (time_calls w) (sleep_calls w))
                                    start_time)])
       (with_time_calls (S (time_calls w)) w)).

(** The condition of the publish loop at its [i]-th evaluation in a
    session started in world [w], when the evaluations before it held: the
    time elapsed since the start reading is below [duration], and the flag
    has not been cleared.  The start reading is the next reading of the
    clock in [w]; [i] ticks, and so [i] sleeps, come before the
    evaluation. *)
Definition session_condition (env : Env) (duration : PyFloat.float)
  (w : World) (i : nat) : bool :=
  (PyFloat.ltb
     (PyFloat.sub (clock env (S (time_calls w) + i) (sleep_calls w + i))
                  (clock env (time_calls w) (sleep_calls w)))
     duration
   && negb (cleared env (flag_reads w + i)))%bool.

(** ** The console loops, as functions of the events waiting *)

(** What the collection loop makes of the events waiting on the console,
    and the events it leaves. *)
Fixpoint collected (evs : list console_event)
  : outcome (option (PyFloat.float * PyFloat.float)) * list console_event :=
  match evs with
  | [] => (Blocked, [])
  | CtrlC :: rest => (Return None, rest)
  | EndOfFile :: rest => (Raise EOFError, rest)
  | Line s1 :: rest =>
      match PyStr.float s1 with
      | None => collected rest
      | Some velocity =>
          match rest with
          | [] => (Blocked, [])
          | CtrlC :: rest' => (Return None, rest')
          | EndOfFile :: rest' => (Raise EOFError, rest')
          | Line s2 :: rest' =>
              match PyStr.float s2 with
              | None => collected rest'
              | Some duration =>
                  if PyFloat.leb duration PyFloat.zero then collected rest'
                  else (Return (Some (velocity, duration)), rest')
              end
          end
      end
  end.

(** Nothing of the node or of the channel has changed: only the console
    has moved on. *)
Definition console_only (w w' : World) : Prop :=
  twist_msg w' = twist_msg w /\ is_publishing w' = is_publishing w /\
  test_mode w' = test_mode w /\ rclpy_ok w' = rclpy_ok w /\
  node_bound w' = node_bound w /\ cmd_vel w' = cmd_vel w /\
  time_calls w' = time_calls w /\ sleep_calls w' = sleep_calls w /\
  publish_calls w' = publish_calls w /\ flag_reads w' = flag_reads w.

(** How the loop can end, read off the events it consumed. *)
Definition collected_ending (evs : list console_event) : Prop :=
  match collected evs with
  | (Return (Some (velocity, duration)), rest) =>
      PyFloat.leb duration PyFloat.zero = false /\
      exists (before : list console_event) (s1 s2 : string),
        evs = before ++ Line s1 :: Line s2 :: rest /\
        PyStr.float s1 = Some velocity /\ PyStr.float s2 = Some duration
  | (Return None, rest) =>
      exists before : list console_event, evs = before ++ CtrlC :: rest
  | (Raise e, rest) =>
      e = EOFError /\
      exists before : list console_event, evs = before ++ EndOfFile :: rest
  | (Blocked, rest) => rest = []
  | (OutOfFuel, _) => False
  end.

(** The collector that [user_interface] calls in each mode. *)
Definition collector (mode : TestMode)
  : M (option (PyFloat.float * PyFloat.float)) :=
  match mode with
  | linear => get_linear_test_parameters
  | angular => get_angular_test_parameters
  | exit => ret None
  end.

(** ** The worlds of [main] *)

(** The world the constructor leaves, with the node bound to [node]. *)
Definition built (w : World) : World :=
  with_node_bound true
    (with_stdout (stdout w ++ [Text "Velocity Test Node initialized"])
       (with_test_mode None
          (with_is_publishing false (with_twist_msg Twist.new w)))).

(** The world in which the interface thread starts: [rclpy.init] has run,
    the node is built and bound. *)
Definition started (w : World) : World :=
  built (with_node_bound false (with_rclpy_ok true w)).

(** The world in which [main] enters its [finally] block. *)
Definition at_finally (env : Env) (session : nat) (w : World) : World :=
  snd (user_interface env session (started w)).

(** The [finally] block of [main] when [node] is bound: the stop sequence,
    then [rclpy.shutdown()]. *)
Definition finally_with_node (env : Env) (w : World) : outcome unit * World :=
  match stop_robot env w with
  | (Return _, w') => (Return tt, with_rclpy_ok false w')
  | (Raise e, w') => (Raise e, w')
  | (Blocked, w') => (Blocked, w')
  | (OutOfFuel, w') => (OutOfFuel, w')
  end.

(** ** What goes on the channel *)

(** A command all of whose six components are [0.0]. *)
Definition zero_command (m : Twist.t) : Prop :=
  Vector3.x (Twist.linear m) = PyFloat.zero /\
  Vector3.y (Twist.linear m) = PyFloat.zero /\
  Vector3.z (Twist.linear m) = PyFloat.zero /\
  Vector3.x (Twist.angular m) = PyFloat.zero /\
  Vector3.y (Twist.angular m) = PyFloat.zero /\
  Vector3.z (Twist.angular m) = PyFloat.zero.

(** The four components that no test drives are [0.0]. *)
Definition planar (m : Twist.t) : Prop :=
  Vector3.y (Twist.linear m) = PyFloat.zero /\
  Vector3.z (Twist.linear m) = PyFloat.zero /\
  Vector3.x (Twist.angular m) = PyFloat.zero /\
  Vector3.y (Twist.angular m) = PyFloat.zero.

(** [w'] has the channel of [w] and, after it, planar messages only; the
    local variable [node] of [main] is as it was. *)
Definition extends_planar (w w' : World) : Prop :=
  node_bound w' = node_bound w /\
  exists sent : list Twist.t,
    cmd_vel w' = cmd_vel w ++ sent /\ Forall planar sent.

(** A computation that, however it ends, has published planar messages
    only. *)
Definition publishes_planar {A : Type} (m : M A) : Prop :=
  forall w : World, extends_planar w (snd (m w)).

(** Python's [x != 0] on a float. *)
Definition nonzero (v : PyFloat.float) : bool := PyFloat.neqb v PyFloat.zero.

(** Exactly one of the linear and the angular component is non-zero. *)
Definition exactly_one_nonzero (m : Twist.t) : bool :=
  xorb (nonzero (Vector3.x (Twist.linear m)))
       (nonzero (Vector3.z (Twist.angular m))).

(** ** What the specification says, in the terms of the model *)

(** The command the specification gives for validated parameters: Linear
    is [{linear: magnitude, angular: 0}] and Angular is
    [{linear: 0, angular: magnitude}], where [linear] is the field
    [linear.x] of the message and [angular] the field [angular.z]. *)
Definition MotionCommand (mode : TestMode) (magnitude : PyFloat.float)
  : option Twist.t :=
  match mode with
  | linear =>
      Some (Twist.Build
              (Vector3.Build magnitude PyFloat.zero PyFloat.zero)
              (Vector3.Build PyFloat.zero PyFloat.zero PyFloat.zero))
  | angular =>
      Some (Twist.Build
              (Vector3.Build PyFloat.zero PyFloat.zero PyFloat.zero)
              (Vector3.Build PyFloat.zero PyFloat.zero magnitude))
  | exit => None
  end.

(** What the specification asks of a start attempt on a busy node: an
    error comes back and the channel is left as it was. *)
Definition refused (w : World) (r : outcome value * World) : Prop :=
  (exists e : exn, fst r = Raise e) /\ cmd_vel (snd r) = cmd_vel w.

(** What the specification asks of the result of a run: the elapsed time is
    handed back, and it is within 0.1 s of the duration. *)
Definition returns_elapsed_within_a_tick (duration : PyFloat.float)
  (r : outcome value) : Prop :=
  exists elapsed : PyFloat.float,
    r = Return (PyFloatVal elapsed) /\
    PyFloat.leb (PyFloat.sub elapsed duration) one_tenth = true /\
    PyFloat.leb (PyFloat.sub duration elapsed) one_tenth = true.

(** What the specification asks of every exit of [publish_velocity]: the
    five zero commands are the last thing it has sent. *)
Definition stop_sequence_done (w w' : World) : Prop :=
  exists sent : list Twist.t,
    cmd_vel w' = cmd_vel w ++ sent ++ repeat stop_msg 5.

(** ** Concrete environments, values and worlds *)

(** A clock that starts at 0 and advances by [num/den] seconds with each
    completed sleep, and by nothing else. *)
Definition sleep_clock (num den : Z) : nat -> nat -> PyFloat.float :=
  fun _ sleeps =>
    PyFloat.div (PyFloat.of_Z (num * Z.of_nat sleeps)) (PyFloat.of_Z den).

(** Every sleep lasts exactly 0.1 s; the channel takes every message. *)
Definition ideal_env : Env :=
  {| clock := sleep_clock 1 10; publish_raises := fun _ => false;
     cleared := fun _ => false; node_raises := false; sigint := false |}.

(** Every sleep of 0.1 s lasts 0.2 s: a loaded machine. *)
Definition slow_env : Env :=
  {| clock := sleep_clock 1 5; publish_raises := fun _ => false;
     cleared := fun _ => false; node_raises := false; sigint := false |}.

(** Every round of the loop takes 0.101 s: the sleep of 0.1 s and one
    millisecond more. *)
Definition drift_env : Env :=
  {| clock := sleep_clock 101 1000; publish_raises := fun _ => false;
     cleared := fun _ => false; node_raises := false; sigint := false |}.

(** Another thread clears [is_publishing] before the loop reads it for the
    sixth time. *)
Definition cancel_env : Env :=
  {| clock := sleep_clock 1 10; publish_raises := fun _ => false;
     cleared := fun n => Nat.eqb n 5; node_raises := false; sigint := false |}.

(** The third call of [publish] raises. *)
Definition failing_env : Env :=
  {| clock := sleep_clock 1 10; publish_raises := fun n => Nat.eqb n 2;
     cleared := fun _ => false; node_raises := false; sigint := false |}.

(** Building the node raises. *)
Definition no_node_env : Env :=
  {| clock := sleep_clock 1 10; publish_raises := fun _ => false;
     cleared := fun _ => false; node_raises := true; sigint := false |}.

Definition half : PyFloat.float := PyFloat.of_decimal false 5 (-1).
Definition two : PyFloat.float := PyFloat.of_decimal false 20 (-1).
Definition three : PyFloat.float := PyFloat.of_decimal false 30 (-1).
Definition two_and_a_half : PyFloat.float := PyFloat.of_decimal false 25 (-1).
Definition three_tenths : PyFloat.float := PyFloat.of_decimal false 3 (-1).
Definition minus_one : PyFloat.float := PyFloat.of_decimal true 10 (-1).
Definition hundred : PyFloat.float := PyFloat.of_decimal false 1000 (-1).

(** A node on which [is_publishing] is already set: a session is running. *)
Definition busy_world : World := with_is_publishing true (initial_world []).

(** The world of the second end-to-end scenario: mode Angular, and the
    operator types -1.0, 1.0 and then declines to continue. *)
Definition angular_scenario : World :=
  with_test_mode (Some angular)
    (initial_world [Line "-1.0"; Line "1.0"; Line "n"]).

(** Mode Linear, and the operator types 0 for the velocity, 0.2 for the
    duration and then declines to continue. *)
Definition zero_velocity_scenario : World :=
  with_test_mode (Some linear)
    (initial_world [Line "0"; Line "0.2"; Line "n"]).

(** Mode Linear; the operator asks for 0.5 m/s during 2.0 s and then
    declines to continue. *)
Definition linear_scenario : World :=
  with_test_mode (Some linear)
    (initial_world [Line "0.5"; Line "2.0"; Line "n"]).

(** ** The menu, as a function of the events waiting *)

(** What [get_test_mode] makes of one line: the line is stripped, and
    [1], [2] and [3] are the three modes; any other line is invalid. *)
Definition menu_choice (line : string) : option TestMode :=
  let choice := PyStr.strip_string line in
  if String.eqb choice "1" then Some linear
  else if String.eqb choice "2" then Some angular
  else if String.eqb choice "3" then Some exit
  else None.

(** A line that the menu turns down. *)
Definition invalid_choice (ev : console_event) : Prop :=
  exists line : string, ev = Line line /\ menu_choice line = None.

(** What the menu loop makes of the events waiting, and what it leaves. *)
Fixpoint chosen (evs : list console_event)
  : outcome TestMode * list console_event :=
  match evs with
  | [] => (Blocked, [])
  | CtrlC :: rest => (Return exit, rest)
  | EndOfFile :: rest => (Raise EOFError, rest)
  | Line line :: rest =>
      match menu_choice line with
      | Some mode => (Return mode, rest)
      | None => chosen rest
      end
  end.

(** How the menu loop can end, read off the events it consumed. *)
Definition chosen_ending (evs : list console_event) : Prop :=
  match chosen evs with
  | (Return mode, rest) =>
      exists skipped : list console_event,
        Forall invalid_choice skipped /\
        ((exists line : string,
             evs = skipped ++ Line line :: rest /\
             menu_choice line = Some mode)
         \/ (evs = skipped ++ CtrlC :: rest /\ mode = exit))
  | (Raise e, rest) =>
      e = EOFError /\
      exists skipped : list console_event,
        Forall invalid_choice skipped /\ evs = skipped ++ EndOfFile :: rest
  | (Blocked, rest) => rest = [] /\ Forall invalid_choice evs
  | (OutOfFuel, _) => False
  end.

(** ** What a computation leaves alone *)

(** A computation that, however it ends, leaves one component of the world
    as it found it. *)
Definition keeps {A T : Type} (proj : World -> T) (m : M A) : Prop :=
  forall w : World, proj (snd (m w)) = proj w.

(** ** Sessions by mode *)

(** The call of [publish_velocity] that [user_interface] makes in each
    mode; no session in mode [exit]. *)
Definition session_of (env : Env) (session : nat) (mode : TestMode)
  (velocity duration : PyFloat.float) : M value :=
  match mode with
  | linear => publish_velocity env session velocity PyFloat.zero duration
  | angular => publish_velocity env session PyFloat.zero velocity duration
  | exit => ret PyNone
  end.

(** A message that drives the component of one mode only: in mode Linear
    nothing but [linear.x] may be non-zero, in mode Angular nothing but
    [angular.z]; outside a test mode, nothing at all. *)
Definition mode_only (mode : TestMode) (m : Twist.t) : Prop :=
  planar m /\
  match mode with
  | linear => Vector3.z (Twist.angular m) = PyFloat.zero
  | angular => Vector3.x (Twist.linear m) = PyFloat.zero
  | exit => zero_command m
  end.

(** ** Durations that are not numbers of seconds *)

Definition nan : PyFloat.float := S754_nan.
Definition inf : PyFloat.float := S754_infinity false.

(** A float that is a number: neither an infinity nor NaN. *)
Definition is_finite (v : PyFloat.float) : bool :=
  match v with
  | S754_zero _ | S754_finite _ _ _ => true
  | S754_infinity _ | S754_nan => false
  end.

(** The time elapsed in a session started in world [w], as the [i]-th
    evaluation of the loop condition reads it. *)
Definition elapsed_at (env : Env) (w : World) (i : nat) : PyFloat.float :=
  PyFloat.sub (clock env (S (time_calls w) + i) (sleep_calls w + i))
              (clock env (time_calls w) (sleep_calls w)).

(** ** More environments and worlds *)

(** The fourth call of [publish] raises, the channel is well otherwise. *)
Definition fourth_fails_env : Env :=
  {| clock := sleep_clock 1 10; publish_raises := fun n => Nat.eqb n 3;
     cleared := fun _ => false; node_raises := false; sigint := false |}.

(** The process receives SIGINT while [main] is spinning. *)
Definition sigint_env : Env :=
  {| clock := sleep_clock 1 10; publish_raises := fun _ => false;
     cleared := fun _ => false; node_raises := false; sigint := true |}.

(** ** A turn of the interface, step by step *)

(** The question whether to go on, answered from the console. *)
Definition asked (w : World) : outcome bool * World :=
  let w1 :=
    with_stdout ((stdout w ++ [Text "Test completed!"])
                 ++ [Text "Continue testing? (y/n): "]) w in
  match stdin w with
  | [] => (Blocked, w1)
  | Line answer :: rest =>
      (Return (in_y_yes (PyStr.strip_lower answer)), with_stdin rest w1)
  | CtrlC :: rest => (Return false, with_stdin rest w1)
  | EndOfFile :: rest => (Raise EOFError, with_stdin rest w1)
  end.

(** A turn in a test mode, as what follows from the outcome of the
    collector and of the session. *)
Definition turn_from (env : Env) (session : nat) (mode : TestMode)
  (w : World) : outcome bool * World :=
  match collector mode w with
  | (Return (Some (velocity, duration)), w1) =>
      match session_of env session mode velocity duration w1 with
      | (Return _, w2) => asked w2
      | (Raise _, w2) => asked w2
      | (Blocked, w2) => (Blocked, w2)
      | (OutOfFuel, w2) => (OutOfFuel, w2)
      end
  | (Return None, w1) => (Return false, w1)
  | (Raise e, w1) =>
      if is_KeyboardInterrupt e then (Return false, w1) else (Raise e, w1)
  | (Blocked, w1) => (Blocked, w1)
  | (OutOfFuel, w1) => (OutOfFuel, w1)
  end.

(** Mode Linear; 0.5 m/s during 0.3 s; the third [publish] raises or not
    by the environment; then the operator answers with a capital YES among
    blanks, and nothing more. *)
Definition yes_scenario : World :=
  with_test_mode (Some linear)
    (initial_world [Line "0.5"; Line "0.3"; Line "  YES "]).

(** The operator types a line that is no choice, then 3 among blanks. *)
Definition exit_scenario : World :=
  initial_world [Line "abc"; Line " 3 "; Line "1"].

(** The operator chooses the linear test, types a velocity and then
    interrupts at the prompt for the duration. *)
Definition interrupt_scenario : World :=
  initial_world [Line "1"; Line "0.5"; CtrlC; Line "2.0"].

(** The operator chooses the angular test, asks for 1.5 rad/s during
    0.3 s, goes on, asks for -1.0 rad/s during 0.2 s and stops. *)
Definition two_tests_scenario : World :=
  initial_world [Line "2"; Line "1.5"; Line "0.3"; Line "y";
                 Line "-1.0"; Line "0.2"; Line "n"].

(** The message of every tick of a test in a mode. *)
Definition session_tick (mode : TestMode) (velocity : PyFloat.float)
  : Twist.t :=
  match mode with
  | linear => tick_msg velocity PyFloat.zero
  | angular => tick_msg PyFloat.zero velocity
  | exit => stop_msg
  end.

(** Mode Linear, and the operator types [nan] for the duration. *)
Definition nan_scenario : World :=
  with_test_mode (Some linear)
    (initial_world [Line "0.5"; Line "nan"; Line "n"]).

(** Mode Angular, and the operator types [1e400] for the duration, which
    is beyond the largest float. *)
Definition inf_scenario : World :=
  with_test_mode (Some angular)
    (initial_world [Line "0.5"; Line "1e400"; Line "n"]).

(** The console is closed after the operator has chosen the linear test:
    the node was started without a terminal to read from. *)
Definition closed_console_scenario : World :=
  initial_world [Line "1"; EndOfFile].

(** Nobody clears [is_publishing] from another thread. *)
Definition never_cleared (env : Env) : Prop :=
  forall n : nat, cleared env n = false.

(** * Properties *)

Arguments PyFloat.of_decimal : simpl never.
Arguments PyFloat.sub : simpl never.
Arguments PyFloat.div : simpl never.
Arguments PyFloat.ltb : simpl never.
Arguments PyFloat.leb : simpl never.
Arguments PyStr.float : simpl never.

Section StopSequence.

Variable env : Env.

Lemma for_range_S (n : nat) (body : M unit) (w : World) :
  for_range (S n) body w = bind body (fun _ => for_range n body) w.
Proof. reflexivity. Qed.

(** One round of the stop sequence, or one tick: publish, then sleep. *)
Lemma publish_sleep (msg : Twist.t) (secs : PyFloat.float) (w : World) :
  (publish env msg ;; time_sleep secs) w
  = if publish_raises env (publish_calls w)
    then (Raise PublishError, with_publish_calls (S (publish_calls w)) w)
    else (Return tt,
          with_cmd_vel (cmd_vel w ++ [msg])
            (with_sleep_calls (S (sleep_calls w))
               (with_publish_calls (S (publish_calls w)) w))).
Proof.
  unfold bind, publish, time_sleep, modify.
  destruct (publish_raises env (publish_calls w)); destruct w; reflexivity.
Qed.

(** When the channel takes them, [k] rounds of publish-and-sleep append
    [k] copies of the message and change nothing but the call counters. *)
Lemma for_range_publish_ok (msg : Twist.t) (secs : PyFloat.float) :
  forall (k : nat) (w : World),
    (forall i, (i < k)%nat -> publish_raises env (publish_calls w + i) = false) ->
    for_range k (publish env msg ;; time_sleep secs) w
    = (Return tt,
       with_cmd_vel (cmd_vel w ++ repeat msg k)
         (with_sleep_calls (k + sleep_calls w)
            (with_publish_calls (k + publish_calls w) w))).
Proof.
  induction k as [|k IH]; intros w Hok.
  - destruct w; cbn. now rewrite app_nil_r.
  - rewrite for_range_S. unfold bind at 1. rewrite publish_sleep.
    pose proof (Hok 0%nat ltac:(lia)) as H0.
    rewrite Nat.add_0_r in H0. rewrite H0.
    rewrite IH.
    + destruct w; cbn.
      rewrite <- app_assoc, !Nat.add_succ_r. reflexivity.
    + intros i Hi. destruct w; cbn in *.
      specialize (Hok (S i) ltac:(lia)).
      now rewrite Nat.add_succ_r in Hok.
Qed.

(** Whatever the channel does, the rounds append copies of the message
    only, and stop at the first publish that raises. *)
Lemma for_range_publish_any (msg : Twist.t) (secs : PyFloat.float) :
  forall (k : nat) (w : World),
    exists j : nat,
      (j <= k)%nat /\
      (j < k -> publish_raises env (publish_calls w + j) = true)%nat /\
      for_range k (publish env msg ;; time_sleep secs) w
      = (if Nat.eqb j k then Return tt else Raise PublishError,
         with_cmd_vel (cmd_vel w ++ repeat msg j)
           (with_sleep_calls (j + sleep_calls w)
              (with_publish_calls
                 ((if Nat.eqb j k then j else S j) + publish_calls w) w))).
Proof.
  induction k as [|k IH]; intros w.
  - exists 0%nat. destruct w; cbn. rewrite app_nil_r.
    repeat split; lia || reflexivity.
  - rewrite for_range_S. unfold bind at 1. rewrite publish_sleep.
    destruct (publish_raises env (publish_calls w)) eqn:Hr.
    + exists 0%nat. rewrite Nat.add_0_r.
      destruct w; cbn in *. rewrite app_nil_r.
      repeat split; lia || auto.
    + match goal with
      | |- context [for_range k _ ?w1] => destruct (IH w1) as (j & Hj & Hraise & Hrun)
      end.
      exists (S j). split; [lia|].
      rewrite Hrun. change (Nat.eqb (S j) (S k)) with (Nat.eqb j k).
      split.
      * intros Hlt. destruct w; cbn in *.
        rewrite Nat.add_succ_r. apply Hraise. lia.
      * destruct w; cbn. rewrite <- app_assoc.
        destruct (Nat.eqb j k); cbn; rewrite ?Nat.add_succ_r; reflexivity.
Qed.

Lemma stop_robot_unfold (w : World) :
  stop_robot env w
  = for_range 5 (publish env stop_msg ;; time_sleep one_tenth) w.
Proof. reflexivity. Qed.

End StopSequence.

(** ** The publish loop *)

Lemma quiet_refl (w : World) : quiet w w.
Proof. repeat split. Qed.

Lemma quiet_trans (w1 w2 w3 : World) : quiet w1 w2 -> quiet w2 w3 -> quiet w1 w3.
Proof. unfold quiet. intuition congruence. Qed.

(** Projections of updated worlds. *)
Ltac fields :=
  cbn [twist_msg is_publishing test_mode rclpy_ok node_bound cmd_vel stdout
       stdin time_calls sleep_calls publish_calls flag_reads
       with_twist_msg with_is_publishing with_test_mode with_rclpy_ok
       with_node_bound with_cmd_vel with_stdout with_stdin with_time_calls
       with_sleep_calls with_publish_calls with_flag_reads].

Section PublishLoop.

Variable env : Env.
Variables start_time duration sleep_time : PyFloat.float.

Lemma publish_loop_S (fuel : nat) (w : World) :
  publish_loop env (S fuel) start_time duration sleep_time w
  = if PyFloat.ltb
         (PyFloat.sub (clock env (time_calls w) (sleep_calls w)) start_time)
         duration
    then
      if is_publishing (after_flag env w)
      then
        if publish_raises env (publish_calls w)
        then (Raise PublishError,
              with_publish_calls (S (publish_calls w)) (after_flag env w))
        else publish_loop env fuel start_time duration sleep_time
               (after_tick env w)
      else (Return tt, after_flag env w)
    else (Return tt, after_clock w).
Proof.
  cbn [publish_loop]. unfold bind at 1. unfold time_time at 1.
  destruct (PyFloat.ltb _ duration); [|reflexivity].
  unfold bind at 1. unfold read_is_publishing at 1.
  change (if cleared env (flag_reads (with_time_calls (S (time_calls w)) w))
          then with_is_publishing false
                 (with_flag_reads
                    (S (flag_reads (with_time_calls (S (time_calls w)) w)))
                    (with_time_calls (S (time_calls w)) w))
          else with_flag_reads
                 (S (flag_reads (with_time_calls (S (time_calls w)) w)))
                 (with_time_calls (S (time_calls w)) w))
    with (after_flag env w).
  destruct (is_publishing (after_flag env w)) eqn:Hflag; [|reflexivity].
  unfold bind at 1. unfold get at 1.
  unfold bind at 1. unfold publish at 1.
  replace (publish_calls (after_flag env w)) with (publish_calls w)
    by (unfold after_flag; destruct (cleared env _); reflexivity).
  destruct (publish_raises env (publish_calls w)); [reflexivity|].
  unfold bind at 1. unfold time_sleep, modify.
  f_equal. unfold after_tick, after_flag.
  destruct (cleared env _); destruct w; reflexivity.
Qed.

Ltac by_cases_on_cleared :=
  unfold after_tick, after_flag, after_clock;
  match goal with
  | |- context [cleared ?e ?n] => destruct (cleared e n)
  | _ => idtac
  end; repeat split; try reflexivity.

Lemma after_flag_quiet (w : World) : quiet w (after_flag env w).
Proof. by_cases_on_cleared. Qed.

Lemma after_tick_quiet (w : World) : quiet w (after_tick env w).
Proof. by_cases_on_cleared. Qed.

Lemma after_tick_counters (w : World) :
  time_calls (after_tick env w) = S (time_calls w) /\
  sleep_calls (after_tick env w) = S (sleep_calls w) /\
  publish_calls (after_tick env w) = S (publish_calls w) /\
  flag_reads (after_tick env w) = S (flag_reads w) /\
  cmd_vel (after_tick env w) = cmd_vel w ++ [twist_msg w] /\
  is_publishing (after_tick env w) = is_publishing (after_flag env w).
Proof. by_cases_on_cleared. Qed.

Lemma after_flag_counters (w : World) :
  time_calls (after_flag env w) = S (time_calls w) /\
  sleep_calls (after_flag env w) = sleep_calls w /\
  publish_calls (after_flag env w) = publish_calls w /\
  cmd_vel (after_flag env w) = cmd_vel w /\
  is_publishing (after_flag env w)
  = (negb (cleared env (flag_reads w)) && is_publishing w)%bool.
Proof.
  unfold after_flag, after_clock.
  destruct (cleared env (flag_reads w)); repeat split; reflexivity.
Qed.

(** Whatever the clock, the flag and the channel do, the loop publishes
    copies of [self.twist_msg] and nothing else, and it ends in one of
    three ways: its condition fails, [publish] raises, or the bound on
    its length is reached. *)
Lemma publish_loop_any :
  forall (fuel : nat) (w : World),
  exists (n : nat) (r : outcome unit) (w' : World),
    publish_loop env fuel start_time duration sleep_time w = (r, w') /\
    cmd_vel w' = cmd_vel w ++ repeat (twist_msg w) n /\
    quiet w w' /\
    ((r = Return tt /\
      time_calls w' = (time_calls w + n + 1)%nat /\
      sleep_calls w' = (sleep_calls w + n)%nat /\
      publish_calls w' = (publish_calls w + n)%nat)
     \/ (r = Raise PublishError /\
         publish_raises env (publish_calls w + n) = true)
     \/ (r = OutOfFuel /\ n = fuel)).
Proof.
  induction fuel as [|fuel IH]; intros w.
  - exists 0%nat, OutOfFuel, w. cbn. rewrite app_nil_r.
    repeat split; auto.
  - rewrite publish_loop_S.
    destruct (PyFloat.ltb _ duration).
    + destruct (is_publishing (after_flag env w)).
      * destruct (publish_raises env (publish_calls w)) eqn:Hr.
        -- exists 0%nat, (Raise PublishError),
             (with_publish_calls (S (publish_calls w)) (after_flag env w)).
           cbn [repeat]. rewrite app_nil_r.
           pose proof (after_flag_counters w) as (_ & _ & _ & Hc & _).
           pose proof (after_flag_quiet w) as Hq.
           split; [reflexivity|]. split; [exact Hc|].
           split; [exact Hq|]. right; left.
           split; [reflexivity|]. now rewrite Nat.add_0_r.
        -- destruct (IH (after_tick env w)) as (n & r & w' & Hrun & Hcmd & Hq & Hend).
           pose proof (after_tick_counters w) as (Ht & Hs & Hp & _ & Hc & _).
           pose proof (after_tick_quiet w) as Hq0.
           exists (S n), r, w'. split; [exact Hrun|].
           split.
           { rewrite Hcmd, Hc, <- app_assoc.
             destruct Hq0 as (-> & _). reflexivity. }
           split; [eapply quiet_trans; eassumption|].
           rewrite Ht, Hs, Hp in Hend.
           destruct Hend as [(-> & H1 & H2 & H3)|[(-> & H1)|(-> & H1)]].
           ++ left. repeat split; lia.
           ++ right; left. split; [reflexivity|].
              now rewrite Nat.add_succ_r.
           ++ right; right. split; [reflexivity|lia].
      * exists 0%nat, (Return tt), (after_flag env w).
        cbn [repeat]. rewrite app_nil_r.
        pose proof (after_flag_counters w) as (Ht & Hs & Hp & Hc & _).
        split; [reflexivity|]. split; [exact Hc|].
        split; [apply after_flag_quiet|].
        left. repeat split; lia.
    + exists 0%nat, (Return tt), (after_clock w).
      cbn [repeat]. rewrite app_nil_r.
      repeat split. left. unfold after_clock; destruct w; cbn.
      repeat split; lia.
Qed.

(** When the condition holds exactly [n] times and the channel takes the
    [n] ticks, the loop returns after [n] ticks. *)
Lemma publish_loop_exact :
  forall (n fuel : nat) (w : World),
    is_publishing w = true ->
    (forall i, (i < n)%nat -> loop_condition env start_time duration w i = true) ->
    loop_condition env start_time duration w n = false ->
    (forall i, (i < n)%nat -> publish_raises env (publish_calls w + i) = false) ->
    (n < fuel)%nat ->
    exists w' : World,
      publish_loop env fuel start_time duration sleep_time w = (Return tt, w') /\
      cmd_vel w' = cmd_vel w ++ repeat (twist_msg w) n /\
      quiet w w' /\
      time_calls w' = (time_calls w + n + 1)%nat /\
      sleep_calls w' = (sleep_calls w + n)%nat /\
      publish_calls w' = (publish_calls w + n)%nat.
Proof.
  induction n as [|n IH]; intros fuel w Hflag Hyes Hno Hpub Hfuel.
  - destruct fuel as [|fuel]; [lia|].
    rewrite publish_loop_S.
    unfold loop_condition in Hno. rewrite !Nat.add_0_r in Hno.
    pose proof (after_flag_counters w) as (Ht & Hs & Hp & Hc & Hi).
    destruct (PyFloat.ltb _ duration).
    + cbn in Hno. rewrite Hi, Hno. cbn.
      exists (after_flag env w). cbn [repeat]. rewrite app_nil_r.
      split; [reflexivity|]. split; [exact Hc|].
      split; [apply after_flag_quiet|]. lia.
    + exists (after_clock w). cbn [repeat]. rewrite app_nil_r.
      unfold after_clock; destruct w; cbn. repeat split; lia.
  - destruct fuel as [|fuel]; [lia|].
    rewrite publish_loop_S.
    pose proof (Hyes 0%nat ltac:(lia)) as H0.
    unfold loop_condition in H0. rewrite !Nat.add_0_r in H0.
    apply andb_prop in H0 as (Htime & Hclr).
    apply negb_true_iff in Hclr.
    pose proof (after_flag_counters w) as (_ & _ & _ & _ & Hi).
    rewrite Htime, Hi, Hclr, Hflag. cbn.
    pose proof (Hpub 0%nat ltac:(lia)) as Hp0.
    rewrite Nat.add_0_r in Hp0. rewrite Hp0.
    pose proof (after_tick_counters w) as (Ht & Hs & Hp & Hf & Hc & Hip).
    pose proof (after_tick_quiet w) as Hq0.
    destruct (IH fuel (after_tick env w)) as (w' & Hrun & Hcmd & Hq & Ht' & Hs' & Hp').
    + rewrite Hip, Hi, Hclr, Hflag. reflexivity.
    + intros i Hlt. specialize (Hyes (S i) ltac:(lia)).
      unfold loop_condition in *. rewrite Ht, Hs, Hf.
      now rewrite !Nat.add_succ_r in Hyes.
    + unfold loop_condition in *. rewrite Ht, Hs, Hf.
      now rewrite !Nat.add_succ_r in Hno.
    + intros i Hlt. specialize (Hpub (S i) ltac:(lia)).
      rewrite Hp. now rewrite Nat.add_succ_r in Hpub.
    + lia.
    + exists w'. split; [exact Hrun|].
      split.
      { rewrite Hcmd, Hc, <- app_assoc.
        destruct Hq0 as (-> & _). reflexivity. }
      split; [eapply quiet_trans; eassumption|].
      lia.
Qed.

End PublishLoop.

(** ** One session: [publish_velocity] *)

Section Session.

Variable env : Env.

Lemma publish_velocity_unfold
  (fuel : nat) (linear_vel angular_vel duration : PyFloat.float) (w : World) :
  publish_velocity env fuel linear_vel angular_vel duration w
  = let start_time := clock env (time_calls w) (sleep_calls w) in
    match publish_loop env fuel start_time duration (PyFloat.div one ten)
            (entering linear_vel angular_vel duration w) with
    | (Return _, w1) =>
        match stop_robot env w1 with
        | (Return _, w2) => (Return PyNone, leaving env start_time w2)
        | (Raise e, w2) => (Raise e, w2)
        | (Blocked, w2) => (Blocked, w2)
        | (OutOfFuel, w2) => (OutOfFuel, w2)
        end
    | (Raise e, w1) => (Raise e, w1)
    | (Blocked, w1) => (Blocked, w1)
    | (OutOfFuel, w1) => (OutOfFuel, w1)
    end.
Proof.
  destruct w.
  cbv [publish_velocity bind modify print time_time ret entering leaving
       with_is_publishing with_twist_msg with_stdout with_time_calls
       Twist.set_linear_x Twist.set_linear_y Twist.set_linear_z
       Twist.set_angular_x Twist.set_angular_y Twist.set_angular_z
       Twist.linear Twist.angular Vector3.x Vector3.y Vector3.z tick_msg
       twist_msg is_publishing test_mode rclpy_ok node_bound cmd_vel stdout
       stdin time_calls sleep_calls publish_calls flag_reads].
  rewrite <- app_assoc. cbn [app].
  match goal with
  | |- context [publish_loop env fuel ?s ?d ?t ?w0] =>
      destruct (publish_loop env fuel s d t w0) as [[a|e| |] w1]
  end; reflexivity.
Qed.

Lemma entering_fields (linear_vel angular_vel duration : PyFloat.float)
  (w : World) :
  let w0 := entering linear_vel angular_vel duration w in
  twist_msg w0 = tick_msg linear_vel angular_vel /\
  is_publishing w0 = true /\
  cmd_vel w0 = cmd_vel w /\
  time_calls w0 = S (time_calls w) /\
  sleep_calls w0 = sleep_calls w /\
  publish_calls w0 = publish_calls w /\
  flag_reads w0 = flag_reads w /\
  stdout w0 = stdout w ++ [StartingTest linear_vel angular_vel duration;
                           Text "Test in progress..."] /\
  test_mode w0 = test_mode w /\ rclpy_ok w0 = rclpy_ok w /\
  node_bound w0 = node_bound w /\ stdin w0 = stdin w.
Proof. destruct w; cbn. repeat split. Qed.

(** The shape of every run of [publish_velocity]: [n] ticks that all carry
    the two velocities it was called with, then [k] zero commands; five
    of them when it returns, fewer when a publish raised. *)
Lemma publish_velocity_any
  (fuel : nat) (linear_vel angular_vel duration : PyFloat.float) (w : World) :
  exists (n k : nat) (r : outcome value) (w' : World),
    publish_velocity env fuel linear_vel angular_vel duration w = (r, w') /\
    cmd_vel w' = cmd_vel w ++ repeat (tick_msg linear_vel angular_vel) n
                           ++ repeat stop_msg k /\
    (k <= 5)%nat /\
    test_mode w' = test_mode w /\ rclpy_ok w' = rclpy_ok w /\
    node_bound w' = node_bound w /\ stdin w' = stdin w /\
    ((r = Return PyNone /\ k = 5%nat /\ is_publishing w' = false /\
      stdout w'
      = stdout w
        ++ [StartingTest linear_vel angular_vel duration;
            Text "Test in progress...";
            TestCompleted
              (PyFloat.sub
                 (clock env (time_calls w + n + 2) (sleep_calls w + n + 5))
                 (clock env (time_calls w) (sleep_calls w)))])
     \/ (r = Raise PublishError /\ (k < 5)%nat /\
         publish_raises env (publish_calls w + n + k) = true)
     \/ (r = OutOfFuel /\ n = fuel /\ k = 0%nat)).
Proof.
  rewrite publish_velocity_unfold. cbv zeta.
  pose proof (entering_fields linear_vel angular_vel duration w) as Hent.
  cbv zeta in Hent.
  destruct Hent as (Htw & Hip & Hc & Ht & Hs & Hp & Hf & Ho & Hm & Hok & Hnb & Hin).
  destruct (publish_loop_any env
              (clock env (time_calls w) (sleep_calls w)) duration
              (PyFloat.div one ten) fuel
              (entering linear_vel angular_vel duration w))
    as (n & r1 & w1 & Hrun & Hcmd & Hq & Hend).
  rewrite Hrun.
  destruct Hq as (Hq1 & Hq2 & Hq3 & Hq4 & Hq5 & Hq6).
  rewrite Htw, Hc in Hcmd.
  destruct Hend as [(-> & Ht1 & Hs1 & Hp1)|[(-> & Hraise)|(-> & Hn)]].
  - rewrite stop_robot_unfold.
    destruct (for_range_publish_any env stop_msg one_tenth 5 w1)
      as (k & Hk & Hkraise & Hstop).
    rewrite Hstop.
    destruct (Nat.eqb k 5) eqn:Hk5.
    + apply Nat.eqb_eq in Hk5. subst k.
      exists n, 5%nat, (Return PyNone).
      eexists. split; [reflexivity|].
      unfold leaving. fields.
      rewrite Hcmd, Hq2, Hq3, Hq4, Hq5, Hq6, Ho, Ht1, Hs1, Ht, Hs.
      rewrite <- !app_assoc. cbn [app].
      repeat (split; [assumption || reflexivity || lia|]).
      left. do 3 (split; [reflexivity|]).
      replace (S (time_calls w) + n + 1)%nat with (time_calls w + n + 2)%nat
        by lia.
      replace (5 + (sleep_calls w + n))%nat with (sleep_calls w + n + 5)%nat
        by lia.
      reflexivity.
    + apply Nat.eqb_neq in Hk5.
      exists n, k, (Raise PublishError).
      eexists. split; [reflexivity|].
      specialize (Hkraise ltac:(lia)).
      fields.
      rewrite Hcmd, Hq2, Hq3, Hq4, Hq6.
      rewrite <- !app_assoc.
      repeat (split; [assumption || reflexivity || lia|]).
      right; left. split; [reflexivity|]. split; [lia|].
      rewrite <- Hkraise. f_equal. lia.
  - exists n, 0%nat, (Raise PublishError), w1.
    cbn [repeat]. rewrite app_nil_r.
    repeat (split; [congruence || lia|]).
    right; left. split; [reflexivity|]. split; [lia|].
    rewrite Nat.add_0_r. now rewrite <- Hp.
  - exists n, 0%nat, OutOfFuel, w1.
    cbn [repeat]. rewrite app_nil_r.
    repeat (split; [congruence || lia|]).
    right; right. auto.
Qed.

(** A session whose loop condition holds exactly [n] times, on a channel
    that takes [n + 5] messages: it returns, having sent [n] ticks and
    then the five zero commands. *)
Lemma publish_velocity_exact
  (n fuel : nat) (linear_vel angular_vel duration : PyFloat.float) (w : World) :
  (forall i, (i < n)%nat -> session_condition env duration w i = true) ->
  session_condition env duration w n = false ->
  (forall i, (i < n + 5)%nat -> publish_raises env (publish_calls w + i) = false) ->
  (n < fuel)%nat ->
  exists w' : World,
    publish_velocity env fuel linear_vel angular_vel duration w
    = (Return PyNone, w') /\
    cmd_vel w' = cmd_vel w ++ repeat (tick_msg linear_vel angular_vel) n
                           ++ repeat stop_msg 5 /\
    is_publishing w' = false.
Proof.
  intros Hyes Hno Hpub Hfuel.
  rewrite publish_velocity_unfold. cbv zeta.
  pose proof (entering_fields linear_vel angular_vel duration w) as Hent.
  cbv zeta in Hent.
  destruct Hent as (Htw & Hip & Hc & Ht & Hs & Hp & Hf & _).
  assert (Hcond : forall i,
             loop_condition env (clock env (time_calls w) (sleep_calls w))
               duration (entering linear_vel angular_vel duration w) i
             = session_condition env duration w i).
  { intros i. unfold session_condition, loop_condition.
    rewrite Ht, Hs, Hf. reflexivity. }
  assert (Hloop : exists w1,
             publish_loop env fuel (clock env (time_calls w) (sleep_calls w))
               duration (PyFloat.div one ten)
               (entering linear_vel angular_vel duration w)
             = (Return tt, w1) /\
             cmd_vel w1 = cmd_vel w ++ repeat (tick_msg linear_vel angular_vel) n /\
             publish_calls w1 = (publish_calls w + n)%nat).
  { destruct (publish_loop_exact env
                (clock env (time_calls w) (sleep_calls w)) duration
                (PyFloat.div one ten) n fuel
                (entering linear_vel angular_vel duration w))
      as (w1 & Hrun & Hcmd & _ & _ & _ & Hp1).
    - exact Hip.
    - intros i Hi. rewrite Hcond. now apply Hyes.
    - now rewrite Hcond.
    - intros i Hi. rewrite Hp. apply Hpub. lia.
    - exact Hfuel.
    - exists w1. rewrite Hcmd, Htw, Hc, Hp1, Hp. auto. }
  destruct Hloop as (w1 & Hrun & Hcmd & Hp1).
  rewrite Hrun, stop_robot_unfold, for_range_publish_ok.
  - eexists. split; [reflexivity|].
    unfold leaving. fields.
    rewrite Hcmd, <- app_assoc. split; reflexivity.
  - intros i Hi. rewrite Hp1, <- Nat.add_assoc. apply Hpub. lia.
Qed.

End Session.

Lemma forallb_seq_lt (f : nat -> bool) (n : nat) :
  forallb f (seq 0 n) = true -> forall i, (i < n)%nat -> f i = true.
Proof.
  intros H i Hi. rewrite forallb_forall in H. apply H.
  apply in_seq. lia.
Qed.

(** ** The stop sequence *)

(** C2. Whatever state the node is in, and so also when the robot is at
    rest already, [stop_robot] on a channel that takes its messages returns
    after publishing exactly five commands, every one with all six velocity
    components zero.  The five are the same at every call, so calling it
    again sends the same sequence again; nothing else of the node changes. *)
Theorem stop_robot_five_zero_commands (env : Env) (w : World) :
  (forall i, (i < 5)%nat -> publish_raises env (publish_calls w + i) = false) ->
  exists w' : World,
    stop_robot env w = (Return tt, w') /\
    cmd_vel w' = cmd_vel w ++ repeat stop_msg 5 /\
    Forall zero_command (repeat stop_msg 5) /\
    twist_msg w' = twist_msg w /\ is_publishing w' = is_publishing w /\
    ((forall i, (i < 5)%nat -> publish_raises env (publish_calls w' + i) = false) ->
     exists w'' : World,
       stop_robot env w' = (Return tt, w'') /\
       cmd_vel w'' = cmd_vel w ++ repeat stop_msg 5 ++ repeat stop_msg 5).
Proof.
  intros Hok.
  rewrite stop_robot_unfold, for_range_publish_ok by exact Hok.
  eexists. split; [reflexivity|]. fields.
  split; [reflexivity|].
  split; [apply Forall_forall; intros m Hm; apply repeat_spec in Hm; subst m;
          repeat split|].
  split; [reflexivity|]. split; [reflexivity|].
  intros Hok'.
  rewrite stop_robot_unfold, for_range_publish_ok by exact Hok'.
  eexists. split; [reflexivity|]. fields.
  now rewrite <- app_assoc.
Qed.

Lemma stop_robot_five_zero_commands_witness :
  (forall i, (i < 5)%nat ->
     publish_raises ideal_env (publish_calls busy_world + i) = false) /\
  exists w' : World,
    stop_robot ideal_env busy_world = (Return tt, w') /\
    cmd_vel w' = cmd_vel busy_world ++ repeat stop_msg 5.
Proof.
  assert (Hok : forall i, (i < 5)%nat ->
            publish_raises ideal_env (publish_calls busy_world + i) = false)
    by (intros i _; reflexivity).
  split; [exact Hok|].
  destruct (stop_robot_five_zero_commands ideal_env busy_world Hok)
    as (w' & Hrun & Hcmd & _).
  exists w'. split; [exact Hrun | exact Hcmd].
Defined.

(** ** Who may start a session *)

(** C6, counterexample.  With [is_publishing] set, a call of
    [publish_velocity] is not refused: it returns [None] like any other
    and has put eight more commands on the channel. *)
Lemma start_while_running_is_not_refused :
  is_publishing busy_world = true /\
  fst (publish_velocity ideal_env 100 half PyFloat.zero three_tenths busy_world)
  = Return PyNone /\
  cmd_vel (snd (publish_velocity ideal_env 100 half PyFloat.zero three_tenths
                  busy_world))
  = cmd_vel busy_world ++ repeat (tick_msg half PyFloat.zero) 3
                       ++ repeat stop_msg 5 /\
  ~ refused busy_world
      (publish_velocity ideal_env 100 half PyFloat.zero three_tenths busy_world).
Proof.
  split; [reflexivity|].
  split; [vm_compute; reflexivity|].
  split; [vm_compute; reflexivity|].
  intros ((e & He) & _). vm_compute in He. discriminate He.
Qed.

Lemma entering_ignores_flag
  (b : bool) (linear_vel angular_vel duration : PyFloat.float) (w : World) :
  entering linear_vel angular_vel duration (with_is_publishing b w)
  = entering linear_vel angular_vel duration w.
Proof. destruct w; reflexivity. Qed.

(** C6, as the code has it.  [publish_velocity] never looks at
    [is_publishing] before it starts: whatever the flag is on entry, the
    call does exactly what it does from an idle node, and no call is
    refused.  When it returns, the flag is [False]. *)
Theorem publish_velocity_ignores_is_publishing
  (env : Env) (fuel : nat) (linear_vel angular_vel duration : PyFloat.float)
  (w : World) (b : bool) :
  publish_velocity env fuel linear_vel angular_vel duration
    (with_is_publishing b w)
  = publish_velocity env fuel linear_vel angular_vel duration w
  /\ match publish_velocity env fuel linear_vel angular_vel duration w with
     | (Return v, w') => v = PyNone /\ is_publishing w' = false
     | (Raise e, _) => e = PublishError
     | (Blocked, _) => False
     | (OutOfFuel, _) => True
     end.
Proof.
  split.
  - rewrite !publish_velocity_unfold. cbv zeta.
    rewrite entering_ignores_flag. destruct w; reflexivity.
  - destruct (publish_velocity_any env fuel linear_vel angular_vel duration w)
      as (n & k & r & w' & Hrun & _ & _ & _ & _ & _ & _ & Hend).
    rewrite Hrun.
    destruct Hend as [(-> & _ & Hflag & _)|[(-> & _)|(-> & _)]]; auto.
Qed.

(** ** How many ticks, and what is reported *)

(** C7, counterexample.  On a machine where every sleep of 0.1 s lasts
    0.2 s, a session of 2.0 s returns after 10 ticks and 5 stop commands,
    though [floor(2.0 * 10)] is 20.  When every round of the loop takes one
    millisecond more than its sleep, a session of 100.0 s returns after
    991 ticks, though [floor(100.0 * 10)] is 1000.  In neither is anything
    cancelled, and no publish fails.  And when the flag is cleared before
    its sixth reading, a session of 2.0 s with exact sleeps returns after
    5 ticks. *)
Lemma slow_sleeps_give_fewer_ticks :
  (fst (publish_velocity slow_env 100 half PyFloat.zero two (initial_world []))
   = Return PyNone /\
   cmd_vel (snd (publish_velocity slow_env 100 half PyFloat.zero two
                   (initial_world [])))
   = repeat (tick_msg half PyFloat.zero) 10 ++ repeat stop_msg 5 /\
   PyFloat.floor (PyFloat.mul two ten) = Some 20%Z /\
   ~ (20 <= 10)%nat) /\
  (fst (publish_velocity drift_env 2000 half PyFloat.zero hundred
          (initial_world []))
   = Return PyNone /\
   cmd_vel (snd (publish_velocity drift_env 2000 half PyFloat.zero hundred
                   (initial_world [])))
   = repeat (tick_msg half PyFloat.zero) 991 ++ repeat stop_msg 5 /\
   PyFloat.floor (PyFloat.mul hundred ten) = Some 1000%Z /\
   ~ (1000 <= 991)%nat) /\
  (fst (publish_velocity cancel_env 100 half PyFloat.zero two
          (initial_world []))
   = Return PyNone /\
   cmd_vel (snd (publish_velocity cancel_env 100 half PyFloat.zero two
                   (initial_world [])))
   = repeat (tick_msg half PyFloat.zero) 5 ++ repeat stop_msg 5 /\
   ~ (20 <= 5)%nat).
Proof.
  split; [|split].
  - split; [vm_compute; reflexivity|].
    split; [vm_compute; reflexivity|].
    split; [vm_compute; reflexivity|]. lia.
  - split; [vm_compute; reflexivity|].
    split; [vm_compute; reflexivity|].
    split; [vm_compute; reflexivity|]. lia.
  - split; [vm_compute; reflexivity|].
    split; [vm_compute; reflexivity|]. lia.
Qed.

(** C7, as the code has it.  A session publishes one tick for each
    evaluation of the loop condition (elapsed time below the duration, and
    [is_publishing] not cleared) that holds: when the condition holds at
    the first [n] evaluations and fails at the next, and the channel takes
    [n + 5] messages, [publish_velocity] returns, for any bound above [n],
    after exactly [n] ticks followed by exactly five stop commands.  This
    covers the loop ended by the clock and the loop ended by the flag. *)
Theorem publish_velocity_ticks_then_five_stops
  (env : Env) (n fuel : nat) (linear_vel angular_vel duration : PyFloat.float)
  (w : World) :
  (forall i, (i < n)%nat -> session_condition env duration w i = true) ->
  session_condition env duration w n = false ->
  (forall i, (i < n + 5)%nat -> publish_raises env (publish_calls w + i) = false) ->
  (n < fuel)%nat ->
  fst (publish_velocity env fuel linear_vel angular_vel duration w)
  = Return PyNone /\
  cmd_vel (snd (publish_velocity env fuel linear_vel angular_vel duration w))
  = cmd_vel w ++ repeat (tick_msg linear_vel angular_vel) n
              ++ repeat stop_msg 5.
Proof.
  intros Hyes Hno Hpub Hfuel.
  destruct (publish_velocity_exact env n fuel linear_vel angular_vel duration w
              Hyes Hno Hpub Hfuel) as (w' & Hrun & Hcmd & _).
  rewrite Hrun. split; [reflexivity | exact Hcmd].
Qed.

(** The first end-to-end scenario: Linear, 0.5 m/s for 2.0 s, sleeps of
    exactly 0.1 s: 20 ticks, then 5 stop commands. *)
Lemma publish_velocity_ticks_then_five_stops_witness :
  (forall i, (i < 20)%nat ->
     session_condition ideal_env two (initial_world []) i = true) /\
  session_condition ideal_env two (initial_world []) 20 = false /\
  (forall i, (i < 20 + 5)%nat ->
     publish_raises ideal_env (publish_calls (initial_world []) + i) = false) /\
  (20 < 21)%nat /\
  fst (publish_velocity ideal_env 21 half PyFloat.zero two (initial_world []))
  = Return PyNone /\
  cmd_vel (snd (publish_velocity ideal_env 21 half PyFloat.zero two
                  (initial_world [])))
  = cmd_vel (initial_world []) ++ repeat (tick_msg half PyFloat.zero) 20
                               ++ repeat stop_msg 5.
Proof.
  assert (Hyes : forall i, (i < 20)%nat ->
            session_condition ideal_env two (initial_world []) i = true)
    by (apply forallb_seq_lt; vm_compute; reflexivity).
  assert (Hno : session_condition ideal_env two (initial_world []) 20 = false)
    by (vm_compute; reflexivity).
  assert (Hpub : forall i, (i < 20 + 5)%nat ->
            publish_raises ideal_env (publish_calls (initial_world []) + i)
            = false)
    by (intros i _; reflexivity).
  assert (Hfuel : (20 < 21)%nat) by lia.
  split; [exact Hyes|]. split; [exact Hno|].
  split; [exact Hpub|]. split; [exact Hfuel|].
  exact (publish_velocity_ticks_then_five_stops ideal_env 20 21 half
           PyFloat.zero two (initial_world []) Hyes Hno Hpub Hfuel).
Defined.

(** C8, counterexample.  In the first end-to-end scenario, with sleeps of
    exactly 0.1 s, the call returns [None]; the elapsed time is printed,
    and it is 2.5 s for a duration of 2.0 s: the half second of the stop
    sequence is counted. *)
Lemma elapsed_is_printed_and_counts_the_stop_sequence :
  fst (publish_velocity ideal_env 100 half PyFloat.zero two (initial_world []))
  = Return PyNone /\
  stdout (snd (publish_velocity ideal_env 100 half PyFloat.zero two
                 (initial_world [])))
  = [StartingTest half PyFloat.zero two; Text "Test in progress...";
     TestCompleted two_and_a_half] /\
  PyFloat.leb (PyFloat.sub two_and_a_half two) one_tenth = false /\
  ~ returns_elapsed_within_a_tick two
      (fst (publish_velocity ideal_env 100 half PyFloat.zero two
              (initial_world []))).
Proof.
  split; [vm_compute; reflexivity|].
  split; [vm_compute; reflexivity|].
  split; [vm_compute; reflexivity|].
  intros (elapsed & He & _). vm_compute in He. discriminate He.
Qed.

(** C8, as the code has it.  Every run of [publish_velocity] that completes
    returns [None].  The elapsed time is reported on the console only: the
    last line printed is the difference between the clock as read after the
    stop sequence, that is after the [n] sleeps of the ticks and the five
    of the stop commands, and the clock as read at the start. *)
Theorem publish_velocity_returns_none_and_prints_elapsed
  (env : Env) (fuel : nat) (linear_vel angular_vel duration : PyFloat.float)
  (w : World) :
  match publish_velocity env fuel linear_vel angular_vel duration w with
  | (Return v, w') =>
      v = PyNone /\
      exists n : nat,
        cmd_vel w' = cmd_vel w ++ repeat (tick_msg linear_vel angular_vel) n
                               ++ repeat stop_msg 5 /\
        stdout w'
        = stdout w
          ++ [StartingTest linear_vel angular_vel duration;
              Text "Test in progress...";
              TestCompleted
                (PyFloat.sub
                   (clock env (time_calls w + n + 2) (sleep_calls w + n + 5))
                   (clock env (time_calls w) (sleep_calls w)))]
  | (Raise e, _) => e = PublishError
  | (Blocked, _) => False
  | (OutOfFuel, w') =>
      cmd_vel w' = cmd_vel w ++ repeat (tick_msg linear_vel angular_vel) fuel
  end.
Proof.
  destruct (publish_velocity_any env fuel linear_vel angular_vel duration w)
    as (n & k & r & w' & Hrun & Hcmd & _ & _ & _ & _ & _ & Hend).
  rewrite Hrun.
  destruct Hend as [(-> & -> & _ & Hout)|[(-> & _)|(-> & -> & ->)]].
  - split; [reflexivity|]. exists n. split; assumption.
  - reflexivity.
  - cbn [repeat] in Hcmd. now rewrite app_nil_r in Hcmd.
Qed.

(** ** Collecting the parameters *)

Lemma console_only_refl (w : World) : console_only w w.
Proof. repeat split. Qed.

Lemma console_only_trans (w1 w2 w3 : World) :
  console_only w1 w2 -> console_only w2 w3 -> console_only w1 w3.
Proof. unfold console_only. intuition congruence. Qed.

Ltac run_console :=
  cbv [test_parameters_attempt try_except bind print input modify float ret
       raise is_ValueError is_KeyboardInterrupt orb
       with_stdout with_stdin
       twist_msg is_publishing test_mode rclpy_ok node_bound cmd_vel stdout
       stdin time_calls sleep_calls publish_calls flag_reads].

Section Collector.

Variables title prompt : string.

Lemma while_true_collects :
  forall (fuel : nat) (w : World),
    (List.length (stdin w) < fuel)%nat ->
    exists w' : World,
      while_true fuel (test_parameters_attempt title prompt) w
      = (fst (collected (stdin w)), w') /\
      stdin w' = snd (collected (stdin w)) /\
      console_only w w'.
Proof.
  induction fuel as [|fuel IH]; intros w Hlen; [lia|].
  destruct w as [tw ip tm ok nb cv out evs tc sc pc fr].
  cbn [stdin] in *.
  cbn [while_true]. unfold bind at 1.
  assert (Hdone : forall (r : outcome (option (PyFloat.float * PyFloat.float)))
                    (out' : list printed) (evs' : list console_event),
             exists w' : World,
               (r, Build_World tw ip tm ok nb cv out' evs' tc sc pc fr)
               = (r, w') /\
               stdin w' = evs' /\
               console_only
                 (Build_World tw ip tm ok nb cv out evs tc sc pc fr) w').
  { intros r out' evs'. eexists. split; [reflexivity|].
    split; [reflexivity|]. repeat split. }
  assert (Hagain : forall (out' : list printed) (evs' : list console_event),
             (List.length evs' < List.length evs)%nat ->
             exists w' : World,
               while_true fuel (test_parameters_attempt title prompt)
                 (Build_World tw ip tm ok nb cv out' evs' tc sc pc fr)
               = (fst (collected evs'), w') /\
               stdin w' = snd (collected evs') /\
               console_only
                 (Build_World tw ip tm ok nb cv out evs tc sc pc fr) w').
  { intros out' evs' Hshort.
    destruct (IH (Build_World tw ip tm ok nb cv out' evs' tc sc pc fr))
      as (w' & Hrun & Hin & Hq); [cbn [stdin]; lia|].
    exists w'. split; [exact Hrun|]. split; [exact Hin|].
    eapply console_only_trans; [|exact Hq]. repeat split. }
  destruct evs as [|[s1| |] rest]; cbn [collected].
  - run_console. apply Hdone.
  - run_console.
    destruct (PyStr.float s1) as [velocity|].
    + destruct rest as [|[s2| |] rest']; cbn [collected fst snd].
      * run_console. apply Hdone.
      * run_console.
        destruct (PyStr.float s2) as [duration|].
        -- destruct (PyFloat.leb duration PyFloat.zero).
           ++ run_console. apply Hagain. cbn [List.length]. lia.
           ++ run_console. apply Hdone.
        -- run_console. apply Hagain. cbn [List.length]. lia.
      * run_console. apply Hdone.
      * run_console. apply Hdone.
    + run_console. apply Hagain. cbn [List.length]. lia.
  - run_console. apply Hdone.
  - run_console. apply Hdone.
Qed.

End Collector.

Lemma get_test_parameters_collects (title prompt : string) (w : World) :
  exists w' : World,
    get_test_parameters title prompt w = (fst (collected (stdin w)), w') /\
    stdin w' = snd (collected (stdin w)) /\
    console_only w w'.
Proof.
  unfold get_test_parameters, console_loop.
  apply while_true_collects. lia.
Qed.

Lemma collected_ending_skip (skipped evs : list console_event) :
  collected_ending evs ->
  collected (skipped ++ evs) = collected evs ->
  collected_ending (skipped ++ evs).
Proof.
  unfold collected_ending. intros H Heq. rewrite Heq.
  destruct (collected evs) as [[[[v d]|]|e| |] rest].
  - destruct H as (Hpos & before & s1 & s2 & -> & H1 & H2).
    split; [exact Hpos|].
    exists (skipped ++ before), s1, s2. now rewrite <- app_assoc.
  - destruct H as (before & ->). exists (skipped ++ before).
    now rewrite <- app_assoc.
  - destruct H as (-> & before & ->). split; [reflexivity|].
    exists (skipped ++ before). now rewrite <- app_assoc.
  - exact H.
  - exact H.
Qed.

Lemma collected_ends (evs : list console_event) : collected_ending evs.
Proof.
  enough (H : forall n evs, (List.length evs <= n)%nat -> collected_ending evs)
    by (apply (H (List.length evs)); lia).
  clear evs. induction n as [|n IH]; intros evs Hlen.
  - destruct evs; [reflexivity | cbn in Hlen; lia].
  - destruct evs as [|[s1| |] rest].
    + reflexivity.
    + destruct (PyStr.float s1) as [velocity|] eqn:Hf1.
      * destruct rest as [|[s2| |] rest'].
        -- unfold collected_ending. cbn [collected]. now rewrite Hf1.
        -- destruct (PyStr.float s2) as [duration|] eqn:Hf2.
           ++ destruct (PyFloat.leb duration PyFloat.zero) eqn:Hle.
              ** apply (collected_ending_skip [Line s1; Line s2] rest').
                 { apply IH. cbn in Hlen. lia. }
                 cbn [app collected]. now rewrite Hf1, Hf2, Hle.
              ** unfold collected_ending. cbn [collected].
                 rewrite Hf1, Hf2, Hle. split; [assumption || reflexivity|].
                 exists [], s1, s2. auto.
           ++ apply (collected_ending_skip [Line s1; Line s2] rest').
              { apply IH. cbn in Hlen. lia. }
              cbn [app collected]. now rewrite Hf1, Hf2.
        -- unfold collected_ending. cbn [collected]. rewrite Hf1.
           exists [Line s1]. reflexivity.
        -- unfold collected_ending. cbn [collected]. rewrite Hf1.
           split; [reflexivity|]. exists [Line s1]. reflexivity.
      * apply (collected_ending_skip [Line s1] rest).
        { apply IH. cbn in Hlen. lia. }
        cbn [app collected]. now rewrite Hf1.
    + unfold collected_ending. cbn [collected]. exists []. reflexivity.
    + unfold collected_ending. cbn [collected].
      split; [reflexivity|]. exists []. reflexivity.
Qed.

(** ** The bounds on the console loops are never reached *)

Section ConsoleLoops.

Context {A : Type}.
Variable body : M (option A).

Hypothesis body_reads :
  forall w w', body w = (Return None, w') ->
               (List.length (stdin w') < List.length (stdin w))%nat.
Hypothesis body_total : forall w, fst (body w) <> OutOfFuel.

Lemma while_true_enough :
  forall (fuel : nat) (w : World),
    (List.length (stdin w) < fuel)%nat ->
    fst (while_true fuel body w) <> OutOfFuel.
Proof.
  induction fuel as [|fuel IH]; intros w Hlen; [lia|].
  cbn [while_true]. unfold bind.
  pose proof (body_total w) as Htotal.
  destruct (body w) as [[[a|]|e| |] w'] eqn:Hbody; unfold ret; cbn [fst] in *;
    try discriminate; try (exfalso; apply Htotal; reflexivity).
  apply IH. apply body_reads in Hbody. lia.
Qed.

Lemma console_loop_total (w : World) :
  fst (console_loop body w) <> OutOfFuel.
Proof. unfold console_loop. apply while_true_enough. lia. Qed.

End ConsoleLoops.

Lemma get_test_mode_total (w : World) : fst (get_test_mode w) <> OutOfFuel.
Proof.
  unfold get_test_mode. apply console_loop_total.
  - intros [tw ip tm ok nb cv out evs tc sc pc fr] w'.
    run_console.
    destruct evs as [|[line| |] rest]; try discriminate.
    destruct (String.eqb (PyStr.strip_string line) "1"); [discriminate|].
    destruct (String.eqb (PyStr.strip_string line) "2"); [discriminate|].
    destruct (String.eqb (PyStr.strip_string line) "3"); [discriminate|].
    intros H. injection H as <-. cbn [List.length]. lia.
  - intros [tw ip tm ok nb cv out evs tc sc pc fr].
    run_console.
    destruct evs as [|[line| |] rest]; try discriminate.
    destruct (String.eqb (PyStr.strip_string line) "1"); [discriminate|].
    destruct (String.eqb (PyStr.strip_string line) "2"); [discriminate|].
    destruct (String.eqb (PyStr.strip_string line) "3"); discriminate.
Qed.

Lemma collected_shortens (evs : list console_event) :
  (List.length (snd (collected evs)) <= List.length evs)%nat.
Proof.
  pose proof (collected_ends evs) as Hend. unfold collected_ending in Hend.
  destruct (collected evs) as [[[[v d]|]|e| |] rest]; cbn [snd].
  - destruct Hend as (_ & before & s1 & s2 & -> & _).
    rewrite length_app. cbn [List.length]. lia.
  - destruct Hend as (before & ->). rewrite length_app. cbn [List.length]. lia.
  - destruct Hend as (_ & before & ->).
    rewrite length_app. cbn [List.length]. lia.
  - subst rest. cbn [List.length]. lia.
  - contradiction.
Qed.

Lemma get_test_parameters_total (title prompt : string) (w : World) :
  fst (get_test_parameters title prompt w) <> OutOfFuel /\
  (List.length (stdin (snd (get_test_parameters title prompt w)))
   <= List.length (stdin w))%nat.
Proof.
  destruct (get_test_parameters_collects title prompt w)
    as (w' & Hrun & Hin & _).
  rewrite Hrun. cbn [fst snd]. rewrite Hin.
  split; [|apply collected_shortens].
  pose proof (collected_ends (stdin w)) as Hend. unfold collected_ending in Hend.
  destruct (collected (stdin w)) as [[[[v d]|]|e| |] rest]; cbn [fst];
    try discriminate. contradiction.
Qed.

(** C4, counterexample.  End of file on the console is neither an exit
    selection nor an interrupt, and it ends the collection loop: the
    [EOFError] that [input] raises is not caught. *)
Lemma end_of_file_ends_the_collection :
  fst (get_linear_test_parameters (initial_world [Line "abc"; EndOfFile]))
  = Raise EOFError /\
  fst (get_angular_test_parameters (initial_world [Line "abc"; EndOfFile]))
  = Raise EOFError /\
  ~ In CtrlC [Line "abc"; EndOfFile].
Proof.
  split; [vm_compute; reflexivity|].
  split; [vm_compute; reflexivity|].
  intros [H|[H|[]]]; discriminate H.
Qed.

(** C4, as the code has it.  Whatever the operator does at the prompts of
    [get_linear_test_parameters] or [get_angular_test_parameters]:
    - nothing is published and nothing of the node changes, so no session
      starts while parameters are collected;
    - the loop ends in one of three ways only: it returns a pair read from
      two consecutive lines, both numbers for [float], whose duration is
      not [<= 0]; or an interrupt makes it return [(None, None)]; or the
      end of the console input raises [EOFError], which goes uncaught.
      Otherwise it is still prompting when the input is used up.  No
      invalid value ends it and [ValueError] never leaves it;
    - a line that is not a number at the first prompt is dropped and both
      values are asked again; so are the two lines of an attempt whose
      duration is not a number or is [<= 0]. *)
Theorem collector_rejects_by_reprompting (title prompt : string) (w : World) :
  let run := get_test_parameters title prompt in
  console_only w (snd (run w)) /\
  match fst (run w) with
  | Return (Some (velocity, duration)) =>
      PyFloat.leb duration PyFloat.zero = false /\
      exists (before : list console_event) (s1 s2 : string),
        stdin w = before ++ Line s1 :: Line s2 :: stdin (snd (run w)) /\
        PyStr.float s1 = Some velocity /\ PyStr.float s2 = Some duration
  | Return None =>
      exists before : list console_event,
        stdin w = before ++ CtrlC :: stdin (snd (run w))
  | Raise e =>
      e = EOFError /\
      exists before : list console_event,
        stdin w = before ++ EndOfFile :: stdin (snd (run w))
  | Blocked => stdin (snd (run w)) = []
  | OutOfFuel => False
  end /\
  (forall (s : string) (rest : list console_event),
      stdin w = Line s :: rest -> PyStr.float s = None ->
      fst (run w) = fst (run (with_stdin rest w))) /\
  (forall (s1 s2 : string) (velocity : PyFloat.float)
          (rest : list console_event),
      stdin w = Line s1 :: Line s2 :: rest ->
      PyStr.float s1 = Some velocity ->
      PyStr.float s2 = None \/
      (exists duration, PyStr.float s2 = Some duration /\
                        PyFloat.leb duration PyFloat.zero = true) ->
      fst (run w) = fst (run (with_stdin rest w))).
Proof.
  cbv zeta.
  destruct (get_test_parameters_collects title prompt w)
    as (w' & Hrun & Hin & Hq).
  rewrite Hrun. cbn [fst snd].
  split; [exact Hq|]. split; [|split].
  - pose proof (collected_ends (stdin w)) as Hend.
    unfold collected_ending in Hend. rewrite Hin.
    destruct (collected (stdin w)) as [[[[v d]|]|e| |] rest]; exact Hend.
  - intros s rest Hw Hf.
    destruct (get_test_parameters_collects title prompt (with_stdin rest w))
      as (w2 & Hrun2 & _).
    rewrite Hrun2, Hw. cbn [fst stdin with_stdin collected]. now rewrite Hf.
  - intros s1 s2 velocity rest Hw Hf1 Hbad.
    destruct (get_test_parameters_collects title prompt (with_stdin rest w))
      as (w2 & Hrun2 & _).
    rewrite Hrun2, Hw. cbn [fst stdin with_stdin collected]. rewrite Hf1.
    destruct Hbad as [Hf2|(duration & Hf2 & Hle)]; rewrite Hf2.
    + reflexivity.
    + now rewrite Hle.
Qed.

(** A line that is not a number, then a pair with a negative duration,
    then an interrupt: both attempts are rejected and nothing is sent. *)
Lemma collector_rejects_by_reprompting_witness :
  let w := initial_world [Line "abc"; Line "3.0"; Line "-1"; CtrlC] in
  PyStr.float "abc" = None /\
  PyStr.float "3.0" = Some three /\
  (exists duration, PyStr.float "-1" = Some duration /\
                    PyFloat.leb duration PyFloat.zero = true) /\
  fst (get_linear_test_parameters w)
  = fst (get_linear_test_parameters (with_stdin [CtrlC] w)) /\
  cmd_vel (snd (get_linear_test_parameters w)) = [].
Proof.
  cbv zeta.
  set (w := initial_world [Line "abc"; Line "3.0"; Line "-1"; CtrlC]).
  assert (H1 : PyStr.float "abc" = None) by (vm_compute; reflexivity).
  assert (H2 : PyStr.float "3.0" = Some three) by (vm_compute; reflexivity).
  assert (H3 : exists duration, PyStr.float "-1" = Some duration /\
                                PyFloat.leb duration PyFloat.zero = true)
    by (exists minus_one; split; vm_compute; reflexivity).
  split; [exact H1|]. split; [exact H2|]. split; [exact H3|].
  destruct (collector_rejects_by_reprompting
              "--- Linear Velocity Test ---" "Enter linear velocity (m/s): " w)
    as (Hq & _ & Hfirst & _).
  destruct (collector_rejects_by_reprompting
              "--- Linear Velocity Test ---" "Enter linear velocity (m/s): "
              (with_stdin [Line "3.0"; Line "-1"; CtrlC] w))
    as (_ & _ & _ & Hpair).
  split.
  - unfold get_linear_test_parameters.
    rewrite (Hfirst "abc" [Line "3.0"; Line "-1"; CtrlC] eq_refl H1).
    exact (Hpair "3.0" "-1" three [CtrlC] eq_refl H2 (or_intror H3)).
  - destruct Hq as (_ & _ & _ & _ & _ & Hc & _). exact Hc.
Defined.

(** ** The four inputs of the robustness scenario *)

(** C5, counterexample.  With the four lines in the order given, [abc] is
    rejected at the first prompt, [3.0] and [-1] make a pair that is
    rejected for its duration, and then both values are asked again: [2.5]
    is read as the velocity and the collector waits at the duration
    prompt.  With the lines taken alternately the collector returns
    [(-1.0, 3.0)].  Neither gives [(3.0, 2.5)]. *)
Lemma four_lines_do_not_give_the_pair :
  let given := initial_world [Line "abc"; Line "3.0"; Line "-1"; Line "2.5"] in
  let alternate := initial_world [Line "abc"; Line "-1"; Line "3.0"; Line "2.5"] in
  fst (get_linear_test_parameters given) = Blocked /\
  stdin (snd (get_linear_test_parameters given)) = [] /\
  last (stdout (snd (get_linear_test_parameters given))) (Text "")
  = Text "Enter duration (seconds): " /\
  fst (get_linear_test_parameters alternate) = Return (Some (minus_one, three)) /\
  fst (get_linear_test_parameters given)
  <> Return (Some (three, two_and_a_half)) /\
  fst (get_linear_test_parameters alternate)
  <> Return (Some (three, two_and_a_half)).
Proof.
  cbv zeta.
  split; [vm_compute; reflexivity|].
  split; [vm_compute; reflexivity|].
  split; [vm_compute; reflexivity|].
  split; [vm_compute; reflexivity|].
  split; vm_compute; intros H; discriminate H.
Qed.

(** C5, as the code has it.  When the velocity is typed again after the
    rejected duration, that is on the lines [abc], [3.0], [-1], [3.0],
    [2.5], the collector rejects [abc], rejects the pair with duration
    [-1], and returns [(3.0, 2.5)] with nothing left to read. *)
Theorem five_lines_give_the_pair :
  let w := initial_world
             [Line "abc"; Line "3.0"; Line "-1"; Line "3.0"; Line "2.5"] in
  fst (get_linear_test_parameters w) = Return (Some (three, two_and_a_half)) /\
  stdin (snd (get_linear_test_parameters w)) = [] /\
  stdout (snd (get_linear_test_parameters w))
  = [Text "--- Linear Velocity Test ---"; Text "Enter linear velocity (m/s): ";
     Text "Please enter valid numbers!";
     Text "--- Linear Velocity Test ---"; Text "Enter linear velocity (m/s): ";
     Text "Enter duration (seconds): "; Text "Duration must be positive!";
     Text "--- Linear Velocity Test ---"; Text "Enter linear velocity (m/s): ";
     Text "Enter duration (seconds): "] /\
  PyStr.float "abc" = None /\
  PyStr.float "-1" = Some minus_one /\
  PyFloat.leb minus_one PyFloat.zero = true.
Proof.
  cbv zeta. repeat (split; [vm_compute; reflexivity|]).
  vm_compute; reflexivity.
Qed.

(** ** One turn of the interface *)

Ltac run_turn :=
  cbv [user_interface_turn try_except bind get print input modify ret raise
       run_in_thread is_KeyboardInterrupt with_stdout with_stdin
       twist_msg is_publishing test_mode rclpy_ok node_bound cmd_vel stdout
       stdin time_calls sleep_calls publish_calls flag_reads fst snd].

Section Turn.

Variable env : Env.
Variable session : nat.

(** Once the session of a turn is over, the turn only prints and reads:
    the channel stays as the session left it. *)
Lemma linear_turn_cmd_vel
  (w : World) (velocity duration : PyFloat.float) :
  test_mode w = Some linear ->
  fst (get_linear_test_parameters w) = Return (Some (velocity, duration)) ->
  cmd_vel (snd (user_interface_turn env session w))
  = cmd_vel (snd (publish_velocity env session velocity PyFloat.zero duration
                    (snd (get_linear_test_parameters w)))).
Proof.
  intros Hmode Hget.
  destruct w as [tw ip tm ok nb cv out evs tc sc pc fr].
  cbn [test_mode] in Hmode. subst tm.
  run_turn.
  destruct (get_linear_test_parameters _) as [r1 w1].
  cbn [fst] in Hget. subst r1. cbv beta iota.
  destruct (publish_velocity env session velocity PyFloat.zero duration w1)
    as [[v|e| |] w2]; cbv beta iota; try reflexivity;
    destruct w2 as [tw2 ip2 tm2 ok2 nb2 cv2 out2 evs2 tc2 sc2 pc2 fr2];
    destruct evs2 as [|[line| |] rest]; try reflexivity;
    destruct (in_y_yes (PyStr.strip_lower line)); reflexivity.
Qed.

Lemma angular_turn_cmd_vel
  (w : World) (velocity duration : PyFloat.float) :
  test_mode w = Some angular ->
  fst (get_angular_test_parameters w) = Return (Some (velocity, duration)) ->
  cmd_vel (snd (user_interface_turn env session w))
  = cmd_vel (snd (publish_velocity env session PyFloat.zero velocity duration
                    (snd (get_angular_test_parameters w)))).
Proof.
  intros Hmode Hget.
  destruct w as [tw ip tm ok nb cv out evs tc sc pc fr].
  cbn [test_mode] in Hmode. subst tm.
  run_turn.
  destruct (get_angular_test_parameters _) as [r1 w1].
  cbn [fst] in Hget. subst r1. cbv beta iota.
  destruct (publish_velocity env session PyFloat.zero velocity duration w1)
    as [[v|e| |] w2]; cbv beta iota; try reflexivity;
    destruct w2 as [tw2 ip2 tm2 ok2 nb2 cv2 out2 evs2 tc2 sc2 pc2 fr2];
    destruct evs2 as [|[line| |] rest]; try reflexivity;
    destruct (in_y_yes (PyStr.strip_lower line)); reflexivity.
Qed.

(** The channel after a session run from the world [w1] that the
    collector left, itself a step of the console away from [w]. *)
Lemma session_after_collecting
  (w w1 : World) (linear_vel angular_vel duration : PyFloat.float) :
  console_only w w1 ->
  exists n k : nat,
    (k <= 5)%nat /\
    cmd_vel (snd (publish_velocity env session linear_vel angular_vel
                    duration w1))
    = cmd_vel w ++ repeat (tick_msg linear_vel angular_vel) n
                ++ repeat stop_msg k.
Proof.
  intros (_ & _ & _ & _ & _ & Hc & _).
  destruct (publish_velocity_any env session linear_vel angular_vel
              duration w1)
    as (n & k & r & w' & Hrun & Hcmd & Hk & _).
  exists n, k. rewrite Hrun. cbn [snd]. rewrite Hcmd, Hc. auto.
Qed.

End Turn.

(** ** The bound on the loop of the interface is reached only by a session *)

Section InterfaceLoop.

Variable body : M bool.

Hypothesis body_reads :
  forall w w', body w = (Return true, w') ->
               (List.length (stdin w') < List.length (stdin w))%nat.

Lemma while_rclpy_ok_enough :
  forall (fuel : nat) (w : World),
    (List.length (stdin w) < fuel)%nat ->
    fst (while_rclpy_ok fuel body w) = OutOfFuel ->
    exists w0 : World, fst (body w0) = OutOfFuel.
Proof.
  induction fuel as [|fuel IH]; intros w Hlen; [lia|].
  cbn [while_rclpy_ok]. unfold bind at 1. unfold get.
  destruct (rclpy_ok w); [|discriminate].
  unfold bind.
  destruct (body w) as [[[|]|e| |] w'] eqn:Hbody; unfold ret; cbn [fst];
    try discriminate.
  - apply IH. apply body_reads in Hbody. lia.
  - intros _. exists w. now rewrite Hbody.
Qed.

End InterfaceLoop.

Section InterfaceTurn.

Variable env : Env.
Variable session : nat.

Lemma publish_velocity_stdin
  (linear_vel angular_vel duration : PyFloat.float) (w : World) :
  stdin (snd (publish_velocity env session linear_vel angular_vel duration w))
  = stdin w.
Proof.
  destruct (publish_velocity_any env session linear_vel angular_vel duration w)
    as (n & k & r & w' & Hrun & _ & _ & _ & _ & _ & Hin & _).
  now rewrite Hrun.
Qed.

Ltac after_session Hpv :=
  match goal with
  | |- context [publish_velocity env session ?l ?a ?d ?w1] =>
      pose proof (publish_velocity_stdin l a d w1) as Hpv;
      destruct (publish_velocity env session l a d w1)
        as [[?|?| |] [? ? ? ? ? ? ? evs2 ? ? ? ?]];
      cbn [snd stdin] in Hpv; subst evs2; cbv beta iota
  end.

Ltac at_prompt :=
  match goal with
  | |- context [match ?evs with [] => _ | _ :: _ => _ end] =>
      destruct evs as [|[line| |] rest]; cbv beta iota;
      try match goal with
        | |- context [in_y_yes ?s] => destruct (in_y_yes s)
        end
  end.

Lemma user_interface_turn_reads (w w' : World) :
  user_interface_turn env session w = (Return true, w') ->
  (List.length (stdin w') < List.length (stdin w))%nat.
Proof.
  destruct w as [tw ip tm ok nb cv out evs tc sc pc fr].
  destruct tm as [[| |]|]; run_turn.
  - pose proof (get_test_parameters_total
                  "--- Linear Velocity Test ---" "Enter linear velocity (m/s): "
                  (Build_World tw ip (Some linear) ok nb cv out evs tc sc pc fr))
      as (_ & Hless).
    fold get_linear_test_parameters in Hless.
    destruct (get_linear_test_parameters _)
      as [[[[v d]|]|e| |] [tw1 ip1 tm1 ok1 nb1 cv1 out1 evs1 tc1 sc1 pc1 fr1]];
      cbn [snd stdin] in Hless; cbv beta iota; try discriminate;
      [after_session Hpv; try discriminate; at_prompt; try discriminate;
       intros H; injection H as <-; cbn [stdin List.length] in *; lia
      |destruct e; discriminate].
  - pose proof (get_test_parameters_total
                  "--- Angular Velocity Test ---"
                  "Enter angular velocity (rad/s): "
                  (Build_World tw ip (Some angular) ok nb cv out evs tc sc pc fr))
      as (_ & Hless).
    fold get_angular_test_parameters in Hless.
    destruct (get_angular_test_parameters _)
      as [[[[v d]|]|e| |] [tw1 ip1 tm1 ok1 nb1 cv1 out1 evs1 tc1 sc1 pc1 fr1]];
      cbn [snd stdin] in Hless; cbv beta iota; try discriminate;
      [after_session Hpv; try discriminate; at_prompt; try discriminate;
       intros H; injection H as <-; cbn [stdin List.length] in *; lia
      |destruct e; discriminate].
  - at_prompt; try discriminate.
    intros H; injection H as <-; cbn [stdin List.length]; lia.
  - at_prompt; try discriminate.
    intros H; injection H as <-; cbn [stdin List.length]; lia.
Qed.

Ltac session_or_out Hrun :=
  match goal with
  | |- context [publish_velocity env session ?l ?a ?d ?w1] =>
      destruct (publish_velocity env session l a d w1)
        as [[?|?| |] [? ? ? ? ? ? ? evs2 ? ? ? ?]] eqn:Hrun;
      cbv beta iota;
      [ | | | intros _; exists l, a, d, w1; now rewrite Hrun]
  end.

Lemma user_interface_turn_out_of_fuel (w : World) :
  fst (user_interface_turn env session w) = OutOfFuel ->
  exists (linear_vel angular_vel duration : PyFloat.float) (w1 : World),
    fst (publish_velocity env session linear_vel angular_vel duration w1)
    = OutOfFuel.
Proof.
  destruct w as [tw ip tm ok nb cv out evs tc sc pc fr].
  destruct tm as [[| |]|]; run_turn.
  - pose proof (get_test_parameters_total
                  "--- Linear Velocity Test ---" "Enter linear velocity (m/s): "
                  (Build_World tw ip (Some linear) ok nb cv out evs tc sc pc fr))
      as (Htotal & _).
    fold get_linear_test_parameters in Htotal.
    destruct (get_linear_test_parameters _)
      as [[[[v d]|]|e| |] w1]; cbn [fst] in Htotal; cbv beta iota;
      try discriminate; try contradiction;
      [session_or_out Hrun; try discriminate; at_prompt; discriminate
      |destruct e; discriminate].
  - pose proof (get_test_parameters_total
                  "--- Angular Velocity Test ---"
                  "Enter angular velocity (rad/s): "
                  (Build_World tw ip (Some angular) ok nb cv out evs tc sc pc fr))
      as (Htotal & _).
    fold get_angular_test_parameters in Htotal.
    destruct (get_angular_test_parameters _)
      as [[[[v d]|]|e| |] w1]; cbn [fst] in Htotal; cbv beta iota;
      try discriminate; try contradiction;
      [session_or_out Hrun; try discriminate; at_prompt; discriminate
      |destruct e; discriminate].
  - at_prompt; discriminate.
  - at_prompt; discriminate.
Qed.

(** The interface runs out of its bound only when the publish loop of one
    of its sessions does: the loops that read the console are never cut
    short. *)
Lemma user_interface_out_of_fuel (w : World) :
  fst (user_interface env session w) = OutOfFuel ->
  exists (linear_vel angular_vel duration : PyFloat.float) (w1 : World),
    fst (publish_velocity env session linear_vel angular_vel duration w1)
    = OutOfFuel.
Proof.
  unfold user_interface. unfold bind at 1.
  pose proof (get_test_mode_total w) as Hmode.
  destruct (get_test_mode w) as [[mode|e| |] w1]; cbn [fst] in *;
    try discriminate; try contradiction.
  unfold bind at 1. unfold modify at 1.
  assert (Hloop :
            fst (while_rclpy_ok
                   (S (List.length (stdin (with_test_mode (Some mode) w1))))
                   (user_interface_turn env session)
                   (with_test_mode (Some mode) w1)) = OutOfFuel ->
            exists (linear_vel angular_vel duration : PyFloat.float)
                   (w2 : World),
              fst (publish_velocity env session linear_vel angular_vel
                     duration w2) = OutOfFuel).
  { intros Hout.
    apply while_rclpy_ok_enough in Hout.
    - destruct Hout as (w0 & Hturn).
      now apply user_interface_turn_out_of_fuel in Hturn.
    - apply user_interface_turn_reads.
    - lia. }
  destruct mode; [| |discriminate]; unfold bind at 1; cbv beta;
    match goal with
    | |- context [while_rclpy_ok ?f ?b ?w0] =>
        destruct (while_rclpy_ok f b w0) as [[[]|e| |] w2];
        try discriminate; intros _; now apply Hloop
    end.
Qed.

End InterfaceTurn.

(** ** How many ticks a session publishes *)

(** The rounds of publish-and-sleep run until the first publish that
    raises: the [j] before it are taken by the channel. *)
Lemma for_range_publish_counts
  (env : Env) (msg : Twist.t) (secs : PyFloat.float) :
  forall (k : nat) (w : World),
    exists j : nat,
      (j <= k)%nat /\
      (forall i, (i < j)%nat ->
         publish_raises env (publish_calls w + i) = false) /\
      (j < k -> publish_raises env (publish_calls w + j) = true)%nat /\
      for_range k (publish env msg ;; time_sleep secs) w
      = (if Nat.eqb j k then Return tt else Raise PublishError,
         with_cmd_vel (cmd_vel w ++ repeat msg j)
           (with_sleep_calls (j + sleep_calls w)
              (with_publish_calls
                 ((if Nat.eqb j k then j else S j) + publish_calls w) w))).
Proof.
  induction k as [|k IH]; intros w.
  - exists 0%nat. destruct w; cbn. rewrite app_nil_r.
    split; [lia|]. split; [intros i Hi; lia|]. split; [lia | reflexivity].
  - rewrite for_range_S. unfold bind at 1. rewrite publish_sleep.
    destruct (publish_raises env (publish_calls w)) eqn:Hr.
    + exists 0%nat. rewrite Nat.add_0_r.
      destruct w; cbn in *. rewrite app_nil_r.
      split; [lia|]. split; [intros i Hi; lia|]. split; [auto | reflexivity].
    + match goal with
      | |- context [for_range k _ ?w1] =>
          destruct (IH w1) as (j & Hj & Hok & Hraise & Hrun)
      end.
      exists (S j). split; [lia|].
      rewrite Hrun. change (Nat.eqb (S j) (S k)) with (Nat.eqb j k).
      split; [|split].
      * intros [|i] Hi; [now rewrite Nat.add_0_r|].
        destruct w; cbn in *.
        rewrite Nat.add_succ_r. apply Hok. lia.
      * intros Hlt. destruct w; cbn in *.
        rewrite Nat.add_succ_r. apply Hraise. lia.
      * destruct w; cbn. rewrite <- app_assoc.
        destruct (Nat.eqb j k); cbn; rewrite ?Nat.add_succ_r; reflexivity.
Qed.

(** The loop publishes a tick exactly as long as its condition holds: the
    [n] ticks of a run entered with the flag set are those of the first
    [n] evaluations of the condition, which all held, and the loop is left
    when the condition fails, when [publish] raises, or at the bound. *)
Lemma publish_loop_counts
  (env : Env) (start_time duration sleep_time : PyFloat.float) :
  forall (fuel : nat) (w : World),
    is_publishing w = true ->
    exists (n : nat) (r : outcome unit) (w' : World),
      publish_loop env fuel start_time duration sleep_time w = (r, w') /\
      cmd_vel w' = cmd_vel w ++ repeat (twist_msg w) n /\
      (forall i, (i < n)%nat ->
         loop_condition env start_time duration w i = true) /\
      (forall i, (i < n)%nat ->
         publish_raises env (publish_calls w + i) = false) /\
      ((r = Return tt /\
        loop_condition env start_time duration w n = false /\
        publish_calls w' = (publish_calls w + n)%nat)
       \/ (r = Raise PublishError /\
           loop_condition env start_time duration w n = true /\
           publish_raises env (publish_calls w + n) = true)
       \/ (r = OutOfFuel /\ n = fuel)).
Proof.
  induction fuel as [|fuel IH]; intros w Hflag.
  - exists 0%nat, OutOfFuel, w. split; [reflexivity|].
    cbn [repeat]. rewrite app_nil_r. split; [reflexivity|].
    split; [intros i Hi; lia|]. split; [intros i Hi; lia|].
    right; right. auto.
  - rewrite publish_loop_S.
    pose proof (after_flag_counters env w) as (_ & _ & Hpf & Hcf & Hi).
    rewrite Hflag, andb_true_r in Hi.
    assert (H0 : loop_condition env start_time duration w 0
                 = (PyFloat.ltb
                      (PyFloat.sub (clock env (time_calls w) (sleep_calls w))
                                   start_time) duration
                    && negb (cleared env (flag_reads w)))%bool)
      by (unfold loop_condition; rewrite !Nat.add_0_r; reflexivity).
    destruct (PyFloat.ltb _ duration) eqn:Htime.
    + rewrite Hi. cbn [andb] in H0.
      destruct (cleared env (flag_reads w)) eqn:Hclr; cbn [negb] in *.
      * exists 0%nat, (Return tt), (after_flag env w).
        split; [reflexivity|]. cbn [repeat]. rewrite app_nil_r.
        split; [exact Hcf|].
        split; [intros i Hlt; lia|]. split; [intros i Hlt; lia|].
        left. split; [reflexivity|]. split; [exact H0 | lia].
      * destruct (publish_raises env (publish_calls w)) eqn:Hr.
        -- exists 0%nat, (Raise PublishError),
             (with_publish_calls (S (publish_calls w)) (after_flag env w)).
           split; [reflexivity|]. cbn [repeat]. rewrite app_nil_r.
           split; [exact Hcf|].
           split; [intros i Hlt; lia|]. split; [intros i Hlt; lia|].
           right; left. split; [reflexivity|]. split; [exact H0|].
           now rewrite Nat.add_0_r.
        -- pose proof (after_tick_counters env w)
             as (Ht & Hs & Hp & Hf & Hc & Hip).
           pose proof (after_tick_quiet env w) as (Hq0 & _).
           assert (Hshift : forall i,
                      loop_condition env start_time duration
                        (after_tick env w) i
                      = loop_condition env start_time duration w (S i)).
           { intros i. unfold loop_condition.
             rewrite Ht, Hs, Hf, !Nat.add_succ_r. reflexivity. }
           destruct (IH (after_tick env w))
             as (n & r & w' & Hrun & Hcmd & Hyes & Hpub & Hend);
             [rewrite Hip; exact Hi|].
           exists (S n), r, w'. split; [exact Hrun|].
           split; [rewrite Hcmd, Hc, Hq0, <- app_assoc; reflexivity|].
           split.
           { intros [|i] Hlt; [exact H0|].
             rewrite <- Hshift. apply Hyes. lia. }
           split.
           { intros [|i] Hlt; [now rewrite Nat.add_0_r|].
             rewrite Nat.add_succ_r. rewrite Hp in Hpub.
             apply Hpub. lia. }
           rewrite Hp, Hshift in Hend.
           destruct Hend as [(-> & H1 & H2)|[(-> & H1 & H2)|(-> & H1)]].
           ++ left. split; [reflexivity|]. split; [exact H1 | lia].
           ++ right; left. split; [reflexivity|]. split; [exact H1|].
              now rewrite Nat.add_succ_r.
           ++ right; right. split; [reflexivity | lia].
    + exists 0%nat, (Return tt), (after_clock w).
      split; [reflexivity|]. cbn [repeat]. rewrite app_nil_r.
      split; [destruct w; reflexivity|].
      split; [intros i Hlt; lia|]. split; [intros i Hlt; lia|].
      left. split; [reflexivity|]. split; [exact H0|].
      destruct w; cbn; lia.
Qed.

(** Every run of [publish_velocity], on every clock and channel: the
    number [n] of its ticks is the number of evaluations of the loop
    condition that held before the loop was left, and the [k] stop
    commands are five exactly when the loop was left by its condition and
    the channel took them. *)
Lemma publish_velocity_counts
  (env : Env) (fuel : nat) (linear_vel angular_vel duration : PyFloat.float)
  (w : World) :
  exists n k : nat,
    cmd_vel (snd (publish_velocity env fuel linear_vel angular_vel duration w))
    = cmd_vel w ++ repeat (tick_msg linear_vel angular_vel) n
                ++ repeat stop_msg k /\
    (forall i, (i < n)%nat -> session_condition env duration w i = true) /\
    (forall i, (i < n + k)%nat ->
       publish_raises env (publish_calls w + i) = false) /\
    ((fst (publish_velocity env fuel linear_vel angular_vel duration w)
      = Return PyNone /\
      k = 5%nat /\ session_condition env duration w n = false)
     \/ (fst (publish_velocity env fuel linear_vel angular_vel duration w)
         = Raise PublishError /\
         (k < 5)%nat /\
         publish_raises env (publish_calls w + n + k) = true)
     \/ (fst (publish_velocity env fuel linear_vel angular_vel duration w)
         = OutOfFuel /\
         k = 0%nat /\ n = fuel)).
Proof.
  rewrite publish_velocity_unfold. cbv zeta.
  pose proof (entering_fields linear_vel angular_vel duration w) as Hent.
  cbv zeta in Hent.
  destruct Hent as (Htw & Hip & Hc & Ht & Hs & Hp & Hf & _).
  assert (Hcond : forall i,
             loop_condition env (clock env (time_calls w) (sleep_calls w))
               duration (entering linear_vel angular_vel duration w) i
             = session_condition env duration w i).
  { intros i. unfold session_condition, loop_condition.
    rewrite Ht, Hs, Hf. reflexivity. }
  destruct (publish_loop_counts env
              (clock env (time_calls w) (sleep_calls w)) duration
              (PyFloat.div one ten) fuel
              (entering linear_vel angular_vel duration w) Hip)
    as (n & r1 & w1 & Hrun & Hcmd & Hyes & Hpub & Hend).
  rewrite Hrun. rewrite Htw, Hc in Hcmd. rewrite Hp in Hpub.
  assert (Hyes' : forall i, (i < n)%nat ->
             session_condition env duration w i = true)
    by (intros i Hi; rewrite <- Hcond; apply Hyes; exact Hi).
  rewrite Hcond, Hp in Hend.
  destruct Hend as [(-> & Hno & Hp1)|[(-> & _ & Hraise)|(-> & Hn)]].
  - rewrite stop_robot_unfold.
    destruct (for_range_publish_counts env stop_msg one_tenth 5 w1)
      as (k & Hk & Hok & Hkraise & Hstop).
    rewrite Hstop. rewrite Hp1 in Hok, Hkraise.
    exists n, k.
    assert (Hall : forall i, (i < n + k)%nat ->
               publish_raises env (publish_calls w + i) = false).
    { intros i Hi. destruct (Nat.lt_ge_cases i n) as [Hlt|Hge].
      - apply Hpub. exact Hlt.
      - replace i with (n + (i - n))%nat by lia.
        rewrite Nat.add_assoc. apply Hok. lia. }
    destruct (Nat.eqb k 5) eqn:Hk5.
    + apply Nat.eqb_eq in Hk5. subst k.
      cbn [fst snd]. unfold leaving. fields.
      split; [rewrite Hcmd, <- app_assoc; reflexivity|].
      split; [exact Hyes'|]. split; [exact Hall|].
      left. auto.
    + apply Nat.eqb_neq in Hk5.
      cbn [fst snd]. fields.
      split; [rewrite Hcmd, <- app_assoc; reflexivity|].
      split; [exact Hyes'|]. split; [exact Hall|].
      right; left. split; [reflexivity|]. split; [lia|].
      apply Hkraise. lia.
  - exists n, 0%nat. cbn [fst snd repeat]. rewrite app_nil_r, !Nat.add_0_r.
    split; [exact Hcmd|]. split; [exact Hyes'|]. split; [exact Hpub|].
    right; left. split; [reflexivity|]. split; [lia | exact Hraise].
  - exists n, 0%nat. cbn [fst snd repeat]. rewrite app_nil_r, !Nat.add_0_r.
    split; [exact Hcmd|]. split; [exact Hyes'|]. split; [exact Hpub|].
    right; right. auto.
Qed.

(** ** From parameters to commands *)

(** C3. In a turn of the interface in mode Linear or Angular, when the
    collector has returned a magnitude and a duration, the session is run
    with the command the specification gives for that mode and magnitude,
    and that command is the one published on every tick.  On every clock
    and channel, the turn puts on the channel one such command for each of
    the first [n] evaluations of the loop condition, which all held and
    whose messages the channel took, and after them [k] stop commands:
    five when the loop was left because its condition failed, fewer when a
    [publish] raised, none when the bound on the loop was reached.  So
    when the condition holds exactly [n] times and the channel takes
    [n + 5] messages, the turn has published exactly [n] times the mapped
    command and then the five stop commands. *)
Theorem session_publishes_the_mapped_command
  (env : Env) (session : nat) (w : World) (mode : TestMode)
  (magnitude duration : PyFloat.float) (command : Twist.t) :
  test_mode w = Some mode ->
  MotionCommand mode magnitude = Some command ->
  fst (collector mode w) = Return (Some (magnitude, duration)) ->
  (exists n k : nat,
      cmd_vel (snd (user_interface_turn env session w))
      = cmd_vel w ++ repeat command n ++ repeat stop_msg k /\
      (forall i, (i < n)%nat -> session_condition env duration w i = true) /\
      (forall i, (i < n + k)%nat ->
         publish_raises env (publish_calls w + i) = false) /\
      ((k = 5%nat /\ session_condition env duration w n = false)
       \/ ((k < 5)%nat /\ publish_raises env (publish_calls w + n + k) = true)
       \/ (k = 0%nat /\ n = session))) /\
  (forall n : nat,
      (forall i, (i < n)%nat -> session_condition env duration w i = true) ->
      session_condition env duration w n = false ->
      (forall i, (i < n + 5)%nat ->
         publish_raises env (publish_calls w + i) = false) ->
      (n < session)%nat ->
      cmd_vel (snd (user_interface_turn env session w))
      = cmd_vel w ++ repeat command n ++ repeat stop_msg 5).
Proof.
  intros Hmode Hcommand Hget.
  assert (Hsession : forall linear_vel angular_vel w1,
             console_only w w1 ->
             (exists n k : nat,
                 cmd_vel (snd (publish_velocity env session linear_vel
                                 angular_vel duration w1))
                 = cmd_vel w ++ repeat (tick_msg linear_vel angular_vel) n
                             ++ repeat stop_msg k /\
                 (forall i, (i < n)%nat ->
                    session_condition env duration w i = true) /\
                 (forall i, (i < n + k)%nat ->
                    publish_raises env (publish_calls w + i) = false) /\
                 ((k = 5%nat /\ session_condition env duration w n = false)
                  \/ ((k < 5)%nat /\
                      publish_raises env (publish_calls w + n + k) = true)
                  \/ (k = 0%nat /\ n = session))) /\
             (forall n : nat,
                 (forall i, (i < n)%nat ->
                    session_condition env duration w i = true) ->
                 session_condition env duration w n = false ->
                 (forall i, (i < n + 5)%nat ->
                    publish_raises env (publish_calls w + i) = false) ->
                 (n < session)%nat ->
                 cmd_vel (snd (publish_velocity env session linear_vel
                                 angular_vel duration w1))
                 = cmd_vel w ++ repeat (tick_msg linear_vel angular_vel) n
                             ++ repeat stop_msg 5)).
  { intros linear_vel angular_vel w1
      (_ & _ & _ & _ & _ & Hc & Ht & Hs & Hp & Hf).
    assert (Hcond : forall i, session_condition env duration w1 i
                              = session_condition env duration w i)
      by (intros i; unfold session_condition; rewrite Ht, Hs, Hf;
          reflexivity).
    split.
    - destruct (publish_velocity_counts env session linear_vel angular_vel
                  duration w1) as (n & k & Hcmd & Hyes & Hpub & Hend).
      exists n, k. rewrite Hc in Hcmd. rewrite Hp in Hpub, Hend.
      rewrite Hcond in Hend.
      split; [exact Hcmd|].
      split; [intros i Hi; rewrite <- Hcond; apply Hyes; exact Hi|].
      split; [exact Hpub|].
      destruct Hend as [(_ & H1 & H2)|[(_ & H1 & H2)|(_ & H1 & H2)]]; auto.
    - intros n Hyes Hno Hpub Hfuel.
      destruct (publish_velocity_exact env n session linear_vel angular_vel
                  duration w1) as (w' & Hrun & Hcmd & _).
      + intros i Hi. rewrite Hcond. apply Hyes. exact Hi.
      + rewrite Hcond. exact Hno.
      + intros i Hi. rewrite Hp. apply Hpub. exact Hi.
      + exact Hfuel.
      + rewrite Hrun. cbn [snd]. rewrite Hcmd, Hc. reflexivity. }
  destruct mode; cbn [MotionCommand collector] in *;
    try discriminate Hcommand; injection Hcommand as <-.
  - rewrite (linear_turn_cmd_vel env session w magnitude duration Hmode Hget).
    apply (Hsession magnitude PyFloat.zero).
    destruct (get_test_parameters_collects
                "--- Linear Velocity Test ---" "Enter linear velocity (m/s): " w)
      as (w1 & Hrun & _ & Hq).
    unfold get_linear_test_parameters. rewrite Hrun. exact Hq.
  - rewrite (angular_turn_cmd_vel env session w magnitude duration Hmode Hget).
    apply (Hsession PyFloat.zero magnitude).
    destruct (get_test_parameters_collects
                "--- Angular Velocity Test ---"
                "Enter angular velocity (rad/s): " w)
      as (w1 & Hrun & _ & Hq).
    unfold get_angular_test_parameters. rewrite Hrun. exact Hq.
Qed.

(** The second end-to-end scenario: Angular, -1.0 rad/s for 1.0 s, sleeps
    of exactly 0.1 s: the loop condition holds ten times, and the turn
    publishes ten commands with [angular.z = -1.0] and then the five stop
    commands. *)
Lemma session_publishes_the_mapped_command_witness :
  test_mode angular_scenario = Some angular /\
  MotionCommand angular minus_one = Some (tick_msg PyFloat.zero minus_one) /\
  fst (collector angular angular_scenario) = Return (Some (minus_one, one)) /\
  (forall i, (i < 10)%nat ->
     session_condition ideal_env one angular_scenario i = true) /\
  session_condition ideal_env one angular_scenario 10 = false /\
  cmd_vel (snd (user_interface_turn ideal_env 100 angular_scenario))
  = cmd_vel angular_scenario
    ++ repeat (tick_msg PyFloat.zero minus_one) 10 ++ repeat stop_msg 5.
Proof.
  assert (H1 : test_mode angular_scenario = Some angular) by reflexivity.
  assert (H2 : MotionCommand angular minus_one
               = Some (tick_msg PyFloat.zero minus_one)) by reflexivity.
  assert (H3 : fst (collector angular angular_scenario)
               = Return (Some (minus_one, one)))
    by (vm_compute; reflexivity).
  assert (Hyes : forall i, (i < 10)%nat ->
            session_condition ideal_env one angular_scenario i = true)
    by (apply forallb_seq_lt; vm_compute; reflexivity).
  assert (Hno : session_condition ideal_env one angular_scenario 10 = false)
    by (vm_compute; reflexivity).
  split; [exact H1|]. split; [exact H2|]. split; [exact H3|].
  split; [exact Hyes|]. split; [exact Hno|].
  destruct (session_publishes_the_mapped_command ideal_env 100 angular_scenario
              angular minus_one one (tick_msg PyFloat.zero minus_one) H1 H2 H3)
    as (_ & Hexact).
  apply (Hexact 10%nat Hyes Hno); [intros i _; reflexivity | lia].
Defined.

(** ** Mode exclusivity *)

(** C9, counterexample.  A velocity of 0 is a number and is accepted.  The
    session then publishes ticks in which both components are zero: not
    exactly one component is non-zero, and the ticks are equal to the stop
    command. *)
Lemma zero_velocity_ticks_have_both_components_zero :
  fst (get_linear_test_parameters zero_velocity_scenario)
  = Return (Some (PyFloat.zero, PyFloat.of_decimal false 2 (-1))) /\
  cmd_vel (snd (user_interface_turn ideal_env 100 zero_velocity_scenario))
  = repeat (tick_msg PyFloat.zero PyFloat.zero) 2 ++ repeat stop_msg 5 /\
  exactly_one_nonzero (tick_msg PyFloat.zero PyFloat.zero) = false /\
  tick_msg PyFloat.zero PyFloat.zero = stop_msg.
Proof.
  split; [vm_compute; reflexivity|].
  split; [vm_compute; reflexivity|].
  split; reflexivity.
Qed.

(** C9, as the code has it.  In a turn of the interface in mode Linear or
    Angular, when the collector has returned a magnitude and a duration,
    all ticks of the session are one message, in which the component of
    the other mode is [0.0]: never are both components non-zero.  Exactly
    one is non-zero when the magnitude is non-zero; a magnitude of zero,
    which the collector accepts, gives ticks with both components zero.
    After the ticks come stop commands only, all of whose components are
    zero. *)
Theorem session_ticks_keep_the_other_component_zero
  (env : Env) (session : nat) (w : World) (mode : TestMode)
  (magnitude duration : PyFloat.float) :
  test_mode w = Some mode ->
  mode <> exit ->
  fst (collector mode w) = Return (Some (magnitude, duration)) ->
  exists (tick : Twist.t) (n k : nat),
    MotionCommand mode magnitude = Some tick /\
    cmd_vel (snd (user_interface_turn env session w))
    = cmd_vel w ++ repeat tick n ++ repeat stop_msg k /\
    (nonzero (Vector3.x (Twist.linear tick))
     && nonzero (Vector3.z (Twist.angular tick)) = false)%bool /\
    exactly_one_nonzero tick = nonzero magnitude /\
    zero_command stop_msg.
Proof.
  intros Hmode Hexit Hget.
  destruct (MotionCommand mode magnitude) as [command|] eqn:Hcommand;
    [|destruct mode; try discriminate Hcommand; contradiction].
  destruct (session_after_collecting env session w
              (snd (collector mode w))
              (Vector3.x (Twist.linear command))
              (Vector3.z (Twist.angular command)) duration)
    as (n & k & _ & Hcmd).
  { destruct mode; cbn [collector]; try contradiction.
    - destruct (get_test_parameters_collects
                  "--- Linear Velocity Test ---"
                  "Enter linear velocity (m/s): " w) as (w1 & Hrun & _ & Hq).
      unfold get_linear_test_parameters. rewrite Hrun. exact Hq.
    - destruct (get_test_parameters_collects
                  "--- Angular Velocity Test ---"
                  "Enter angular velocity (rad/s): " w) as (w1 & Hrun & _ & Hq).
      unfold get_angular_test_parameters. rewrite Hrun. exact Hq. }
  exists command, n, k. split; [reflexivity|].
  destruct mode; cbn [MotionCommand collector] in *;
    try discriminate Hcommand; injection Hcommand as <-;
    cbn [Twist.linear Twist.angular Vector3.x Vector3.z] in *.
  - rewrite (linear_turn_cmd_vel env session w magnitude duration Hmode Hget).
    split; [exact Hcmd|].
    unfold exactly_one_nonzero, zero_command.
    cbn [Twist.linear Twist.angular Vector3.x Vector3.z].
    change (nonzero PyFloat.zero) with false.
    rewrite andb_false_r, xorb_false_r. repeat split.
  - rewrite (angular_turn_cmd_vel env session w magnitude duration Hmode Hget).
    split; [exact Hcmd|].
    unfold exactly_one_nonzero, zero_command.
    cbn [Twist.linear Twist.angular Vector3.x Vector3.z].
    change (nonzero PyFloat.zero) with false.
    rewrite andb_false_l, xorb_false_l. repeat split.
Qed.

Lemma session_ticks_keep_the_other_component_zero_witness :
  test_mode angular_scenario = Some angular /\
  angular <> exit /\
  fst (collector angular angular_scenario) = Return (Some (minus_one, one)) /\
  exists (tick : Twist.t) (n k : nat),
    MotionCommand angular minus_one = Some tick /\
    cmd_vel (snd (user_interface_turn ideal_env 100 angular_scenario))
    = cmd_vel angular_scenario ++ repeat tick n ++ repeat stop_msg k /\
    (nonzero (Vector3.x (Twist.linear tick))
     && nonzero (Vector3.z (Twist.angular tick)) = false)%bool /\
    exactly_one_nonzero tick = nonzero minus_one /\
    zero_command stop_msg.
Proof.
  assert (H1 : test_mode angular_scenario = Some angular) by reflexivity.
  assert (H2 : angular <> exit) by discriminate.
  assert (H3 : fst (collector angular angular_scenario)
               = Return (Some (minus_one, one)))
    by (vm_compute; reflexivity).
  split; [exact H1|]. split; [exact H2|]. split; [exact H3|].
  exact (session_ticks_keep_the_other_component_zero ideal_env 100
           angular_scenario angular minus_one one H1 H2 H3).
Defined.

(** ** What goes on the channel *)

Lemma extends_planar_refl (w w' : World) :
  cmd_vel w' = cmd_vel w -> node_bound w' = node_bound w ->
  extends_planar w w'.
Proof.
  intros H Hn. split; [exact Hn|]. exists []. rewrite app_nil_r. auto.
Qed.

Lemma extends_planar_trans (w1 w2 w3 : World) :
  extends_planar w1 w2 -> extends_planar w2 w3 -> extends_planar w1 w3.
Proof.
  intros (N1 & s1 & H1 & F1) (N2 & s2 & H2 & F2).
  split; [congruence|]. exists (s1 ++ s2).
  rewrite H2, H1, app_assoc. split; [reflexivity|].
  apply Forall_app. auto.
Qed.

Lemma planar_tick_msg (linear_vel angular_vel : PyFloat.float) :
  planar (tick_msg linear_vel angular_vel).
Proof. repeat split. Qed.

Lemma planar_stop_msg : planar stop_msg.
Proof. repeat split. Qed.

Section Planar.

Variable env : Env.

Lemma ret_planar {A : Type} (a : A) : publishes_planar (ret a).
Proof. intros w. now apply extends_planar_refl. Qed.

Lemma raise_planar {A : Type} (e : exn) : publishes_planar (@raise A e).
Proof. intros w. now apply extends_planar_refl. Qed.

Lemma get_planar {A : Type} (f : World -> A) : publishes_planar (get f).
Proof. intros w. now apply extends_planar_refl. Qed.

Lemma modify_planar (f : World -> World) :
  (forall w, cmd_vel (f w) = cmd_vel w /\ node_bound (f w) = node_bound w) ->
  publishes_planar (modify f).
Proof. intros H w. apply extends_planar_refl; apply H. Qed.

Lemma print_planar (p : printed) : publishes_planar (print p).
Proof. apply modify_planar. intros w. split; reflexivity. Qed.

Lemma bind_planar {A B : Type} (m : M A) (k : A -> M B) :
  publishes_planar m -> (forall a, publishes_planar (k a)) ->
  publishes_planar (bind m k).
Proof.
  intros Hm Hk w. unfold bind. specialize (Hm w).
  destruct (m w) as [[a|e| |] w1]; cbn [snd] in *; try exact Hm.
  eapply extends_planar_trans; [exact Hm | apply Hk].
Qed.

Lemma input_planar (prompt : string) : publishes_planar (input prompt).
Proof.
  unfold input. apply bind_planar; [apply print_planar|].
  intros _ w.
  apply extends_planar_refl;
    destruct (stdin w) as [|[s| |] rest]; reflexivity.
Qed.

Lemma float_planar (s : string) : publishes_planar (float s).
Proof.
  unfold float. destruct (PyStr.float s); [apply ret_planar|apply raise_planar].
Qed.

Lemma try_except_planar {A : Type} (body : M A) (catches : exn -> bool)
  (handler : exn -> M A) :
  publishes_planar body -> (forall e, publishes_planar (handler e)) ->
  publishes_planar (try_except body catches handler).
Proof.
  intros Hb Hh w. unfold try_except. specialize (Hb w).
  destruct (body w) as [[a|e| |] w1]; cbn [snd] in *; try exact Hb.
  destruct (catches e); [|exact Hb].
  eapply extends_planar_trans; [exact Hb | apply Hh].
Qed.

Lemma try_finally_planar {A : Type} (body : M A) (final : M unit) :
  publishes_planar body -> publishes_planar final ->
  publishes_planar (try_finally body final).
Proof.
  intros Hb Hf w. unfold try_finally. specialize (Hb w).
  destruct (body w) as [[a|e| |] w1]; cbn [snd] in *; try exact Hb.
  - eapply extends_planar_trans; [exact Hb|].
    apply bind_planar; [exact Hf | intros; apply ret_planar].
  - eapply extends_planar_trans; [exact Hb|].
    apply bind_planar; [exact Hf | intros; apply raise_planar].
Qed.

Lemma run_in_thread_planar {A : Type} (target : M A) :
  publishes_planar target -> publishes_planar (run_in_thread target).
Proof.
  intros Ht w. unfold run_in_thread. specialize (Ht w).
  destruct (target w) as [[a|e| |] w1]; exact Ht.
Qed.

Lemma while_true_planar {A : Type} (body : M (option A)) :
  publishes_planar body ->
  forall fuel, publishes_planar (while_true fuel body).
Proof.
  intros Hb. induction fuel as [|fuel IH].
  - intros w. now apply extends_planar_refl.
  - cbn [while_true]. apply bind_planar; [exact Hb|].
    intros [a|]; [apply ret_planar | exact IH].
Qed.

Lemma console_loop_planar {A : Type} (body : M (option A)) :
  publishes_planar body -> publishes_planar (console_loop body).
Proof. intros Hb w. unfold console_loop. now apply while_true_planar. Qed.

Lemma while_rclpy_ok_planar (body : M bool) :
  publishes_planar body ->
  forall fuel, publishes_planar (while_rclpy_ok fuel body).
Proof.
  intros Hb. induction fuel as [|fuel IH].
  - intros w. now apply extends_planar_refl.
  - cbn [while_rclpy_ok]. apply bind_planar; [apply get_planar|].
    intros [|]; [|apply ret_planar].
    apply bind_planar; [exact Hb|].
    intros [|]; [exact IH | apply ret_planar].
Qed.

Lemma stop_robot_planar : publishes_planar (stop_robot env).
Proof.
  intros w. rewrite stop_robot_unfold.
  destruct (for_range_publish_any env stop_msg one_tenth 5 w)
    as (j & _ & _ & Hrun).
  rewrite Hrun. split; [reflexivity|].
  exists (repeat stop_msg j). split; [reflexivity|].
  apply Forall_forall. intros m Hm. apply repeat_spec in Hm. subst m.
  apply planar_stop_msg.
Qed.

Lemma publish_velocity_planar
  (fuel : nat) (linear_vel angular_vel duration : PyFloat.float) :
  publishes_planar
    (publish_velocity env fuel linear_vel angular_vel duration).
Proof.
  intros w.
  destruct (publish_velocity_any env fuel linear_vel angular_vel duration w)
    as (n & k & r & w' & Hrun & Hcmd & _ & _ & _ & Hnb & _).
  rewrite Hrun. cbn [snd]. split; [exact Hnb|].
  exists (repeat (tick_msg linear_vel angular_vel) n ++ repeat stop_msg k).
  split; [exact Hcmd|].
  apply Forall_app. split; apply Forall_forall; intros m Hm;
    apply repeat_spec in Hm; subst m.
  - apply planar_tick_msg.
  - apply planar_stop_msg.
Qed.

Ltac planar_step :=
  lazymatch goal with
  | |- publishes_planar (bind _ _) => apply bind_planar; [|intros ?]
  | |- publishes_planar (ret _) => apply ret_planar
  | |- publishes_planar (raise _) => apply raise_planar
  | |- publishes_planar (get _) => apply get_planar
  | |- publishes_planar (print _) => apply print_planar
  | |- publishes_planar (input _) => apply input_planar
  | |- publishes_planar (float _) => apply float_planar
  | |- publishes_planar (stop_robot _) => apply stop_robot_planar
  | |- publishes_planar (publish_velocity _ _ _ _ _) =>
      apply publish_velocity_planar
  | |- publishes_planar (modify _) =>
      apply modify_planar; intros ?; split; reflexivity
  | |- publishes_planar (run_in_thread _) => apply run_in_thread_planar
  | |- publishes_planar (console_loop _) => apply console_loop_planar
  | |- publishes_planar (try_finally _ _) => apply try_finally_planar
  | |- publishes_planar (try_except _ _ _) =>
      apply try_except_planar; [|intros ?]
  | |- publishes_planar (match ?x with _ => _ end) => destruct x
  end.

Lemma get_test_mode_planar : publishes_planar get_test_mode.
Proof. unfold get_test_mode. repeat planar_step. Qed.

Lemma get_test_parameters_planar (title prompt : string) :
  publishes_planar (get_test_parameters title prompt).
Proof.
  unfold get_test_parameters, test_parameters_attempt. repeat planar_step.
Qed.

Lemma user_interface_turn_planar (session : nat) :
  publishes_planar (user_interface_turn env session).
Proof.
  unfold user_interface_turn, get_linear_test_parameters,
    get_angular_test_parameters.
  repeat first [apply get_test_parameters_planar | planar_step].
Qed.

Lemma user_interface_planar (session : nat) :
  publishes_planar (user_interface env session).
Proof.
  unfold user_interface, rclpy_shutdown.
  apply bind_planar; [apply get_test_mode_planar|]. intros mode.
  apply bind_planar; [planar_step|]. intros _.
  destruct mode; [| |planar_step];
    (apply bind_planar;
     [intros w; apply while_rclpy_ok_planar; apply user_interface_turn_planar
     |intros _; repeat planar_step]).
Qed.

End Planar.

(** ** The process: [main] *)

Lemma bind_modify {A : Type} (f : World -> World) (k : unit -> M A) (w : World) :
  bind (modify f) k w = k tt (f w).
Proof. reflexivity. Qed.

Section Main.

Variable env : Env.
Variable session : nat.

Lemma at_finally_node_bound (w : World) :
  node_bound (at_finally env session w) = true.
Proof.
  unfold at_finally.
  destruct (user_interface_planar env session (started w)) as (Hn & _).
  rewrite Hn. destruct w; reflexivity.
Qed.

Lemma main_without_node (w : World) :
  node_raises env = true ->
  main env session w
  = (Raise InitError,
     with_rclpy_ok false (with_node_bound false (with_rclpy_ok true w))).
Proof.
  intros Hnode.
  unfold main. rewrite !bind_modify.
  unfold try_finally, try_except, VelocityTestNode_init.
  rewrite Hnode. destruct w; reflexivity.
Qed.

Lemma try_body_with_node (w : World) :
  node_raises env = false ->
  (VelocityTestNode_init env ;; modify (with_node_bound true) ;;
   spin env session) w
  = spin env session (built w).
Proof.
  intros Hnode. unfold VelocityTestNode_init. rewrite Hnode.
  unfold print, bind, modify. reflexivity.
Qed.

Lemma spin_outcome (w : World) :
  spin env session (started w)
  = if rclpy_ok (at_finally env session w)
    then if sigint env
         then (Raise KeyboardInterrupt, at_finally env session w)
         else (Blocked, at_finally env session w)
    else (Return tt, at_finally env session w).
Proof. unfold spin, at_finally. cbv zeta. reflexivity. Qed.

Lemma finally_block (w1 : World) :
  node_bound w1 = true ->
  (bound <- get node_bound ;;
   (if bound : bool then stop_robot env else ret tt) ;;
   rclpy_shutdown) w1
  = finally_with_node env w1.
Proof.
  intros Hbound. unfold finally_with_node.
  unfold bind at 1. unfold get. rewrite Hbound.
  unfold bind. destruct (stop_robot env w1) as [[[]|e| |] w2]; reflexivity.
Qed.

Lemma main_with_node (w : World) :
  node_raises env = false ->
  main env session w
  = if (rclpy_ok (at_finally env session w) && negb (sigint env))%bool
    then (Blocked, at_finally env session w)
    else finally_with_node env (at_finally env session w).
Proof.
  intros Hnode.
  pose proof (at_finally_node_bound w) as Hbound.
  pose proof (finally_block (at_finally env session w) Hbound) as Hfinal.
  unfold main. rewrite !bind_modify.
  unfold try_finally, try_except.
  rewrite (try_body_with_node _ Hnode).
  change (built (with_node_bound false (with_rclpy_ok true w)))
    with (started w).
  rewrite spin_outcome.
  revert Hfinal. generalize (at_finally env session w). intros w1 Hfinal.
  destruct (rclpy_ok w1); [destruct (sigint env)|]; cbn [andb negb].
  - cbn [is_KeyboardInterrupt]. unfold ret at 1.
    unfold bind at 1. rewrite Hfinal. unfold finally_with_node.
    destruct (stop_robot env w1) as [[[]|e| |] w2]; reflexivity.
  - reflexivity.
  - unfold bind at 1. rewrite Hfinal. unfold finally_with_node.
    destruct (stop_robot env w1) as [[[]|e| |] w2]; reflexivity.
Qed.

End Main.

Section MainChannel.

Variable env : Env.
Variable session : nat.

Lemma at_finally_planar (w : World) :
  exists sent : list Twist.t,
    cmd_vel (at_finally env session w) = cmd_vel w ++ sent /\
    Forall planar sent.
Proof.
  unfold at_finally.
  destruct (user_interface_planar env session (started w))
    as (_ & sent & Hcmd & Hall).
  exists sent. rewrite Hcmd. split; [|exact Hall].
  destruct w; reflexivity.
Qed.

(** The [finally] block with the node bound: [k] zero commands go out,
    five unless a publish raises. *)
Lemma finally_with_node_stops (w1 : World) :
  exists k : nat,
    (k <= 5)%nat /\
    cmd_vel (snd (finally_with_node env w1))
    = cmd_vel w1 ++ repeat stop_msg k /\
    (fst (finally_with_node env w1) = Return tt /\ k = 5%nat
     \/ fst (finally_with_node env w1) = Raise PublishError /\
        (k < 5)%nat /\
        publish_raises env (publish_calls w1 + k) = true).
Proof.
  unfold finally_with_node. rewrite stop_robot_unfold.
  destruct (for_range_publish_any env stop_msg one_tenth 5 w1)
    as (k & Hk & Hraise & Hrun).
  rewrite Hrun. exists k. split; [exact Hk|].
  destruct (Nat.eqb k 5) eqn:Hk5.
  - apply Nat.eqb_eq in Hk5. split; [reflexivity|]. left. auto.
  - apply Nat.eqb_neq in Hk5. split; [reflexivity|]. right.
    split; [reflexivity|]. split; [lia|]. apply Hraise. lia.
Qed.

Lemma main_planar (w : World) :
  exists sent : list Twist.t,
    cmd_vel (snd (main env session w)) = cmd_vel w ++ sent /\
    Forall planar sent.
Proof.
  destruct (node_raises env) eqn:Hnode.
  - rewrite (main_without_node env session w Hnode).
    exists []. rewrite app_nil_r. split; [destruct w; reflexivity|auto].
  - rewrite (main_with_node env session w Hnode).
    destruct (at_finally_planar w) as (sent & Hcmd & Hall).
    destruct (rclpy_ok (at_finally env session w) && negb (sigint env))%bool.
    + exists sent. auto.
    + destruct (finally_with_node_stops (at_finally env session w))
        as (k & _ & Hstop & _).
      exists (sent ++ repeat stop_msg k).
      rewrite Hstop, Hcmd, app_assoc. split; [reflexivity|].
      apply Forall_app. split; [exact Hall|].
      apply Forall_forall. intros m Hm. apply repeat_spec in Hm. subst m.
      apply planar_stop_msg.
Qed.

End MainChannel.

(** C10. Every message that [stop_robot], [publish_velocity],
    [user_interface] or [main] puts on the command channel, whether a tick
    of a session or a stop command and however the call ends, has
    [linear.y], [linear.z], [angular.x] and [angular.y] equal to [0.0]:
    only [linear.x] and [angular.z] can carry another value. *)
Theorem every_published_message_is_planar
  (env : Env) (fuel : nat) (linear_vel angular_vel duration : PyFloat.float)
  (w : World) :
  (exists sent : list Twist.t,
      cmd_vel (snd (stop_robot env w)) = cmd_vel w ++ sent /\
      Forall planar sent) /\
  (exists sent : list Twist.t,
      cmd_vel (snd (publish_velocity env fuel linear_vel angular_vel
                      duration w))
      = cmd_vel w ++ sent /\
      Forall planar sent) /\
  (exists sent : list Twist.t,
      cmd_vel (snd (user_interface env fuel w)) = cmd_vel w ++ sent /\
      Forall planar sent) /\
  (exists sent : list Twist.t,
      cmd_vel (snd (main env fuel w)) = cmd_vel w ++ sent /\
      Forall planar sent).
Proof.
  split; [apply stop_robot_planar|].
  split; [apply publish_velocity_planar|].
  split; [apply user_interface_planar | apply main_planar].
Qed.

(** ** The stop guarantee *)

(** C1, counterexample.  When the third [publish] of a session raises, the
    exception leaves [publish_velocity] at once: two ticks are on the
    channel and no stop command follows them.  In the interface the
    exception ends the worker thread only: the turn goes on to its prompt,
    with the flag still set and the robot not stopped.  And when building
    the node raises, [main] ends without calling [publish] at all. *)
Lemma publish_error_skips_the_stop_sequence :
  fst (publish_velocity failing_env 100 half PyFloat.zero two (initial_world []))
  = Raise PublishError /\
  cmd_vel (snd (publish_velocity failing_env 100 half PyFloat.zero two
                  (initial_world [])))
  = repeat (tick_msg half PyFloat.zero) 2 /\
  ~ stop_sequence_done (initial_world [])
      (snd (publish_velocity failing_env 100 half PyFloat.zero two
              (initial_world []))) /\
  fst (user_interface_turn failing_env 100 linear_scenario) = Return false /\
  cmd_vel (snd (user_interface_turn failing_env 100 linear_scenario))
  = repeat (tick_msg half PyFloat.zero) 2 /\
  is_publishing (snd (user_interface_turn failing_env 100 linear_scenario))
  = true /\
  fst (main no_node_env 100 (initial_world [Line "1"])) = Raise InitError /\
  publish_calls (snd (main no_node_env 100 (initial_world [Line "1"]))) = 0%nat.
Proof.
  assert (Hcmd : cmd_vel (snd (publish_velocity failing_env 100 half
                                 PyFloat.zero two (initial_world [])))
                 = repeat (tick_msg half PyFloat.zero) 2)
    by (vm_compute; reflexivity).
  split; [vm_compute; reflexivity|].
  split; [exact Hcmd|].
  split.
  { intros (sent & Hsent). rewrite Hcmd in Hsent.
    apply (f_equal (@List.length Twist.t)) in Hsent.
    cbn [initial_world cmd_vel app] in Hsent.
    rewrite length_app, !repeat_length in Hsent. lia. }
  repeat (split; [vm_compute; reflexivity|]).
  vm_compute; reflexivity.
Qed.

(** C1, as the code has it.  Every run of [publish_velocity] sends [n]
    ticks and then [k] zero commands, and ends in one of three ways: it
    returns, and then [k = 5]: the whole stop sequence went out before the
    return, whether the loop ended with the duration or with the flag;
    or a [publish] raised, in the loop or in the stop sequence, and the
    exception has left the call with fewer than five zero commands sent
    and none to follow; or the loop is still running when the bound on its
    length is reached.
    As for the process: once the node is built, every way [main] has of
    ending goes through [stop_robot] in its [finally] block, which sends
    five zero commands unless a [publish] raises; when building the node
    raises, [main] ends without a stop sequence. *)
Theorem stop_sequence_on_exit
  (env : Env) (fuel : nat) (linear_vel angular_vel duration : PyFloat.float)
  (w : World) :
  (exists (n k : nat) (r : outcome value) (w' : World),
      publish_velocity env fuel linear_vel angular_vel duration w = (r, w') /\
      cmd_vel w' = cmd_vel w ++ repeat (tick_msg linear_vel angular_vel) n
                             ++ repeat stop_msg k /\
      (r = Return PyNone /\ k = 5%nat
       \/ r = Raise PublishError /\ (k < 5)%nat /\
          publish_raises env (publish_calls w + n + k) = true
       \/ r = OutOfFuel /\ n = fuel /\ k = 0%nat)) /\
  (node_raises env = false ->
   fst (main env fuel w) <> Blocked ->
   main env fuel w = finally_with_node env (at_finally env fuel w) /\
   exists k : nat,
     (k <= 5)%nat /\
     cmd_vel (snd (main env fuel w))
     = cmd_vel (at_finally env fuel w) ++ repeat stop_msg k /\
     (fst (main env fuel w) = Return tt /\ k = 5%nat
      \/ fst (main env fuel w) = Raise PublishError /\ (k < 5)%nat /\
         publish_raises env (publish_calls (at_finally env fuel w) + k) = true)) /\
  (node_raises env = true ->
   fst (main env fuel w) = Raise InitError /\
   cmd_vel (snd (main env fuel w)) = cmd_vel w /\
   publish_calls (snd (main env fuel w)) = publish_calls w).
Proof.
  split; [|split].
  - destruct (publish_velocity_any env fuel linear_vel angular_vel duration w)
      as (n & k & r & w' & Hrun & Hcmd & _ & _ & _ & _ & _ & Hend).
    exists n, k, r, w'. split; [exact Hrun|]. split; [exact Hcmd|].
    destruct Hend as [(-> & -> & _)|[(-> & Hk & Hr)|(-> & -> & ->)]]; auto.
  - intros Hnode Hend.
    rewrite (main_with_node env fuel w Hnode) in *.
    destruct (rclpy_ok (at_finally env fuel w) && negb (sigint env))%bool.
    + now contradiction Hend.
    + split; [reflexivity|]. apply finally_with_node_stops.
  - intros Hnode. rewrite (main_without_node env fuel w Hnode).
    destruct w; repeat split.
Qed.

(** The operator chooses to exit at the first menu, and the channel still
    takes messages: [main] returns, and the five zero commands of its
    [finally] block are on the channel. *)
Lemma stop_sequence_on_exit_witness :
  node_raises ideal_env = false /\
  fst (main ideal_env 100 (initial_world [Line "3"])) <> Blocked /\
  fst (main ideal_env 100 (initial_world [Line "3"])) = Return tt /\
  cmd_vel (snd (main ideal_env 100 (initial_world [Line "3"])))
  = repeat stop_msg 5.
Proof.
  assert (H1 : node_raises ideal_env = false) by reflexivity.
  assert (H2 : fst (main ideal_env 100 (initial_world [Line "3"])) <> Blocked)
    by (vm_compute; discriminate).
  split; [exact H1|]. split; [exact H2|].
  destruct (stop_sequence_on_exit ideal_env 100 half PyFloat.zero two
              (initial_world [Line "3"])) as (_ & Hmain & _).
  destruct (Hmain H1 H2) as (Heq & _).
  rewrite Heq. split; vm_compute; reflexivity.
Defined.

(** * Further properties of the node *)

(** ** The menu *)

Lemma while_true_chooses :
  forall (fuel : nat) (w : World),
    (List.length (stdin w) < fuel)%nat ->
    exists w' : World,
      while_true fuel
        (print (Text "==================================================") ;;
         print (Text "ROS2 Velocity Test Node") ;;
         print (Text "==================================================") ;;
         print (Text "Choose test mode:") ;;
         print (Text "1. Linear velocity test") ;;
         print (Text "2. Angular velocity test") ;;
         print (Text "3. Exit") ;;
         try_except
           (line <- input "Enter your choice (1/2/3): " ;;
            let choice := PyStr.strip_string line in
            if String.eqb choice "1" then ret (Some linear)
            else if String.eqb choice "2" then ret (Some angular)
            else if String.eqb choice "3" then ret (Some exit)
            else print (Text "Invalid choice. Please enter 1, 2, or 3.") ;;
                 ret None)
           is_KeyboardInterrupt
           (fun _ => ret (Some exit))) w
      = (fst (chosen (stdin w)), w') /\
      stdin w' = snd (chosen (stdin w)) /\
      console_only w w'.
Proof.
  induction fuel as [|fuel IH]; intros w Hlen; [lia|].
  destruct w as [tw ip tm ok nb cv out evs tc sc pc fr].
  cbn [stdin] in *.
  cbn [while_true]. unfold bind at 1.
  assert (Hdone : forall (r : outcome TestMode)
                    (out' : list printed) (evs' : list console_event),
             exists w' : World,
               (r, Build_World tw ip tm ok nb cv out' evs' tc sc pc fr)
               = (r, w') /\
               stdin w' = evs' /\
               console_only
                 (Build_World tw ip tm ok nb cv out evs tc sc pc fr) w').
  { intros r out' evs'. eexists. split; [reflexivity|].
    split; [reflexivity|]. repeat split. }
  destruct evs as [|[line| |] rest]; cbn [chosen].
  - run_console. apply Hdone.
  - unfold menu_choice. run_console.
    destruct (String.eqb (PyStr.strip_string line) "1"); [apply Hdone|].
    destruct (String.eqb (PyStr.strip_string line) "2"); [apply Hdone|].
    destruct (String.eqb (PyStr.strip_string line) "3"); [apply Hdone|].
    match goal with
    | |- context [while_true fuel ?b ?w1] =>
        destruct (IH w1) as (w' & Hrun & Hin & Hq); [cbn in *; lia|]
    end.
    exists w'. split; [exact Hrun|].
    split; [exact Hin|].
    eapply console_only_trans; [|exact Hq]. repeat split.
  - run_console. apply Hdone.
  - run_console. apply Hdone.
Qed.

Lemma get_test_mode_chooses (w : World) :
  exists w' : World,
    get_test_mode w = (fst (chosen (stdin w)), w') /\
    stdin w' = snd (chosen (stdin w)) /\
    console_only w w'.
Proof.
  unfold get_test_mode, console_loop. apply while_true_chooses. lia.
Qed.

Lemma chosen_ends (evs : list console_event) : chosen_ending evs.
Proof.
  unfold chosen_ending.
  induction evs as [|[line| |] evs IH]; cbn [chosen].
  - split; [reflexivity | constructor].
  - destruct (menu_choice line) as [mode|] eqn:Hline.
    + exists []. split; [constructor|]. left. exists line. auto.
    + assert (Hbad : invalid_choice (Line line)) by (exists line; auto).
      destruct (chosen evs) as [[mode|e| |] rest].
      * destruct IH as (skipped & Hall & Hcase).
        exists (Line line :: skipped). split; [constructor; assumption|].
        destruct Hcase as [(l & -> & Hl)|(-> & ->)].
        -- left. exists l. auto.
        -- right. auto.
      * destruct IH as (-> & skipped & Hall & ->). split; [reflexivity|].
        exists (Line line :: skipped). split; [constructor; assumption|].
        reflexivity.
      * destruct IH as (-> & Hall). split; [reflexivity|].
        constructor; assumption.
      * exact IH.
  - exists []. split; [constructor|]. right. auto.
  - split; [reflexivity|]. exists []. split; [constructor | reflexivity].
Qed.

(** X1. [get_test_mode] only reads and writes the console: nothing is
    published and the node is as it was.  It passes over every line that,
    stripped of white space, is not [1], [2] or [3], and returns the mode
    of the first line that is; an interrupt at the prompt counts as the
    choice to exit; the end of the console input raises [EOFError], which
    it does not catch.  When the input is used up by invalid lines it is
    still asking. *)
Theorem menu_returns_the_first_valid_choice (w : World) :
  console_only w (snd (get_test_mode w)) /\
  match fst (get_test_mode w) with
  | Return mode =>
      exists skipped : list console_event,
        Forall invalid_choice skipped /\
        ((exists line : string,
             stdin w = skipped ++ Line line :: stdin (snd (get_test_mode w)) /\
             menu_choice line = Some mode)
         \/ (stdin w = skipped ++ CtrlC :: stdin (snd (get_test_mode w)) /\
             mode = exit))
  | Raise e =>
      e = EOFError /\
      exists skipped : list console_event,
        Forall invalid_choice skipped /\
        stdin w = skipped ++ EndOfFile :: stdin (snd (get_test_mode w))
  | Blocked =>
      stdin (snd (get_test_mode w)) = [] /\ Forall invalid_choice (stdin w)
  | OutOfFuel => False
  end.
Proof.
  destruct (get_test_mode_chooses w) as (w' & Hrun & Hin & Hq).
  rewrite Hrun. cbn [fst snd]. split; [exact Hq|].
  pose proof (chosen_ends (stdin w)) as Hend.
  unfold chosen_ending in Hend. rewrite Hin.
  destruct (chosen (stdin w)) as [[mode|e| |] rest]; exact Hend.
Qed.

(** ** What the interface leaves alone *)

Section Keeps.

Context {T : Type}.
Variable proj : World -> T.

Hypothesis proj_stdout : forall v w, proj (with_stdout v w) = proj w.
Hypothesis proj_stdin : forall v w, proj (with_stdin v w) = proj w.
Hypothesis proj_session :
  forall env fuel linear_vel angular_vel duration w,
    proj (snd (publish_velocity env fuel linear_vel angular_vel duration w))
    = proj w.

Lemma ret_keeps {A : Type} (a : A) : keeps proj (ret a).
Proof. intros w. reflexivity. Qed.

Lemma raise_keeps {A : Type} (e : exn) : keeps proj (@raise A e).
Proof. intros w. reflexivity. Qed.

Lemma get_keeps {A : Type} (f : World -> A) : keeps proj (get f).
Proof. intros w. reflexivity. Qed.

Lemma print_keeps (p : printed) : keeps proj (print p).
Proof. intros w. apply proj_stdout. Qed.

Lemma bind_keeps {A B : Type} (m : M A) (k : A -> M B) :
  keeps proj m -> (forall a, keeps proj (k a)) -> keeps proj (bind m k).
Proof.
  intros Hm Hk w. unfold bind. specialize (Hm w).
  destruct (m w) as [[a|e| |] w1]; cbn [snd] in *; try exact Hm.
  rewrite Hk. exact Hm.
Qed.

Lemma input_keeps (prompt : string) : keeps proj (input prompt).
Proof.
  unfold input. apply bind_keeps; [apply print_keeps|].
  intros _ w. destruct (stdin w) as [|[s| |] rest]; cbn [snd];
    try apply proj_stdin; reflexivity.
Qed.

Lemma float_keeps (s : string) : keeps proj (float s).
Proof.
  unfold float. destruct (PyStr.float s); [apply ret_keeps|apply raise_keeps].
Qed.

Lemma try_except_keeps {A : Type} (body : M A) (catches : exn -> bool)
  (handler : exn -> M A) :
  keeps proj body -> (forall e, keeps proj (handler e)) ->
  keeps proj (try_except body catches handler).
Proof.
  intros Hb Hh w. unfold try_except. specialize (Hb w).
  destruct (body w) as [[a|e| |] w1]; cbn [snd] in *; try exact Hb.
  destruct (catches e); [|exact Hb]. rewrite Hh. exact Hb.
Qed.

Lemma run_in_thread_keeps {A : Type} (target : M A) :
  keeps proj target -> keeps proj (run_in_thread target).
Proof.
  intros Ht w. unfold run_in_thread. specialize (Ht w).
  destruct (target w) as [[a|e| |] w1]; exact Ht.
Qed.

Lemma while_true_keeps {A : Type} (body : M (option A)) :
  keeps proj body -> forall fuel, keeps proj (while_true fuel body).
Proof.
  intros Hb. induction fuel as [|fuel IH].
  - intros w. reflexivity.
  - cbn [while_true]. apply bind_keeps; [exact Hb|].
    intros [a|]; [apply ret_keeps | exact IH].
Qed.

Lemma console_loop_keeps {A : Type} (body : M (option A)) :
  keeps proj body -> keeps proj (console_loop body).
Proof. intros Hb w. unfold console_loop. now apply while_true_keeps. Qed.

Lemma while_rclpy_ok_keeps (body : M bool) :
  keeps proj body -> forall fuel, keeps proj (while_rclpy_ok fuel body).
Proof.
  intros Hb. induction fuel as [|fuel IH].
  - intros w. reflexivity.
  - cbn [while_rclpy_ok]. apply bind_keeps; [apply get_keeps|].
    intros [|]; [|apply ret_keeps].
    apply bind_keeps; [exact Hb|].
    intros [|]; [exact IH | apply ret_keeps].
Qed.

Ltac keeps_step :=
  lazymatch goal with
  | |- keeps _ (bind _ _) => apply bind_keeps; [|intros ?]
  | |- keeps _ (ret _) => apply ret_keeps
  | |- keeps _ (raise _) => apply raise_keeps
  | |- keeps _ (get _) => apply get_keeps
  | |- keeps _ (print _) => apply print_keeps
  | |- keeps _ (input _) => apply input_keeps
  | |- keeps _ (float _) => apply float_keeps
  | |- keeps _ (publish_velocity _ _ _ _ _) => intros ?; apply proj_session
  | |- keeps _ (run_in_thread _) => apply run_in_thread_keeps
  | |- keeps _ (console_loop _) => apply console_loop_keeps
  | |- keeps _ (try_except _ _ _) => apply try_except_keeps; [|intros ?]
  | |- keeps _ (match ?x with _ => _ end) => destruct x
  end.

Lemma get_test_mode_keeps : keeps proj get_test_mode.
Proof. unfold get_test_mode. repeat keeps_step. Qed.

Lemma get_test_parameters_keeps (title prompt : string) :
  keeps proj (get_test_parameters title prompt).
Proof.
  unfold get_test_parameters, test_parameters_attempt. repeat keeps_step.
Qed.

Lemma user_interface_turn_keeps (env : Env) (session : nat) :
  keeps proj (user_interface_turn env session).
Proof.
  unfold user_interface_turn, get_linear_test_parameters,
    get_angular_test_parameters.
  repeat first [apply get_test_parameters_keeps | keeps_step].
Qed.

End Keeps.

Lemma publish_velocity_keeps_rclpy_ok
  (env : Env) (fuel : nat) (linear_vel angular_vel duration : PyFloat.float)
  (w : World) :
  rclpy_ok (snd (publish_velocity env fuel linear_vel angular_vel duration w))
  = rclpy_ok w.
Proof.
  destruct (publish_velocity_any env fuel linear_vel angular_vel duration w)
    as (n & k & r & w' & Hrun & _ & _ & _ & Hok & _).
  now rewrite Hrun.
Qed.

Lemma publish_velocity_keeps_test_mode
  (env : Env) (fuel : nat) (linear_vel angular_vel duration : PyFloat.float)
  (w : World) :
  test_mode (snd (publish_velocity env fuel linear_vel angular_vel duration w))
  = test_mode w.
Proof.
  destruct (publish_velocity_any env fuel linear_vel angular_vel duration w)
    as (n & k & r & w' & Hrun & _ & _ & Hmode & _).
  now rewrite Hrun.
Qed.

(** The loop of the interface, from the world in which it is entered. *)
Lemma interface_loop_keeps_rclpy_ok (env : Env) (session fuel : nat) (w : World) :
  rclpy_ok (snd (while_rclpy_ok fuel (user_interface_turn env session) w))
  = rclpy_ok w.
Proof.
  apply (while_rclpy_ok_keeps rclpy_ok).
  apply user_interface_turn_keeps; try reflexivity.
  apply publish_velocity_keeps_rclpy_ok.
Qed.

Lemma user_interface_rclpy_ok
  (env : Env) (session : nat) (w w' : World) (r : outcome unit) :
  user_interface env session w = (r, w') ->
  match r with
  | Return _ => rclpy_ok w' = false
  | _ => rclpy_ok w' = rclpy_ok w
  end.
Proof.
  unfold user_interface. unfold bind at 1.
  pose proof (get_test_mode_keeps rclpy_ok (fun _ _ => eq_refl)
                (fun _ _ => eq_refl) w) as Hmenu.
  destruct (get_test_mode w) as [[mode|e| |] w1]; cbn [fst snd] in *;
    try (intros H; injection H as <- <-; exact Hmenu).
  unfold bind at 1. unfold modify at 1.
  pose proof (interface_loop_keeps_rclpy_ok env session
                (S (List.length (stdin (with_test_mode (Some mode) w1))))
                (with_test_mode (Some mode) w1)) as Hkeep.
  destruct mode;
    [| |intros H; injection H as <- <-; reflexivity];
    unfold bind at 1; cbv beta;
    (destruct (while_rclpy_ok _ (user_interface_turn env session)
                 (with_test_mode _ w1)) as [[[]|e| |] w2];
     cbn [fst snd] in *; intros H; injection H as <- <-;
     [reflexivity|..]; rewrite Hkeep; exact Hmenu).
Qed.

(** X3. [user_interface] returns only after it has called
    [rclpy.shutdown()], and calls it on no other path: when the interface
    ends with an exception, or does not end, [rclpy.ok()] is what it was
    when the interface started. *)
Theorem interface_shuts_down_exactly_when_it_returns
  (env : Env) (session : nat) (w : World) :
  match fst (user_interface env session w) with
  | Return _ => rclpy_ok (snd (user_interface env session w)) = false
  | _ => rclpy_ok (snd (user_interface env session w)) = rclpy_ok w
  end.
Proof.
  pose proof (user_interface_rclpy_ok env session w) as H.
  destruct (user_interface env session w) as [r w'].
  exact (H w' r eq_refl).
Qed.

(** ** A turn of the interface, step by step *)

Lemma user_interface_turn_unfold
  (env : Env) (session : nat) (mode : TestMode) (w : World) :
  test_mode w = Some mode -> mode <> exit ->
  user_interface_turn env session w = turn_from env session mode w.
Proof.
  intros Hmode Hexit.
  destruct w as [tw ip tm ok nb cv out evs tc sc pc fr].
  cbn [test_mode] in Hmode. subst tm.
  unfold turn_from, asked.
  destruct mode; [| |contradiction]; cbn [collector session_of]; run_turn;
    match goal with
    | |- context [get_linear_test_parameters ?w0] =>
        destruct (get_linear_test_parameters w0) as [[[[v d]|]|e| |] w1]
    | |- context [get_angular_test_parameters ?w0] =>
        destruct (get_angular_test_parameters w0) as [[[[v d]|]|e| |] w1]
    end; try reflexivity; try (destruct e; reflexivity);
    match goal with
    | |- context [publish_velocity env session ?l ?a ?d ?w1] =>
        destruct (publish_velocity env session l a d w1)
          as [[?|?| |] [? ? ? ? ? ? ? evs2 ? ? ? ?]]
    end; try reflexivity;
    destruct evs2 as [|[answer| |] rest]; try reflexivity;
    destruct (in_y_yes (PyStr.strip_lower answer)); reflexivity.
Qed.

Lemma collector_console_only (mode : TestMode) (w : World) :
  console_only w (snd (collector mode w)).
Proof.
  destruct mode; cbn [collector];
    [unfold get_linear_test_parameters
    |unfold get_angular_test_parameters
    |apply console_only_refl];
    match goal with
    | |- context [get_test_parameters ?t ?p w] =>
        destruct (get_test_parameters_collects t p w) as (w' & -> & _ & Hq);
        exact Hq
    end.
Qed.

Lemma asked_cmd_vel (w : World) : cmd_vel (snd (asked w)) = cmd_vel w.
Proof.
  unfold asked. destruct (stdin w) as [|[answer| |] rest]; reflexivity.
Qed.

Lemma asked_publish_calls (w : World) :
  publish_calls (snd (asked w)) = publish_calls w.
Proof.
  unfold asked. destruct (stdin w) as [|[answer| |] rest]; reflexivity.
Qed.

(** ** The interface after the menu *)

Lemma user_interface_exit (env : Env) (session : nat) (w w1 : World) :
  get_test_mode w = (Return exit, w1) ->
  user_interface env session w
  = (Return tt, with_rclpy_ok false (with_test_mode (Some exit) w1)).
Proof.
  intros H. unfold user_interface. unfold bind at 1. rewrite H. reflexivity.
Qed.

Lemma user_interface_in_mode
  (env : Env) (session : nat) (mode : TestMode) (w w1 : World) :
  get_test_mode w = (Return mode, w1) -> mode <> exit ->
  user_interface env session w
  = match while_rclpy_ok (S (List.length (stdin w1)))
            (user_interface_turn env session)
            (with_test_mode (Some mode) w1) with
    | (Return _, w2) =>
        (Return tt,
         with_rclpy_ok false
           (with_stdout
              (stdout w2 ++ [Text "Shutting down velocity test node..."]) w2))
    | (Raise e, w2) => (Raise e, w2)
    | (Blocked, w2) => (Blocked, w2)
    | (OutOfFuel, w2) => (OutOfFuel, w2)
    end.
Proof.
  intros H Hmode. unfold user_interface. unfold bind at 1. rewrite H.
  unfold bind at 1, modify at 1.
  destruct mode; [| |contradiction]; unfold bind at 1;
    destruct w1 as [tw ip tm ok nb cv out evs tc sc pc fr];
    cbn [stdin with_test_mode];
    (destruct (while_rclpy_ok _ _ _) as [[[]|e| |] w2]; reflexivity).
Qed.

(** X2. When the operator chooses 3 at the menu, or interrupts it,
    [user_interface] records the mode, calls [rclpy.shutdown()] and returns.
    It publishes nothing, not even a stop command, prints nothing after the
    menu and reads nothing more from the console. *)
Theorem exit_at_the_menu_shuts_down_without_a_command
  (env : Env) (session : nat) (w : World) :
  fst (get_test_mode w) = Return exit ->
  fst (user_interface env session w) = Return tt /\
  cmd_vel (snd (user_interface env session w)) = cmd_vel w /\
  publish_calls (snd (user_interface env session w)) = publish_calls w /\
  test_mode (snd (user_interface env session w)) = Some exit /\
  rclpy_ok (snd (user_interface env session w)) = false /\
  stdout (snd (user_interface env session w)) = stdout (snd (get_test_mode w)) /\
  stdin (snd (user_interface env session w)) = stdin (snd (get_test_mode w)).
Proof.
  intros Hexit.
  destruct (get_test_mode_chooses w) as (w1 & Hrun & _ & Hq).
  rewrite Hrun in *. cbn [fst snd] in *.
  rewrite (user_interface_exit env session w w1)
    by (rewrite Hrun, Hexit; reflexivity).
  destruct Hq as (_ & _ & _ & _ & _ & Hc & _ & _ & Hp & _).
  cbn [fst snd]. split; [reflexivity|].
  split; [exact Hc|]. split; [exact Hp|].
  split; [reflexivity|]. split; [reflexivity|].
  split; reflexivity.
Qed.

Lemma exit_at_the_menu_shuts_down_without_a_command_witness :
  fst (get_test_mode exit_scenario) = Return exit /\
  cmd_vel (snd (user_interface ideal_env 100 exit_scenario)) = [] /\
  stdin (snd (user_interface ideal_env 100 exit_scenario)) = [Line "1"].
Proof.
  assert (H : fst (get_test_mode exit_scenario) = Return exit)
    by (vm_compute; reflexivity).
  split; [exact H|].
  destruct (exit_at_the_menu_shuts_down_without_a_command
              ideal_env 100 exit_scenario H)
    as (_ & Hc & _ & _ & _ & _ & Hin).
  split; [exact Hc|]. rewrite Hin. vm_compute. reflexivity.
Defined.

(** X5. An interrupt at a prompt for the parameters breaks the loop of the
    interface: the collector returns [(None, None)], no test is run and no
    command is published, the question whether to continue is not asked,
    and [user_interface] shuts rclpy down and returns. *)
Theorem interrupt_at_the_parameters_ends_the_interface
  (env : Env) (session : nat) (mode : TestMode) (w : World) :
  fst (get_test_mode w) = Return mode -> mode <> exit ->
  rclpy_ok w = true ->
  fst (collector mode (with_test_mode (Some mode) (snd (get_test_mode w))))
  = Return None ->
  fst (user_interface env session w) = Return tt /\
  cmd_vel (snd (user_interface env session w)) = cmd_vel w /\
  publish_calls (snd (user_interface env session w)) = publish_calls w /\
  rclpy_ok (snd (user_interface env session w)) = false /\
  stdin (snd (user_interface env session w))
  = stdin (snd (collector mode
                  (with_test_mode (Some mode) (snd (get_test_mode w))))).
Proof.
  intros Hmenu Hmode Hok Hnone.
  destruct (get_test_mode_chooses w) as (w1 & Hrun & _ & Hq).
  rewrite Hrun in *. cbn [fst snd] in *.
  destruct Hq as (_ & _ & _ & Hok1 & _ & Hc & _ & _ & Hp & _).
  pose proof (collector_console_only mode (with_test_mode (Some mode) w1))
    as (_ & _ & _ & _ & _ & Hc2 & _ & _ & Hp2 & _).
  destruct (collector mode (with_test_mode (Some mode) w1)) as [r2 w2] eqn:Hcol.
  cbn [fst snd] in *. subst r2.
  assert (Hui : user_interface env session w
                = (Return tt,
                   with_rclpy_ok false
                     (with_stdout
                        (stdout w2
                         ++ [Text "Shutting down velocity test node..."])
                        w2))).
  { rewrite (user_interface_in_mode env session mode w w1)
      by (try rewrite Hrun, Hmenu; auto).
    cbn [while_rclpy_ok]. unfold bind at 1, get.
    replace (rclpy_ok (with_test_mode (Some mode) w1)) with true
      by (destruct w1; cbn in *; congruence).
    unfold bind at 1.
    rewrite (user_interface_turn_unfold env session mode)
      by (auto; destruct w1; reflexivity).
    unfold turn_from. rewrite Hcol. reflexivity. }
  rewrite Hui. cbn [fst snd]. clear Hui Hrun Hcol.
  destruct w1, w2; cbn in *.
  split; [reflexivity|]. split; [congruence|]. split; [congruence|].
  split; reflexivity.
Qed.

Lemma interrupt_at_the_parameters_ends_the_interface_witness :
  fst (user_interface ideal_env 100 interrupt_scenario) = Return tt /\
  cmd_vel (snd (user_interface ideal_env 100 interrupt_scenario)) = [] /\
  stdin (snd (user_interface ideal_env 100 interrupt_scenario))
  = [Line "2.0"].
Proof.
  destruct (interrupt_at_the_parameters_ends_the_interface
              ideal_env 100 linear interrupt_scenario)
    as (Hr & Hc & _ & _ & Hin);
    [vm_compute; reflexivity | discriminate | reflexivity
    | vm_compute; reflexivity |].
  split; [exact Hr|]. split; [exact Hc|].
  rewrite Hin. vm_compute. reflexivity.
Defined.

(** X6. After a test the interface asks whether to continue, whatever
    became of the worker thread: the question is asked when
    [publish_velocity] returned and also when it died of an exception,
    which [join] does not hand on.  The loop goes round again exactly when
    the answer, stripped and in lower case, is [y] or [yes]; an interrupt
    at the question breaks the loop; the end of the console input raises
    [EOFError], which the interface does not catch. *)
Theorem continue_is_asked_after_every_test
  (env : Env) (session : nat) (mode : TestMode) (w : World)
  (velocity duration : PyFloat.float)
  (ev : console_event) (rest : list console_event) :
  test_mode w = Some mode -> mode <> exit ->
  fst (collector mode w) = Return (Some (velocity, duration)) ->
  stdin (snd (collector mode w)) = ev :: rest ->
  fst (session_of env session mode velocity duration (snd (collector mode w)))
  <> OutOfFuel ->
  fst (user_interface_turn env session w)
  = match ev with
    | Line answer => Return (in_y_yes (PyStr.strip_lower answer))
    | CtrlC => Return false
    | EndOfFile => Raise EOFError
    end /\
  stdin (snd (user_interface_turn env session w)) = rest.
Proof.
  intros Hmode Hexit Hcol Hin Hfuel.
  rewrite (user_interface_turn_unfold env session mode w Hmode Hexit).
  unfold turn_from.
  destruct (collector mode w) as [r1 w1]. cbn [fst snd] in *. subst r1.
  assert (Hs : stdin (snd (session_of env session mode velocity duration w1))
               = stdin w1)
    by (destruct mode; [| |contradiction]; apply publish_velocity_stdin).
  assert (Hb : fst (session_of env session mode velocity duration w1)
               <> Blocked).
  { destruct mode; [| |contradiction]; cbn [session_of];
      match goal with
      | |- context [publish_velocity env session ?l ?a ?d w1] =>
          destruct (publish_velocity_any env session l a d w1)
            as (n & k & r & w' & -> & _ & _ & _ & _ & _ & _
                & [(-> & _)|[(-> & _)|(-> & _)]]); discriminate
      end. }
  destruct (session_of env session mode velocity duration w1)
    as [[v|e| |] w2]; cbn [fst snd] in *; try congruence;
    unfold asked; rewrite Hs, Hin; destruct ev; split; reflexivity.
Qed.

Lemma continue_is_asked_after_every_test_witness :
  fst (session_of failing_env 100 linear half three_tenths
         (snd (collector linear yes_scenario))) = Raise PublishError /\
  fst (user_interface_turn failing_env 100 yes_scenario) = Return true.
Proof.
  split; [vm_compute; reflexivity|].
  apply (continue_is_asked_after_every_test failing_env 100 linear
           yes_scenario half three_tenths (Line "  YES ") []);
    try (vm_compute; reflexivity); vm_compute; discriminate.
Defined.

(** ** The mode is chosen once *)

Lemma repeat_Forall {A : Type} (P : A -> Prop) (a : A) (n : nat) :
  P a -> Forall P (repeat a n).
Proof. intros H. induction n; cbn [repeat]; constructor; assumption. Qed.

Lemma stop_msg_mode_only (mode : TestMode) : mode_only mode stop_msg.
Proof. destruct mode; repeat split. Qed.

Lemma session_of_mode_only
  (env : Env) (session : nat) (mode : TestMode)
  (velocity duration : PyFloat.float) (w : World) :
  exists sent : list Twist.t,
    cmd_vel (snd (session_of env session mode velocity duration w))
    = cmd_vel w ++ sent /\
    Forall (mode_only mode) sent.
Proof.
  destruct mode; cbn [session_of];
    [| |exists []; split; [symmetry; apply app_nil_r | constructor]];
    match goal with
    | |- context [publish_velocity env session ?l ?a ?d w] =>
        destruct (publish_velocity_any env session l a d w)
          as (n & k & r & w' & -> & Hc & _);
        exists (repeat (tick_msg l a) n ++ repeat stop_msg k)
    end;
    (split; [exact Hc|]);
    apply Forall_app; split; apply repeat_Forall;
    try apply stop_msg_mode_only; repeat split.
Qed.

Lemma user_interface_turn_mode_only
  (env : Env) (session : nat) (mode : TestMode) (w : World) :
  test_mode w = Some mode -> mode <> exit ->
  exists sent : list Twist.t,
    cmd_vel (snd (user_interface_turn env session w)) = cmd_vel w ++ sent /\
    Forall (mode_only mode) sent.
Proof.
  intros Hmode Hexit.
  rewrite (user_interface_turn_unfold env session mode w Hmode Hexit).
  unfold turn_from.
  pose proof (collector_console_only mode w)
    as (_ & _ & _ & _ & _ & Hc & _).
  assert (Hnone : forall w1, cmd_vel w1 = cmd_vel w ->
            exists sent : list Twist.t,
              cmd_vel w1 = cmd_vel w ++ sent /\ Forall (mode_only mode) sent).
  { intros w1 H. exists []. split; [|constructor].
    rewrite app_nil_r. exact H. }
  destruct (collector mode w) as [[[[v d]|]|e| |] w1]; cbn [snd] in *;
    try (apply Hnone; exact Hc);
    [|destruct (is_KeyboardInterrupt e); apply Hnone; exact Hc].
  destruct (session_of_mode_only env session mode v d w1)
    as (sent & Hs & Hall).
  exists sent. split; [|exact Hall]. rewrite <- Hc, <- Hs.
  destruct (session_of env session mode v d w1) as [[?|?| |] w2];
    cbn [snd]; try apply asked_cmd_vel; reflexivity.
Qed.

Lemma interface_loop_mode_only
  (env : Env) (session : nat) (mode : TestMode) :
  mode <> exit ->
  forall (fuel : nat) (w : World),
    test_mode w = Some mode ->
    test_mode (snd (while_rclpy_ok fuel (user_interface_turn env session) w))
    = Some mode /\
    exists sent : list Twist.t,
      cmd_vel (snd (while_rclpy_ok fuel (user_interface_turn env session) w))
      = cmd_vel w ++ sent /\
      Forall (mode_only mode) sent.
Proof.
  intros Hexit.
  assert (Hnone : forall w1 w, cmd_vel w1 = cmd_vel w ->
            exists sent : list Twist.t,
              cmd_vel w1 = cmd_vel w ++ sent /\ Forall (mode_only mode) sent).
  { intros w1 w H. exists []. split; [|constructor].
    rewrite app_nil_r. exact H. }
  induction fuel as [|fuel IH]; intros w Hmode.
  - split; [exact Hmode|]. apply Hnone. reflexivity.
  - cbn [while_rclpy_ok]. unfold bind at 1 3, get.
    destruct (rclpy_ok w);
      [|split; [exact Hmode | apply Hnone; reflexivity]].
    unfold bind.
    pose proof (user_interface_turn_keeps test_mode
                  (fun _ _ => eq_refl) (fun _ _ => eq_refl)
                  publish_velocity_keeps_test_mode env session w) as Hkeep.
    destruct (user_interface_turn_mode_only env session mode w Hmode Hexit)
      as (sent & Hs & Hall).
    destruct (user_interface_turn env session w) as [[[|]|e| |] w1];
      cbn [snd] in *; rewrite Hmode in Hkeep;
      try (split; [exact Hkeep | exists sent; split; assumption]).
    destruct (IH w1 Hkeep) as (Hm1 & sent1 & Hs1 & Hall1).
    split; [exact Hm1|]. exists (sent ++ sent1).
    split; [rewrite Hs1, Hs; symmetry; apply app_assoc|].
    apply Forall_app. split; assumption.
Qed.

(** X4. The mode is chosen once, at the menu, and holds for the whole run
    of [user_interface]: [self.test_mode] is that mode at the end, and
    every command the interface has published drives the component of that
    mode only, whatever the operator types afterwards, however many tests
    are run and however they end.  After the choice to exit nothing is
    published. *)
Theorem interface_drives_the_chosen_mode_only
  (env : Env) (session : nat) (mode : TestMode) (w : World) :
  fst (get_test_mode w) = Return mode ->
  test_mode (snd (user_interface env session w)) = Some mode /\
  exists sent : list Twist.t,
    cmd_vel (snd (user_interface env session w)) = cmd_vel w ++ sent /\
    Forall (mode_only mode) sent /\
    (mode = exit -> sent = []).
Proof.
  intros Hmenu.
  destruct (get_test_mode_chooses w) as (w1 & Hrun & _ & Hq).
  rewrite Hrun in Hmenu. cbn [fst] in Hmenu. rewrite Hmenu in Hrun.
  destruct Hq as (_ & _ & _ & _ & _ & Hc & _).
  assert (Hexit : mode = exit \/ mode <> exit)
    by (destruct mode; auto; right; discriminate).
  destruct Hexit as [->|Hexit].
  - rewrite (user_interface_exit env session w w1 Hrun). cbn [snd].
    split; [destruct w1; reflexivity|].
    exists []. rewrite app_nil_r.
    split; [destruct w1; exact Hc|]. split; [constructor | reflexivity].
  - rewrite (user_interface_in_mode env session mode w w1 Hrun Hexit).
    destruct (interface_loop_mode_only env session mode Hexit
                (S (List.length (stdin w1))) (with_test_mode (Some mode) w1))
      as (Hm & sent & Hs & Hall); [destruct w1; reflexivity|].
    replace (cmd_vel (with_test_mode (Some mode) w1)) with (cmd_vel w) in Hs
      by (destruct w1; symmetry; exact Hc).
    destruct (while_rclpy_ok _ _ _) as [[[]|e| |] w2]; cbn [snd] in *;
      (split; [destruct w2; exact Hm|]); exists sent;
      (split; [destruct w2; exact Hs|]); (split; [exact Hall|]);
      intros; contradiction.
Qed.

Lemma interface_drives_the_chosen_mode_only_witness :
  exists sent : list Twist.t,
    cmd_vel (snd (user_interface ideal_env 100 two_tests_scenario)) = sent /\
    Forall (mode_only angular) sent /\ List.length sent = 16%nat.
Proof.
  destruct (interface_drives_the_chosen_mode_only
              ideal_env 100 angular two_tests_scenario)
    as (_ & sent & Hs & Hall & _); [vm_compute; reflexivity|].
  change (cmd_vel two_tests_scenario ++ sent) with sent in Hs.
  exists sent. split; [exact Hs|]. split; [exact Hall|].
  rewrite <- Hs. vm_compute. reflexivity.
Defined.

(** ** The stop sequence on a channel that fails *)

Lemma for_range_publish_fails
  (env : Env) (msg : Twist.t) (secs : PyFloat.float) :
  forall (k j : nat) (w : World),
    (j < k)%nat ->
    (forall i, (i < j)%nat -> publish_raises env (publish_calls w + i) = false) ->
    publish_raises env (publish_calls w + j) = true ->
    for_range k (publish env msg ;; time_sleep secs) w
    = (Raise PublishError,
       with_cmd_vel (cmd_vel w ++ repeat msg j)
         (with_sleep_calls (j + sleep_calls w)
            (with_publish_calls (S j + publish_calls w) w))).
Proof.
  induction k as [|k IH]; intros j w Hj Hok Hraise; [lia|].
  rewrite for_range_S. unfold bind at 1. rewrite publish_sleep.
  destruct j as [|j].
  - rewrite Nat.add_0_r in Hraise. rewrite Hraise.
    destruct w; cbn. now rewrite app_nil_r.
  - pose proof (Hok 0%nat ltac:(lia)) as H0.
    rewrite Nat.add_0_r in H0. rewrite H0.
    rewrite (IH j).
    + destruct w; cbn. rewrite <- app_assoc, !Nat.add_succ_r. reflexivity.
    + lia.
    + intros i Hi. destruct w; cbn in *.
      specialize (Hok (S i) ltac:(lia)).
      now rewrite Nat.add_succ_r in Hok.
    + destruct w; cbn in *. now rewrite Nat.add_succ_r in Hraise.
Qed.

(** X7. [stop_robot] does not try again: when a [publish] of the stop
    sequence raises, the exception leaves [stop_robot] at once, with only
    the stop commands sent before it on the channel; the rest of the five
    are never sent and the sleep of that round is skipped. *)
Theorem stop_robot_gives_up_at_the_first_error
  (env : Env) (j : nat) (w : World) :
  (j < 5)%nat ->
  (forall i, (i < j)%nat -> publish_raises env (publish_calls w + i) = false) ->
  publish_raises env (publish_calls w + j) = true ->
  fst (stop_robot env w) = Raise PublishError /\
  cmd_vel (snd (stop_robot env w)) = cmd_vel w ++ repeat stop_msg j /\
  publish_calls (snd (stop_robot env w)) = (publish_calls w + j + 1)%nat /\
  sleep_calls (snd (stop_robot env w)) = (sleep_calls w + j)%nat.
Proof.
  intros Hj Hok Hraise.
  rewrite stop_robot_unfold,
    (for_range_publish_fails env stop_msg one_tenth 5 j w Hj Hok Hraise).
  cbn [fst snd]. fields.
  split; [reflexivity|]. split; [reflexivity|]. split; lia.
Qed.

Lemma stop_robot_gives_up_at_the_first_error_witness :
  fst (stop_robot fourth_fails_env busy_world) = Raise PublishError /\
  cmd_vel (snd (stop_robot fourth_fails_env busy_world)) = repeat stop_msg 3.
Proof.
  destruct (stop_robot_gives_up_at_the_first_error
              fourth_fails_env 3 busy_world)
    as (Hr & Hc & _).
  - lia.
  - intros i Hi. apply (forallb_seq_lt
                          (fun i => negb (publish_raises fourth_fails_env
                                            (publish_calls busy_world + i))) 3)
      in Hi; [|reflexivity].
    now apply negb_true_iff in Hi.
  - reflexivity.
  - split; [exact Hr | exact Hc].
Defined.

(** ** What a session finds in [self.twist_msg] *)

(** X8. [publish_velocity] writes all six components of
    [self.twist_msg] before it publishes: a session does not depend on the
    message an earlier session left there.  It does not clear the message
    afterwards: when the call is over, [self.twist_msg] is still the tick
    message of that session, not the stop command. *)
Theorem publish_velocity_overwrites_the_message
  (env : Env) (fuel : nat) (linear_vel angular_vel duration : PyFloat.float)
  (left_over : Twist.t) (w : World) :
  publish_velocity env fuel linear_vel angular_vel duration
    (with_twist_msg left_over w)
  = publish_velocity env fuel linear_vel angular_vel duration w /\
  twist_msg (snd (publish_velocity env fuel linear_vel angular_vel duration w))
  = tick_msg linear_vel angular_vel.
Proof.
  split.
  - rewrite !publish_velocity_unfold. destruct w; reflexivity.
  - rewrite publish_velocity_unfold. cbv zeta.
    pose proof (entering_fields linear_vel angular_vel duration w) as Hent.
    cbv zeta in Hent. destruct Hent as (Htw & _).
    destruct (publish_loop_any env
                (clock env (time_calls w) (sleep_calls w)) duration
                (PyFloat.div one ten) fuel
                (entering linear_vel angular_vel duration w))
      as (n & r1 & w1 & Hrun & _ & (Hq & _) & _).
    rewrite Hrun. rewrite Htw in Hq.
    destruct r1 as [[]|e| |]; cbn [snd]; try exact Hq.
    rewrite stop_robot_unfold.
    destruct (for_range_publish_any env stop_msg one_tenth 5 w1)
      as (k & _ & _ & Hstop).
    rewrite Hstop.
    destruct (Nat.eqb k 5); cbn [snd]; unfold leaving; fields; exact Hq.
Qed.

(** ** Durations that are not numbers of seconds *)

Lemma ltb_nan_r (x : PyFloat.float) : PyFloat.ltb x nan = false.
Proof. destruct x as [[]|[]| |[] m e]; reflexivity. Qed.

Lemma ltb_finite_inf (x : PyFloat.float) :
  is_finite x = true -> PyFloat.ltb x inf = true.
Proof. destruct x as [[]|[]| |[] m e]; cbn; try discriminate; reflexivity. Qed.

Lemma collector_accepts
  (mode : TestMode) (w : World) (s1 s2 : string)
  (rest : list console_event) (velocity duration : PyFloat.float) :
  mode <> exit ->
  stdin w = Line s1 :: Line s2 :: rest ->
  PyStr.float s1 = Some velocity ->
  PyStr.float s2 = Some duration ->
  PyFloat.leb duration PyFloat.zero = false ->
  exists w1 : World,
    collector mode w = (Return (Some (velocity, duration)), w1) /\
    stdin w1 = rest /\ console_only w w1.
Proof.
  intros Hmode Hin H1 H2 Hpos.
  assert (Hcol : collected (stdin w)
                 = (Return (Some (velocity, duration)), rest))
    by (rewrite Hin; cbn [collected]; rewrite H1, H2, Hpos; reflexivity).
  destruct mode; [| |contradiction]; cbn [collector];
    [unfold get_linear_test_parameters|unfold get_angular_test_parameters];
    match goal with
    | |- context [get_test_parameters ?t ?p w] =>
        destruct (get_test_parameters_collects t p w)
          as (w1 & Hrun & Hin1 & Hq)
    end;
    rewrite Hcol in Hrun, Hin1; exists w1; auto.
Qed.

(** X9. [nan] passes the validation of the duration: [float] accepts the
    string and [duration <= 0] is false for NaN.  The test that follows
    publishes no tick, since [elapsed < duration] is false at once; it
    sends the five stop commands and returns. *)
Theorem nan_duration_is_accepted_and_gives_no_tick
  (env : Env) (session : nat) (mode : TestMode) (w : World)
  (s1 s2 : string) (rest : list console_event) (velocity : PyFloat.float) :
  mode <> exit ->
  stdin w = Line s1 :: Line s2 :: rest ->
  PyStr.float s1 = Some velocity ->
  PyStr.float s2 = Some nan ->
  (0 < session)%nat ->
  (forall i, (i < 5)%nat -> publish_raises env (publish_calls w + i) = false) ->
  fst (collector mode w) = Return (Some (velocity, nan)) /\
  fst (session_of env session mode velocity nan (snd (collector mode w)))
  = Return PyNone /\
  cmd_vel (snd (session_of env session mode velocity nan
                  (snd (collector mode w))))
  = cmd_vel w ++ repeat stop_msg 5.
Proof.
  intros Hmode Hin H1 H2 Hfuel Hpub.
  destruct (collector_accepts mode w s1 s2 rest velocity nan
              Hmode Hin H1 H2 eq_refl)
    as (w1 & -> & _ & Hq).
  destruct Hq as (_ & _ & _ & _ & _ & Hc & _ & _ & Hp & _).
  cbn [fst snd]. split; [reflexivity|].
  destruct mode; [| |contradiction]; cbn [session_of];
    match goal with
    | |- context [publish_velocity env session ?l ?a nan w1] =>
        destruct (publish_velocity_exact env 0 session l a nan w1)
          as (w' & -> & Hcmd & _);
        [intros i Hi; lia
        |unfold session_condition; rewrite ltb_nan_r; reflexivity
        |intros i Hi; rewrite Hp; apply Hpub; exact Hi
        |exact Hfuel
        |]
    end;
    cbn [fst snd]; (split; [reflexivity|]); rewrite Hcmd, Hc; reflexivity.
Qed.

Lemma nan_duration_is_accepted_and_gives_no_tick_witness :
  fst (collector linear nan_scenario) = Return (Some (half, nan)) /\
  cmd_vel (snd (session_of ideal_env 100 linear half nan
                  (snd (collector linear nan_scenario))))
  = repeat stop_msg 5.
Proof.
  destruct (nan_duration_is_accepted_and_gives_no_tick
              ideal_env 100 linear nan_scenario "0.5" "nan" [Line "n"] half)
    as (Hcol & _ & Hc);
    [discriminate | reflexivity | vm_compute; reflexivity
    | vm_compute; reflexivity | lia | intros i _; reflexivity |].
  split; [exact Hcol | exact Hc].
Defined.

Lemma publish_loop_running
  (env : Env) (start_time duration sleep_time : PyFloat.float) :
  forall (n : nat) (w : World),
    is_publishing w = true ->
    (forall i, (i < n)%nat ->
       loop_condition env start_time duration w i = true) ->
    (forall i, (i < n)%nat ->
       publish_raises env (publish_calls w + i) = false) ->
    exists w' : World,
      publish_loop env n start_time duration sleep_time w = (OutOfFuel, w') /\
      cmd_vel w' = cmd_vel w ++ repeat (twist_msg w) n.
Proof.
  induction n as [|n IH]; intros w Hflag Hyes Hpub.
  - exists w. split; [reflexivity|]. cbn [repeat]. now rewrite app_nil_r.
  - rewrite publish_loop_S.
    pose proof (Hyes 0%nat ltac:(lia)) as H0.
    unfold loop_condition in H0. rewrite !Nat.add_0_r in H0.
    apply andb_prop in H0 as (Htime & Hclr).
    apply negb_true_iff in Hclr.
    pose proof (after_flag_counters env w) as (_ & _ & _ & _ & Hi).
    rewrite Htime, Hi, Hclr, Hflag. cbn.
    pose proof (Hpub 0%nat ltac:(lia)) as Hp0.
    rewrite Nat.add_0_r in Hp0. rewrite Hp0.
    pose proof (after_tick_counters env w) as (Ht & Hs & Hp & Hf & Hc & Hip).
    pose proof (after_tick_quiet env w) as (Hq0 & _).
    destruct (IH (after_tick env w)) as (w' & Hrun & Hcmd).
    + rewrite Hip, Hi, Hclr, Hflag. reflexivity.
    + intros i Hlt. specialize (Hyes (S i) ltac:(lia)).
      unfold loop_condition in *. rewrite Ht, Hs, Hf.
      now rewrite !Nat.add_succ_r in Hyes.
    + intros i Hlt. specialize (Hpub (S i) ltac:(lia)).
      rewrite Hp. now rewrite Nat.add_succ_r in Hpub.
    + exists w'. split; [exact Hrun|].
      rewrite Hcmd, Hc, Hq0, <- app_assoc. reflexivity.
Qed.

Lemma publish_velocity_running
  (env : Env) (fuel : nat) (linear_vel angular_vel duration : PyFloat.float)
  (w : World) :
  (forall i, (i < fuel)%nat -> session_condition env duration w i = true) ->
  (forall i, (i < fuel)%nat ->
     publish_raises env (publish_calls w + i) = false) ->
  exists w' : World,
    publish_velocity env fuel linear_vel angular_vel duration w
    = (OutOfFuel, w') /\
    cmd_vel w' = cmd_vel w ++ repeat (tick_msg linear_vel angular_vel) fuel.
Proof.
  intros Hyes Hpub.
  rewrite publish_velocity_unfold. cbv zeta.
  pose proof (entering_fields linear_vel angular_vel duration w) as Hent.
  cbv zeta in Hent.
  destruct Hent as (Htw & Hip & Hc & Ht & Hs & Hp & Hf & _).
  destruct (publish_loop_running env
              (clock env (time_calls w) (sleep_calls w)) duration
              (PyFloat.div one ten) fuel
              (entering linear_vel angular_vel duration w))
    as (w1 & Hrun & Hcmd).
  - exact Hip.
  - intros i Hi. unfold loop_condition. rewrite Ht, Hs, Hf.
    apply (Hyes i Hi).
  - intros i Hi. rewrite Hp. apply Hpub. exact Hi.
  - rewrite Hrun. exists w1. split; [reflexivity|].
    rewrite Hcmd, Htw, Hc. reflexivity.
Qed.

(** X10. An infinite duration passes the validation too: [float] accepts
    [inf], and also a numeral beyond the largest float, and [inf <= 0] is
    false.  The test that follows is not ended by the clock: as long as
    the elapsed time read is a number, the flag is not cleared and the
    channel takes the messages, the loop is still publishing ticks after
    any number of rounds, and the stop sequence is not reached. *)
Theorem infinite_duration_is_accepted_and_never_elapses
  (env : Env) (session : nat) (mode : TestMode) (w : World)
  (s1 s2 : string) (rest : list console_event) (velocity : PyFloat.float) :
  mode <> exit ->
  stdin w = Line s1 :: Line s2 :: rest ->
  PyStr.float s1 = Some velocity ->
  PyStr.float s2 = Some inf ->
  (forall i, (i < session)%nat -> is_finite (elapsed_at env w i) = true) ->
  (forall i, (i < session)%nat -> cleared env (flag_reads w + i) = false) ->
  (forall i, (i < session)%nat ->
     publish_raises env (publish_calls w + i) = false) ->
  fst (collector mode w) = Return (Some (velocity, inf)) /\
  fst (session_of env session mode velocity inf (snd (collector mode w)))
  = OutOfFuel /\
  cmd_vel (snd (session_of env session mode velocity inf
                  (snd (collector mode w))))
  = cmd_vel w ++ repeat (session_tick mode velocity) session.
Proof.
  intros Hmode Hin H1 H2 Hfin Hclr Hpub.
  destruct (collector_accepts mode w s1 s2 rest velocity inf
              Hmode Hin H1 H2 eq_refl)
    as (w1 & -> & _ & Hq).
  destruct Hq as (_ & _ & _ & _ & _ & Hc & Ht & Hs & Hp & Hf).
  cbn [fst snd]. split; [reflexivity|].
  destruct mode; [| |contradiction]; cbn [session_of session_tick];
    match goal with
    | |- context [publish_velocity env session ?l ?a inf w1] =>
        destruct (publish_velocity_running env session l a inf w1)
          as (w' & -> & Hcmd);
        [intros i Hi; unfold session_condition;
         rewrite Ht, Hs, Hf, (Hclr i Hi);
         pose proof (ltb_finite_inf _ (Hfin i Hi)) as Hlt;
         unfold elapsed_at in Hlt; rewrite Hlt; reflexivity
        |intros i Hi; rewrite Hp; apply Hpub; exact Hi
        |]
    end;
    cbn [fst snd]; (split; [reflexivity|]); rewrite Hcmd, Hc; reflexivity.
Qed.

Lemma infinite_duration_is_accepted_and_never_elapses_witness :
  fst (collector angular inf_scenario) = Return (Some (half, inf)) /\
  fst (session_of ideal_env 50 angular half inf
         (snd (collector angular inf_scenario))) = OutOfFuel.
Proof.
  destruct (infinite_duration_is_accepted_and_never_elapses
              ideal_env 50 angular inf_scenario "0.5" "1e400" [Line "n"] half)
    as (Hcol & Hrun & _);
    [discriminate | reflexivity | vm_compute; reflexivity
    | vm_compute; reflexivity
    | apply (forallb_seq_lt
               (fun i => is_finite (elapsed_at ideal_env inf_scenario i)));
      vm_compute; reflexivity
    | intros i _; reflexivity | intros i _; reflexivity |].
  split; [exact Hcol | exact Hrun].
Defined.

(** ** When [main] ends *)

(** X11. Once the node is built, and when no test of the interface is
    cut short by the bound that the model puts on the publish loop, [main]
    fails to end exactly when no SIGINT arrives and the interface thread
    has not returned: it is still waiting at a prompt, or it has died of
    an exception such as the [EOFError] of a closed console.  [main] then
    spins for ever with [rclpy.ok()] true, and sends no stop command.
    Without a SIGINT a [main] that ends does so because the interface has
    returned: it has found [rclpy.ok()] false, and goes through its
    [finally] block. *)
Theorem main_hangs_unless_the_interface_returns_or_sigint
  (env : Env) (session : nat) (w : World) :
  node_raises env = false ->
  fst (user_interface env session (started w)) <> OutOfFuel ->
  (fst (main env session w) = Blocked <->
   sigint env = false /\
   (fst (user_interface env session (started w)) = Blocked \/
    exists e : exn,
      fst (user_interface env session (started w)) = Raise e)) /\
  (fst (main env session w) = Blocked ->
   cmd_vel (snd (main env session w)) = cmd_vel (at_finally env session w) /\
   rclpy_ok (snd (main env session w)) = true) /\
  (sigint env = false -> fst (main env session w) <> Blocked ->
   fst (user_interface env session (started w)) = Return tt /\
   rclpy_ok (at_finally env session w) = false /\
   main env session w = finally_with_node env (at_finally env session w)).
Proof.
  intros Hnode Hfuel.
  rewrite (main_with_node env session w Hnode).
  assert (Hok : rclpy_ok (at_finally env session w)
                = match fst (user_interface env session (started w)) with
                  | Return _ => false
                  | _ => true
                  end).
  { pose proof (user_interface_rclpy_ok env session (started w)) as H.
    unfold at_finally.
    destruct (user_interface env session (started w)) as [r w'].
    specialize (H w' r eq_refl). cbn [fst snd].
    destruct r; rewrite H; try reflexivity; destruct w; reflexivity. }
  assert (Hfin : fst (finally_with_node env (at_finally env session w))
                 <> Blocked).
  { destruct (finally_with_node_stops env (at_finally env session w))
      as (k & _ & _ & [(-> & _)|(-> & _)]); discriminate. }
  generalize dependent (at_finally env session w). intros w1 Hok Hfin.
  destruct (fst (user_interface env session (started w))) as [[]|e| |];
    [| | |contradiction Hfuel; reflexivity];
    rewrite Hok; destruct (sigint env); cbn [andb negb fst snd].
  - split; [split; [intros H; contradiction
                   |intros (H & _); discriminate]|].
    split; [intros H; contradiction|]. intros H; discriminate.
  - split; [split; [intros H; contradiction
                   |intros (_ & [H|(e & H)]); discriminate]|].
    split; [intros H; contradiction|]. intros _ _. auto.
  - split; [split; [intros H; contradiction
                   |intros (H & _); discriminate]|].
    split; [intros H; contradiction|]. intros H; discriminate.
  - split; [split; [intros _; split; [reflexivity|right; exists e; reflexivity]
                   |reflexivity]|].
    split; [intros _; split; [reflexivity | exact Hok]|].
    intros _ H. contradiction H. reflexivity.
  - split; [split; [intros H; contradiction
                   |intros (H & _); discriminate]|].
    split; [intros H; contradiction|]. intros H; discriminate.
  - split; [split; [intros _; split; [reflexivity|left; reflexivity]
                   |reflexivity]|].
    split; [intros _; split; [reflexivity | exact Hok]|].
    intros _ H. contradiction H. reflexivity.
Qed.

Lemma main_hangs_unless_the_interface_returns_or_sigint_witness :
  node_raises ideal_env = false /\
  fst (user_interface ideal_env 100 (started closed_console_scenario))
  = Raise EOFError /\
  fst (main ideal_env 100 closed_console_scenario) = Blocked /\
  cmd_vel (snd (main ideal_env 100 closed_console_scenario)) = [].
Proof.
  assert (Hnode : node_raises ideal_env = false) by reflexivity.
  assert (Hui : fst (user_interface ideal_env 100
                       (started closed_console_scenario)) = Raise EOFError)
    by (vm_compute; reflexivity).
  assert (Hfuel : fst (user_interface ideal_env 100
                         (started closed_console_scenario)) <> OutOfFuel)
    by (rewrite Hui; discriminate).
  split; [exact Hnode|]. split; [exact Hui|].
  destruct (main_hangs_unless_the_interface_returns_or_sigint
              ideal_env 100 closed_console_scenario Hnode Hfuel)
    as ((_ & Hblocked) & Hquiet & _).
  assert (Hb : fst (main ideal_env 100 closed_console_scenario) = Blocked)
    by (apply Hblocked; split;
        [reflexivity | right; exists EOFError; exact Hui]).
  split; [exact Hb|].
  destruct (Hquiet Hb) as (Hc & _). rewrite Hc. vm_compute. reflexivity.
Defined.

(** ** A session that fails *)

Lemma publish_loop_flag
  (env : Env) (start_time duration sleep_time : PyFloat.float) :
  never_cleared env ->
  forall (fuel : nat) (w : World),
    is_publishing (snd (publish_loop env fuel start_time duration sleep_time w))
    = is_publishing w.
Proof.
  intros Hnever.
  assert (Hflag : forall w, after_flag env w
                            = with_flag_reads (S (flag_reads w)) (after_clock w))
    by (intros w; unfold after_flag; rewrite Hnever; reflexivity).
  induction fuel as [|fuel IH]; intros w; [reflexivity|].
  rewrite publish_loop_S.
  destruct (PyFloat.ltb _ duration); [|destruct w; reflexivity].
  destruct (is_publishing (after_flag env w)) eqn:Hip;
    [|rewrite Hflag; destruct w; reflexivity].
  destruct (publish_raises env (publish_calls w));
    [rewrite Hflag; destruct w; reflexivity|].
  rewrite IH. unfold after_tick. rewrite Hflag. destruct w; reflexivity.
Qed.

(** X12. When a session fails, the flag stays up: [publish_velocity] sets
    [self.is_publishing] first and clears it last, outside any [finally],
    so a call that ends with the exception of a [publish], in the loop or
    in the stop sequence, leaves [is_publishing] true and has not printed
    its line of completion.  No other exception leaves the call. *)
Theorem failed_session_leaves_the_flag_set
  (env : Env) (fuel : nat) (linear_vel angular_vel duration : PyFloat.float)
  (w : World) (e : exn) :
  never_cleared env ->
  fst (publish_velocity env fuel linear_vel angular_vel duration w) = Raise e ->
  e = PublishError /\
  is_publishing
    (snd (publish_velocity env fuel linear_vel angular_vel duration w))
  = true /\
  stdout (snd (publish_velocity env fuel linear_vel angular_vel duration w))
  = stdout w ++ [StartingTest linear_vel angular_vel duration;
                 Text "Test in progress..."].
Proof.
  intros Hnever.
  rewrite publish_velocity_unfold. cbv zeta.
  pose proof (entering_fields linear_vel angular_vel duration w) as Hent.
  cbv zeta in Hent.
  destruct Hent as (_ & Hip & _ & _ & _ & _ & _ & Hout & _).
  pose proof (publish_loop_flag env
                (clock env (time_calls w) (sleep_calls w)) duration
                (PyFloat.div one ten) Hnever fuel
                (entering linear_vel angular_vel duration w)) as Hflag.
  destruct (publish_loop_any env
              (clock env (time_calls w) (sleep_calls w)) duration
              (PyFloat.div one ten) fuel
              (entering linear_vel angular_vel duration w))
    as (n & r1 & w1 & Hrun & _ & Hq & Hend).
  rewrite Hrun in *. cbn [snd] in Hflag.
  destruct Hq as (_ & _ & _ & _ & Hq5 & _).
  rewrite Hip in Hflag. rewrite Hout in Hq5.
  destruct Hend as [(-> & _)|[(-> & _)|(-> & _)]]; cbn [fst snd];
    try discriminate.
  - rewrite stop_robot_unfold.
    destruct (for_range_publish_any env stop_msg one_tenth 5 w1)
      as (k & _ & _ & Hstop).
    rewrite Hstop.
    destruct (Nat.eqb k 5); cbn [fst snd]; [discriminate|].
    intros H. injection H as <-. fields. auto.
  - intros H. injection H as <-. auto.
Qed.

Lemma failed_session_leaves_the_flag_set_witness :
  is_publishing
    (snd (publish_velocity failing_env 100 half PyFloat.zero two
            (initial_world [])))
  = true.
Proof.
  apply (failed_session_leaves_the_flag_set failing_env 100 half PyFloat.zero
           two (initial_world []) PublishError).
  - intros n. reflexivity.
  - vm_compute. reflexivity.
Defined.
